(** * Implib.so: implib-gen.py

    A shallow embedding of the symbol-discovery and vtable-reconstruction
    parts of [implib-gen.py]: parsing of the tool listings (readelf, nm),
    the export filter, the unrelocated data reader, the relocation overlay
    and the C emission of vtables. Python dictionaries with string keys
    are stdpp [gmap]s, sets are [gset]s, lists updated by index use stdpp's
    list insert guarded by the range checks the source makes, and aborts
    ([error()] and uncaught exceptions) are the [Err] case of a small
    error monad. *)

From Stdlib Require Import ZArith Ascii String.
From stdpp Require Import base gmap strings list sorting.

Open Scope string_scope.

(** stdpp makes [String.append] opaque to [simpl]; the proofs below
    compute with it. *)
Global Arguments String.append : simpl nomatch.

(* ------------------------------------------------------------------ *)
(** ** Aborts and the error monad *)

(** [error(msg)] prints [msg] and exits; an uncaught Python exception
    ([KeyError], [ValueError], [AssertionError], ...) aborts as well. *)
Inductive abort :=
  | Fatal (msg : string)
  | Raise (exc : string).

Inductive result (A : Type) :=
  | Ok (a : A)
  | Err (e : abort).
Arguments Ok {A} a.
Arguments Err {A} e.

Global Instance result_ret : MRet result := fun _ a => Ok a.
Global Instance result_bind : MBind result := fun _ _ f m =>
  match m with Ok a => f a | Err e => Err e end.
Global Instance result_fmap : FMap result := fun _ _ f m =>
  match m with Ok a => Ok (f a) | Err e => Err e end.

Definition raise {A} (exc : string) : result A := Err (Raise exc).
Definition error {A} (msg : string) : result A := Err (Fatal ("implib-gen.py: error: " +:+ msg)).

Definition is_err {A} (r : result A) : bool :=
  match r with Err _ => true | Ok _ => false end.

(* ------------------------------------------------------------------ *)
(** ** Python string primitives (ASCII) *)

Module Py.

(** [str.isspace] on ASCII characters. *)
Definition is_space (c : ascii) : bool :=
  let n := nat_of_ascii c in
  (9 <=? n)%nat && (n <=? 13)%nat || (28 <=? n)%nat && (n <=? 32)%nat.

Fixpoint lstrip (s : string) : string :=
  match s with
  | EmptyString => EmptyString
  | String c s' => if is_space c then lstrip s' else s
  end.

Definition rstrip (s : string) : string :=
  String.rev (lstrip (String.rev s)).

(** [str.strip()] *)
Definition strip (s : string) : string := rstrip (lstrip s).

(** [s.startswith(p)] *)
Definition startswith (s p : string) : bool := String.prefix p s.

(** [p in s] for strings. *)
Fixpoint contains (s p : string) : bool :=
  String.prefix p s ||
  match s with
  | EmptyString => false
  | String _ s' => contains s' p
  end.

(** [s.endswith(p)] *)
Definition endswith (s p : string) : bool := startswith (String.rev s) (String.rev p).

(** [s.split()]: split at runs of whitespace, empty fields dropped. *)
Fixpoint split_ws_go (cur : string) (s : string) : list string :=
  match s with
  | EmptyString => if String.eqb cur "" then [] else [String.rev cur]
  | String c s' =>
      if is_space c
      then app (if String.eqb cur "" then [] else [String.rev cur]) (split_ws_go "" s')
      else split_ws_go (String c cur) s'
  end.
Definition split_ws (s : string) : list string := split_ws_go "" s.

(** Prepend [c] to the first field of a split. *)
Definition cons_head (c : ascii) (l : list string) : list string :=
  match l with
  | p :: ps => String c p :: ps
  | [] => [String c EmptyString]
  end.

(** [re.split(r"X+", s)] for a single character [X]: split at every
    maximal run of [X], empty fields at the ends kept. [in_run] records
    that the previous character was an [X]. *)
Fixpoint split_runs_go (x : ascii) (in_run : bool) (s : string) : list string :=
  match s with
  | EmptyString => [EmptyString]
  | String c s' =>
      if Ascii.eqb c x
      then if in_run then split_runs_go x true s' else EmptyString :: split_runs_go x true s'
      else cons_head c (split_runs_go x false s')
  end.
Definition split_runs (x : ascii) (s : string) : list string :=
  split_runs_go x false s.

(** [s.split(x)] for a single character [x]. *)
Fixpoint split_char (x : ascii) (s : string) : list string :=
  match s with
  | EmptyString => [EmptyString]
  | String c s' =>
      if Ascii.eqb c x then EmptyString :: split_char x s' else cons_head c (split_char x s')
  end.

(** [re.sub(r"@.*", "", s)]: drop everything from the first [@]. *)
Fixpoint cut_at (x : ascii) (s : string) : string :=
  match s with
  | EmptyString => EmptyString
  | String c s' => if Ascii.eqb c x then EmptyString else String c (cut_at x s')
  end.

Definition is_digit (c : ascii) : bool :=
  let n := nat_of_ascii c in (48 <=? n)%nat && (n <=? 57)%nat.

(** [re.sub(r"\[<localentry>: [0-9]+\]", "", s)]. [marker_end s] is the
    rest of [s] after a match of [[0-9]+\]] at its start. *)
Fixpoint marker_digits (seen : bool) (s : string) : option string :=
  match s with
  | String c s' =>
      if is_digit c then marker_digits true s'
      else if seen && Ascii.eqb c "]"%char then Some s' else None
  | EmptyString => None
  end.

Fixpoint drop_localentry_fuel (fuel : nat) (s : string) : string :=
  match fuel with
  | O => s
  | S fuel' =>
      match s with
      | EmptyString => EmptyString
      | String c s' =>
          let pre := "[<localentry>: " in
          if String.prefix pre s then
            match marker_digits false (substring (String.length pre)
                                         (String.length s) s) with
            | Some rest => drop_localentry_fuel fuel' rest
            | None => String c (drop_localentry_fuel fuel' s')
            end
          else String c (drop_localentry_fuel fuel' s')
      end
  end.
Definition drop_localentry (s : string) : string :=
  drop_localentry_fuel (String.length s) s.

(** [re.sub(r" \+ ", "+", s)] *)
Fixpoint collapse_plus (s : string) : string :=
  match s with
  | String " " (String "+" (String " " s')) => String "+" (collapse_plus s')
  | String c s' => String c (collapse_plus s')
  | EmptyString => EmptyString
  end.

(** [str.isupper()] and [str.upper()] on ASCII. *)
Definition is_upper_c (c : ascii) : bool :=
  let n := nat_of_ascii c in (65 <=? n)%nat && (n <=? 90)%nat.
Definition is_lower_c (c : ascii) : bool :=
  let n := nat_of_ascii c in (97 <=? n)%nat && (n <=? 122)%nat.
Definition isupper (s : string) : bool :=
  existsb is_upper_c (list_ascii_of_string s) &&
  negb (existsb is_lower_c (list_ascii_of_string s)).
Definition upper_c (c : ascii) : ascii :=
  if is_lower_c c then ascii_of_nat (nat_of_ascii c - 32) else c.
Fixpoint upper (s : string) : string :=
  match s with
  | EmptyString => EmptyString
  | String c s' => String (upper_c c) (upper s')
  end.

(** Digit value of a character in bases up to 36. *)
Definition digit_val (c : ascii) : option Z :=
  let n := nat_of_ascii c in
  if (48 <=? n)%nat && (n <=? 57)%nat then Some (Z.of_nat n - 48)%Z
  else if (97 <=? n)%nat && (n <=? 122)%nat then Some (Z.of_nat n - 87)%Z
  else if (65 <=? n)%nat && (n <=? 90)%nat then Some (Z.of_nat n - 55)%Z
  else None.

(** Digits of an integer literal, with Python's single underscores
    between digits. [us_ok]: an underscore may come now; [need]: a digit
    must still come. *)
Fixpoint digits (base : Z) (us_ok need : bool) (acc : Z) (s : string) : option Z :=
  match s with
  | EmptyString => if need then None else Some acc
  | String c s' =>
      if Ascii.eqb c "_"%char then
        if us_ok then digits base false true acc s' else None
      else match digit_val c with
           | Some d => if (d <? base)%Z
                       then digits base true false (acc * base + d)%Z s'
                       else None
           | None => None
           end
  end.

Definition sign_split (s : string) : Z * string :=
  match s with
  | String "-" s' => (-1, s')%Z
  | String "+" s' => (1, s')%Z
  | _ => (1, s)%Z
  end.

Definition apply_sign (sg : Z) (o : option Z) : option Z :=
  match o with Some v => Some (sg * v)%Z | None => None end.

(** [int(s, 16)] *)
Definition int16 (s : string) : option Z :=
  let '(sg, t) := sign_split (strip s) in
  apply_sign sg
    match t with
    | String "0" (String c t') =>
        if Ascii.eqb c "x"%char || Ascii.eqb c "X"%char
        then digits 16 true true 0 t' else digits 16 false true 0 t
    | _ => digits 16 false true 0 t
    end.

(** [int(s, 0)]: the base is read from the prefix; a decimal literal
    other than zero may not start with [0]. *)
Definition int0 (s : string) : option Z :=
  let '(sg, t) := sign_split (strip s) in
  apply_sign sg
    match t with
    | String "0" (String c t') =>
        if Ascii.eqb c "x"%char || Ascii.eqb c "X"%char then digits 16 true true 0 t'
        else if Ascii.eqb c "o"%char || Ascii.eqb c "O"%char then digits 8 true true 0 t'
        else if Ascii.eqb c "b"%char || Ascii.eqb c "B"%char then digits 2 true true 0 t'
        else match digits 10 false true 0 t with
             | Some 0%Z => Some 0%Z
             | _ => None
             end
    | _ => digits 10 false true 0 t
    end.

(** Python [int(s, base)] raising [ValueError]. *)
Definition py_int16 (s : string) : result Z :=
  match int16 s with Some v => Ok v | None => raise "ValueError" end.
Definition py_int0 (s : string) : result Z :=
  match int0 s with Some v => Ok v | None => raise "ValueError" end.

(** Formatting of integers: [str(v)] and [f"{v:x}"]. *)
Fixpoint pos_digits (fuel : nat) (base : Z) (n : Z) (acc : string) : string :=
  match fuel with
  | O => acc
  | S fuel' =>
      let d := Z.to_nat (n mod base) in
      let c := ascii_of_nat (if (d <? 10)%nat then 48 + d else 87 + d) in
      if (n <? base)%Z then String c acc
      else pos_digits fuel' base (n / base)%Z (String c acc)
  end.
Definition format_base (base : Z) (v : Z) : string :=
  let body := pos_digits (S (Z.to_nat (Z.log2_up (Z.abs v + 1)))) base (Z.abs v) "" in
  if (v <? 0)%Z then "-" +:+ body else body.
Definition str_int (v : Z) : string := format_base 10 v.
Definition hex (v : Z) : string := format_base 16 v.

End Py.

Example py_int16_ex : Py.int16 "0x1F" = Some 31%Z /\ Py.int16 "ff" = Some 255%Z
  /\ Py.int16 "foo" = None /\ Py.int16 "1_0" = Some 16%Z /\ Py.int16 "_1" = None.
Proof. vm_compute. auto. Qed.

Example py_int0_ex : Py.int0 "0x10" = Some 16%Z /\ Py.int0 "24" = Some 24%Z
  /\ Py.int0 "012" = None /\ Py.int0 "00" = Some 0%Z.
Proof. vm_compute. auto. Qed.

Example py_fmt_ex : Py.str_int 1130 = "1130" /\ Py.hex 4096 = "1000" /\ Py.str_int (-8) = "-8"
  /\ Py.str_int 0 = "0".
Proof. vm_compute. auto. Qed.

Example py_split_ex :
  Py.split_runs "@" "read@@GLIBC_2.2.5" = ["read"; "GLIBC_2.2.5"] /\
  Py.split_runs " " "1: 00 4 FUNC" = ["1:"; "00"; "4"; "FUNC"] /\
  Py.split_ws "  0 T  _foo " = ["0"; "T"; "_foo"] /\
  Py.drop_localentry "12 f [<localentry>: 8]" = "12 f " /\
  Py.strip "  ab c " = "ab c".
Proof. vm_compute. auto. Qed.

(* ------------------------------------------------------------------ *)
(** ** Symbols and the export filter *)

(** A symbol of the normalized symbol table ([collect_syms],
    [collect_def_exports]). The readelf column [Type] is the field [Typ]
    ([Type] is a keyword). [Value] is [None] when the readelf cell was
    empty: [parse_row] then leaves the empty string in place of an
    integer. *)
Record sym := mk_sym {
  Name : string;
  Value : option Z;
  Size : Z;
  Typ : string;
  Bind : string;
  Ndx : string;
  Default : bool;
  Version : option string;
  Visibility : string
}.

(** [is_exported] (local to [main]); [no_weak_symbols] is
    [args.no_weak_symbols]. *)
Definition is_exported (no_weak_symbols : bool) (s : sym) : bool :=
  let conditions :=
    [negb (String.eqb (Bind s) "LOCAL");
     negb (String.eqb (Visibility s) "HIDDEN");
     negb (String.eqb (Typ s) "NOTYPE");
     negb (String.eqb (Ndx s) "UND");
     negb (existsb (String.eqb (Name s)) [""; "_init"; "_fini"])] in
  let conditions :=
    if no_weak_symbols then app conditions [negb (String.eqb (Bind s) "WEAK")]
    else conditions in
  forallb id conditions.

(* ------------------------------------------------------------------ *)
(** ** Tool listings: [make_toc] and [parse_row] *)

(** A mapping from column index to column name. *)
Definition toc := list (nat * string).

(** [renames.get(n, n)] on an association list. *)
Fixpoint rename (renames : list (string * string)) (n : string) : string :=
  match renames with
  | [] => n
  | (k, v) :: r => if String.eqb k n then v else rename r n
  end.

(** [make_toc(words, renames)] *)
Definition make_toc (words : list string) (renames : list (string * string)) : toc :=
  imap (fun i n => (i, rename renames n)) words.

(** A cell of a parsed row: the text of the listing, or the integer a
    hexadecimal column was converted to. *)
Inductive cell :=
  | CStr (s : string)
  | CInt (v : Z).

Definition row := gmap string cell.

(** [parse_row(words, toc, hex_keys)] *)
Definition parse_row (words : list string) (t : toc) (hex_keys : list string)
  : result row :=
  let vals : row :=
    foldl (fun m '(i, k) => <[k := CStr (default "" (words !! i))]> m) ∅ t in
  foldl (fun acc k =>
           vals ← acc;
           match vals !! k with
           | None => raise "KeyError"
           | Some (CStr "") => Ok vals
           | Some (CStr x) => v ← Py.py_int16 x; Ok (<[k := CInt v]> vals)
           | Some (CInt 0) => Ok vals
           | Some (CInt _) => raise "TypeError"
           end) (Ok vals) hex_keys.

(** [vals[k]] where a string is expected. *)
Definition get_str (vals : row) (k : string) : result string :=
  match vals !! k with
  | Some (CStr x) => Ok x
  | Some (CInt _) => raise "TypeError"
  | None => raise "KeyError"
  end.

(** A text column of the record; every readelf symbol header has the
    columns [Type], [Bind] and [Ndx]. *)
Definition text_col (vals : row) (k : string) : string :=
  match vals !! k with Some (CStr x) => x | _ => "" end.

Definition int_col (vals : row) (k : string) : option Z :=
  match vals !! k with Some (CInt v) => Some v | _ => None end.

(** [dict.get(k, d)] *)
Definition dict_get (m : gmap string string) (k d : string) : string :=
  default d (m !! k).

(* ------------------------------------------------------------------ *)
(** ** [collect_syms] *)

(** The visibility table built from the lines of [nm -g f]. *)
Definition nm_visibility (nm_out : list string) : gmap string string :=
  foldl (fun vis line =>
           match Py.split_ws line with
           | _ :: symbol_type :: symbol_name :: _ =>
               <[symbol_name := if Py.isupper symbol_type then "DEFAULT" else "HIDDEN"]> vis
           | _ => vis
           end) ∅ nm_out.

(** Lines 212-219: the version suffix of a readelf name. Returns the
    stored name, [Default] and [Version]; the tuple unpacking
    [name, ver = re.split(r"@+", name)] raises [ValueError] unless the
    split yields exactly two parts. *)
Definition split_version (name : string) : result (string * bool * option string) :=
  if Py.contains name "@" then
    let dflt := Py.contains name "@@" in
    match Py.split_runs "@" name with
    | [n; ver] => Ok (n, dflt, Some ver)
    | _ => raise "ValueError"
    end
  else Ok (name, true, None).

(** One line of the Mach-O branch ([nm -D] listing). *)
Definition macho_line (visibility : gmap string string)
    (acc : list sym * gset string) (line : string) : result (list sym * gset string) :=
  let '(syms, syms_set) := acc in
  let line := Py.strip line in
  if String.eqb line "" then Ok acc else
  match Py.split_ws line with
  | address :: symbol_type :: name :: _ =>
      if bool_decide (name ∈ syms_set) then Ok acc else
      let syms_set := {[name]} ∪ syms_set in
      value ← (if String.eqb address "U" then Ok 0%Z else Py.py_int16 address);
      let s := {| Name := name;
                  Value := Some value;
                  Size := 0;
                  Typ := if String.eqb (Py.upper symbol_type) "T" then "FUNC" else "OBJECT";
                  Bind := if Py.isupper symbol_type then "GLOBAL" else "LOCAL";
                  Ndx := if negb (String.eqb (Py.upper symbol_type) "U") then "1" else "UND";
                  Default := true;
                  Version := None;
                  Visibility := dict_get visibility name "DEFAULT" |} in
      Ok (app syms [s], syms_set)
  | _ => Ok acc
  end.

(** State of the ELF branch: the current header, [syms], [syms_set]. *)
Record elf_state := mk_elf_state {
  st_toc : option toc;
  st_syms : list sym;
  st_set : gset string
}.

(** One line of the ELF branch ([readelf -sW] listing). *)
Definition elf_line (visibility : gmap string string)
    (st : elf_state) (line : string) : result elf_state :=
  let line := Py.strip line in
  let line := Py.drop_localentry line in
  if String.eqb line "" then Ok {| st_toc := None; st_syms := st_syms st; st_set := st_set st |}
  else
  let words := Py.split_runs " " line in
  if Py.startswith line "Num" then
    match st_toc st with
    | Some _ => error "multiple headers in output of readelf"
    | None =>
        Ok {| st_toc := Some (make_toc (map (fun n => String.concat "" (Py.split_char ":" n)) words) []);
              st_syms := st_syms st; st_set := st_set st |}
    end
  else
  match st_toc st with
  | None => Ok st
  | Some t =>
      vals ← parse_row words t ["Value"];
      name ← get_str vals "Name";
      if String.eqb name "" then Ok st else
      if bool_decide (name ∈ st_set st) then Ok st else
      let syms_set := {[name]} ∪ st_set st in
      size_s ← get_str vals "Size";
      size ← Py.py_int0 size_s;
      '(name, dflt, ver) ← split_version name;
      let s := {| Name := name;
                  Value := int_col vals "Value";
                  Size := size;
                  Typ := text_col vals "Type";
                  Bind := text_col vals "Bind";
                  Ndx := text_col vals "Ndx";
                  Default := dflt;
                  Version := ver;
                  Visibility := dict_get visibility name "DEFAULT" |} in
      Ok {| st_toc := Some t; st_syms := app (st_syms st) [s]; st_set := syms_set |}
  end.

(** Left fold of a fallible step over a list. *)
Fixpoint fold_result {A B} (step : A -> B -> result A) (acc : A) (l : list B) : result A :=
  match l with
  | [] => Ok acc
  | x :: l' => match step acc x with Ok acc' => fold_result step acc' l' | Err e => Err e end
  end.

(** [collect_syms(f)]. The inputs are what the source reads from the
    external tools, as lists of lines ([splitlines()]): the output of
    [nm -g f], whether [file f] reported a Mach-O file, and the output of
    [nm -D f] (Mach-O) or [readelf -sW f] (otherwise). *)
Definition collect_syms (f : string) (nm_out : list string) (is_macho : bool)
    (readelf_out : list string) : result (list sym) :=
  let visibility := nm_visibility nm_out in
  if is_macho then
    '(syms, _) ← fold_result (macho_line visibility) ([], ∅) readelf_out;
    Ok syms
  else
    st ← fold_result (elf_line visibility) (mk_elf_state None [] ∅) readelf_out;
    match st_toc st with
    | None => error ("failed to analyze symbols in " +:+ f)
    | Some _ => Ok (st_syms st)
    end.

Definition readelf_example : list string :=
  ["Symbol table '.dynsym' contains 3 entries:";
   "   Num:    Value          Size Type    Bind   Vis      Ndx Name";
   "     1: 0000000000001139    11 FUNC    GLOBAL DEFAULT   14 read@@GLIBC_2.2.5";
   "     2: 0000000000001144  0x10 FUNC    WEAK   DEFAULT   14 read@GLIBC_2.0";
   "     3: 0000000000000000     0 FUNC    GLOBAL DEFAULT  UND puts"].

Definition example_nm : list string := ["0000000000001139 T read"].

(** The records [collect_syms] returns on [readelf_example]. *)
Definition example_syms : list sym :=
  match collect_syms "libx.so" example_nm false readelf_example with
  | Ok l => l
  | Err _ => []
  end.

Example collect_syms_ex :
  (fun r => match r with
            | Ok l => Ok (map (fun s => (Name s, Value s, Size s, Default s, Version s, Bind s)) l)
            | Err e => Err e end)
    (collect_syms "libx.so" ["0000000000001139 T read"] false readelf_example)
  = Ok [("read", Some 4409%Z, 11%Z, true, Some "GLIBC_2.2.5", "GLOBAL");
        ("read", Some 4420%Z, 16%Z, false, Some "GLIBC_2.0", "WEAK");
        ("puts", Some 0%Z, 0%Z, true, None, "GLOBAL")].
Proof. vm_compute. reflexivity. Qed.

(* ------------------------------------------------------------------ *)
(** ** Sections, relocations and class symbols *)

(** An allocatable section of [collect_sections]: [Address], [Off] and
    [Size] are the hexadecimal columns. *)
Record section := mk_section {
  SecName : string;
  Address : Z;
  Off : Z;
  SecSize : Z
}.

(** The value of the column [Symbol's Name + Addend] after lines
    328-337: an empty cell stays the empty string, a non-empty one
    becomes the pair [(symbol_name, addend)]. *)
Inductive rel_target :=
  | TEmpty
  | TPair (sym_name : string) (addend : Z).

(** A dynamic relocation ([collect_relocs]); [RType] is the column
    [Type]. *)
Record rel := mk_rel {
  Offset : Z;
  RType : string;
  Target : rel_target
}.

(** A class symbol of [cls_syms] as the vtable functions read it: its
    [Value], [Size] and [Demangled Name]. *)
Record csym := mk_csym {
  CValue : Z;
  CSize : Z;
  Demangled_Name : string
}.

(** Stable insertion sort, as Python's [sorted(..., key=...)]. *)
Fixpoint insert_by {A} (le : A -> A -> bool) (x : A) (l : list A) : list A :=
  match l with
  | [] => [x]
  | y :: l' => if le y x then y :: insert_by le x l' else x :: l
  end.
Definition sort_by {A} (le : A -> A -> bool) (l : list A) : list A :=
  foldl (fun acc x => insert_by le x acc) [] l.

(** [sorted(d.items())] for a dictionary with string keys. *)
Definition sorted_items {A} (l : list (string * A)) : list (string * A) :=
  sort_by (fun x y => String.leb (fst x) (fst y)) l.

(* ------------------------------------------------------------------ *)
(** ** [read_unrelocated_data] *)

Definition is_symbol_in_section (s : csym) (sec : section) : bool :=
  let sec_end := (Address sec + SecSize sec)%Z in
  let is_start_in_section := (Address sec <=? CValue s)%Z && (CValue s <? sec_end)%Z in
  let is_end_in_section := (CValue s + CSize s <=? sec_end)%Z in
  is_start_in_section && is_end_in_section.

(** [f.seek(pos)] followed by [f.read(n)] on the file contents [file]. *)
Definition seek_read (file : list Byte.byte) (pos n : Z) : result (list Byte.byte) :=
  if (pos <? 0)%Z then raise "ValueError"
  else let rest := drop (Z.to_nat pos) file in
       Ok (if (n <? 0)%Z then rest else take (Z.to_nat n) rest).

(** [read_unrelocated_data(input_name, syms, secs)]; [file] is the
    contents of [input_name], [syms] the items of the dictionary in
    insertion order. *)
Definition read_unrelocated_data (file : list Byte.byte) (syms : list (string * csym))
    (secs : list section) : result (gmap string (list Byte.byte)) :=
  fold_result (fun data '(name, s) =>
      let sec := filter (fun sec => is_symbol_in_section s sec = true) secs in
      match sec with
      | [sec] =>
          b ← seek_read file (Off sec) (CSize s);
          Ok (<[name := b]> data)
      | _ =>
          error ("failed to locate section for interval [" +:+ Py.hex (CValue s)
                 +:+ ", " +:+ Py.hex (CValue s + CSize s) +:+ ")")
      end)
    ∅ (sort_by (fun x y => (CValue (snd x) <=? CValue (snd y))%Z) syms).

(* ------------------------------------------------------------------ *)
(** ** [collect_relocated_data] *)

(** The pairs [("byte", x)], [("offset", val)] and [("reloc", rel)]. *)
Inductive slot :=
  | SByte (v : Z)
  | SOffset (v : Z)
  | SReloc (r : rel).

Definition byte_val (b : Byte.byte) : Z := Z.of_N (Byte.to_N b).

(** [int.from_bytes(b, byteorder="little")] *)
Definition from_bytes_le (b : list Byte.byte) : Z :=
  fold_right (fun x acc => (byte_val x + 256 * acc)%Z) 0%Z b.

(** [b[lo:hi]] for [0 <= lo], [0 <= hi]. *)
Definition slice {A} (b : list A) (lo hi : nat) : list A :=
  take (hi - lo) (drop lo b).

(** [range(0, n, step)] for a positive [step]. *)
Definition range_step (n step : nat) : list nat :=
  map (fun k => k * step) (seq 0 ((n + step - 1) / step)).

(** Lines 418-421: the words of a vtable before the overlay. *)
Definition word_slots (b : list Byte.byte) (ptr_size : nat) : result (list slot) :=
  if decide (ptr_size = 0) then raise "ValueError"
  else Ok (map (fun i => SOffset (from_bytes_le (slice b (i * ptr_size) ((i + 1) * ptr_size))))
               (range_step (length b) ptr_size)).

(** The condition of line 426. *)
Definition reloc_applies (start finish : Z) (reloc_types : gset string) (r : rel) : bool :=
  bool_decide (RType r ∈ reloc_types) && (start <=? Offset r)%Z && (Offset r <? finish)%Z.

(** Lines 422-429: one relocation of the overlay. *)
Definition overlay_rel (start finish : Z) (ptr_size : nat) (reloc_types : gset string)
    (data : list slot) (r : rel) : result (list slot) :=
  if reloc_applies start finish reloc_types r
  then
    let i := ((Offset r - start) / Z.of_nat ptr_size)%Z in
    if (i <? Z.of_nat (length data))%Z
    then Ok (<[Z.to_nat i := SReloc r]> data)
    else raise "AssertionError"
  else Ok data.

Definition overlay (start finish : Z) (ptr_size : nat) (reloc_types : gset string)
    (rels : list rel) (data : list slot) : result (list slot) :=
  fold_result (overlay_rel start finish ptr_size reloc_types) data rels.

(** The loop body of [collect_relocated_data] for one symbol with bytes [b]. *)
Definition symbol_slots (s : csym) (b : list Byte.byte) (rels : list rel)
    (ptr_size : nat) (reloc_types : gset string) : result (list slot) :=
  if Py.startswith (Demangled_Name s) "typeinfo name" then
    Ok (map (fun x => SByte (byte_val x)) b)
  else
    data ← word_slots b ptr_size;
    let start := CValue s in
    let finish := (start + CSize s)%Z in
    overlay start finish ptr_size reloc_types rels data.

(** [collect_relocated_data(syms, bites, rels, ptr_size, reloc_types)] *)
Definition collect_relocated_data (syms : list (string * csym))
    (bites : gmap string (list Byte.byte)) (rels : list rel) (ptr_size : nat)
    (reloc_types : gset string) : result (gmap string (list slot)) :=
  fold_result (fun data '(name, s) =>
      match bites !! name with
      | None => raise "AssertionError"
      | Some b => d ← symbol_slots s b rels ptr_size reloc_types; Ok (<[name := d]> data)
      end) ∅ (sorted_items syms).

(* ------------------------------------------------------------------ *)
(** ** [generate_vtables] *)

Definition nl : string := String (ascii_of_nat 10) EmptyString.
Definition dq : string := String (ascii_of_nat 34) EmptyString.

(** [sep.join(l)] *)
Definition join (sep : string) (l : list string) : string := String.concat sep l.

(** [c_types[typ]] *)
Definition c_type (d : slot) : string :=
  match d with
  | SReloc _ => "const void *"
  | SByte _ => "unsigned char"
  | SOffset _ => "size_t"
  end.

(** [sym_name, addend = val["Symbol's Name + Addend"]]: unpacking the
    empty string raises [ValueError]. *)
Definition reloc_target (r : rel) : result (string * Z) :=
  match Target r with
  | TPair n a => Ok (n, a)
  | TEmpty => raise "ValueError"
  end.

(** Lines 449-461. [printed] is consulted but never added to. *)
Definition print_externs (cls_syms : list (string * csym))
    (cls_data : gmap string (list slot)) : result (list string) :=
  let printed : gset string := ∅ in
  fold_result (fun ss '(name, data) =>
      fold_result (fun ss d =>
          match d with
          | SReloc val =>
              '(sym_name, addend) ← reloc_target val;
              let sym_name := Py.cut_at "@" sym_name in
              if negb (bool_decide (sym_name ∈ map fst cls_syms))
                 && negb (bool_decide (sym_name ∈ printed))
              then Ok (app ss ["extern const char " +:+ sym_name +:+ "[];" +:+ nl +:+ nl])
              else Ok ss
          | _ => Ok ss
          end) ss data)
    [] (sorted_items (map_to_list cls_data)).

(** The declarator [decl], with [decl % type_name] as a function of
    the type name, and the initializer of one class symbol. *)
Definition code_info_of (s : csym) (data : list slot) : result ((string -> string) * string) :=
  let declarator :=
    if Py.startswith (Demangled_Name s) "typeinfo name"
    then fun t => "const unsigned char " +:+ t +:+ "[]"
    else let field_types :=
           imap (fun i d => c_type d +:+ " field_" +:+ Py.str_int (Z.of_nat i) +:+ ";") data in
         fun t => "const struct { " +:+ join " " field_types +:+ " } " +:+ t in
  vals ← fold_result (fun vals d =>
      match d with
      | SReloc val =>
          '(sym_name, addend) ← reloc_target val;
          let sym_name := Py.cut_at "@" sym_name in
          Ok (app vals ["(const char *)&" +:+ sym_name +:+ " + " +:+ Py.str_int addend])
      | SByte v | SOffset v => Ok (app vals [Py.str_int v +:+ "UL"])
      end) [] data;
  Ok (declarator, "{ " +:+ join ", " vals +:+ " }").

(** [generate_vtables(cls_tables, cls_syms, cls_data)]; [cls_tables] is
    not read by the function. *)
Definition generate_vtables (cls_syms : list (string * csym))
    (cls_data : gmap string (list slot)) : result string :=
  let header := "#ifdef __cplusplus" +:+ nl +:+ "extern " +:+ dq +:+ "C" +:+ dq +:+ " {"
                +:+ nl +:+ "#endif" +:+ nl +:+ nl in
  externs ← print_externs cls_syms cls_data;
  code_info ← fold_result (fun ci '(name, s) =>
      match cls_data !! name with
      | None => raise "KeyError"
      | Some data => info ← code_info_of s data; Ok (app ci [(name, info)])
      end) [] (sorted_items cls_syms);
  let decls := map (fun '(name, (decl, _)) =>
      let type_name := name +:+ "_type" in
      "typedef " +:+ decl type_name +:+ ";" +:+ nl +:+ "extern __attribute__((weak)) "
      +:+ type_name +:+ " " +:+ name +:+ ";" +:+ nl) code_info in
  let defs := map (fun '(name, (_, init)) =>
      let type_name := name +:+ "_type" in
      "const " +:+ type_name +:+ " " +:+ name +:+ " = " +:+ init +:+ ";" +:+ nl) code_info in
  let trailer := "#ifdef __cplusplus" +:+ nl +:+ "}  // extern " +:+ dq +:+ "C" +:+ dq
                 +:+ nl +:+ "#endif" +:+ nl in
  Ok (String.concat "" (header :: app externs (app decls (app defs [trailer])))).

(** Number of occurrences of [p] in [s], as [s.count(p)]. *)
Fixpoint count_occ_fuel (fuel : nat) (s p : string) : nat :=
  match fuel with
  | O => 0
  | S fuel' =>
      match s with
      | EmptyString => 0
      | String _ s' =>
          if String.prefix p s
          then S (count_occ_fuel fuel' (substring (String.length p) (String.length s) s) p)
          else count_occ_fuel fuel' s' p
      end
  end.
Definition count_occ (s p : string) : nat := count_occ_fuel (String.length s) s p.

(* ------------------------------------------------------------------ *)
(** ** [collect_relocs] *)

(** [re.split(r"\s\s+", s)]: split at runs of two or more whitespace
    characters; [ws] holds the pending whitespace (reversed). *)
Fixpoint split_ws2_go (cur ws : string) (s : string) : list string :=
  match s with
  | EmptyString =>
      if (2 <=? String.length ws)%nat then [String.rev cur; ""] else [String.rev (ws +:+ cur)]
  | String c s' =>
      if Py.is_space c then split_ws2_go cur (String c ws) s'
      else if (2 <=? String.length ws)%nat then String.rev cur :: split_ws2_go (String c "") "" s'
      else split_ws2_go (String c (ws +:+ cur)) "" s'
  end.
Definition split_ws2 (s : string) : list string := split_ws2_go "" "" s.

(** Lines 333-337 for a non-empty cell: [p = cell.split("+")], a single
    field [p0] becomes [["", p0]], and the target is [(p[0], int(p[1], 16))]. *)
Definition split_target (x : string) : result rel_target :=
  let p := Py.split_char "+" x in
  let p := match p with [p0] => [""; p0] | _ => p end in
  match p with
  | p0 :: p1 :: _ => a ← Py.py_int16 p1; Ok (TPair p0 a)
  | _ => raise "IndexError"
  end.

(** Lines 328-337: the target column of a parsed relocation row. *)
Definition row_target (r : row) : result rel_target :=
  let sym_name := "Symbol's Name + Addend" in
  cell ← match r !! sym_name, r !! "Symbol's Name" with
         | Some c, _ => Ok c
         | None, Some (CStr n) => Ok (CStr (n +:+ "+0"))
         | None, Some (CInt _) => raise "TypeError"
         | None, None => raise "KeyError"
         end;
  match cell with
  | CStr "" => Ok TEmpty
  | CStr x => split_target x
  | CInt _ => raise "AttributeError"
  end.

(** A relocation of [collect_relocs]: its parsed columns and the
    processed target column. *)
Record rel_row := mk_rel_row {
  rr_cols : row;
  rr_target : rel_target
}.

Definition freebsd_rename : list (string * string) :=
  [("r_offset", "Offset"); ("r_info", "Info"); ("r_type", "Type");
   ("st_value", "Symbol's Value"); ("st_name + r_addend", "Symbol's Name + Addend")].

(** [{idx: rename[name] for idx, name in toc.items()}] *)
Definition rename_strict (t : toc) : result toc :=
  fold_result (fun acc '(i, n) =>
      match find (fun kv => String.eqb (fst kv) n) freebsd_rename with
      | Some (_, v) => Ok (app acc [(i, v)])
      | None => raise "KeyError"
      end) [] t.

(** The outcome of one line: go on with a state, or [return []]. *)
Inductive step (A : Type) := Continue (a : A) | ReturnEmpty.
Arguments Continue {A} a.
Arguments ReturnEmpty {A}.

Fixpoint relocs_loop (t : option toc) (rels : list rel_row) (lines : list string)
  : result (step (option toc * list rel_row)) :=
  match lines with
  | [] => Ok (Continue (t, rels))
  | line :: lines' =>
      let line := Py.strip line in
      if String.eqb line "" then relocs_loop None rels lines'
      else if String.eqb line "There are no relocations in this file." then Ok ReturnEmpty
      else if match line with
              | String "T" (String "y" (String "p" (String "e" (String d (String ":" _))))) =>
                  Py.is_digit d
              | _ => false end
      then relocs_loop t rels lines'
      else if Py.startswith line "Offset" then
        match t with
        | Some _ => error "multiple headers in output of readelf"
        | None => relocs_loop (Some (make_toc (split_ws2 line) [])) rels lines'
        end
      else if Py.startswith line "r_offset" then
        match t with
        | Some _ => error "multiple headers in output of readelf"
        | None => t' ← rename_strict (make_toc (split_ws2 line) []);
                  relocs_loop (Some t') rels lines'
        end
      else match t with
        | None => relocs_loop t rels lines'
        | Some tc =>
            (* the line is stripped: re.split(r"\s+") has no empty ends *)
            let words := Py.split_ws (Py.collapse_plus line) in
            vals ← parse_row words tc ["Offset"; "Info"];
            tg ← row_target vals;
            relocs_loop t (app rels [mk_rel_row vals tg]) lines'
        end
  end.

(** [collect_relocs(f)] on an ELF file: [out] is the output of
    [readelf -rW f], as lines. *)
Definition collect_relocs (f : string) (out : list string) : result (list rel_row) :=
  st ← relocs_loop None [] out;
  match st with
  | ReturnEmpty => Ok []
  | Continue (None, _) => error ("failed to analyze relocations in " +:+ f)
  | Continue (Some _, rels) => Ok rels
  end.

Definition relocs_example : list string :=
  ["Relocation section '.rela.dyn' at offset 0x4f8 contains 2 entries:";
   "    Offset             Info             Type               Symbol's Value  Symbol's Name + Addend";
   "0000000000003de8  0000000000000008 R_X86_64_RELATIVE                         1130";
   "0000000000003dd8  0000000600000001 R_X86_64_64            0000000000000000 _ZN1C3fooEv + 10"].

Example collect_relocs_ex :
  (fun r => match r with Ok l => Ok (map rr_target l) | Err e => Err e end)
    (collect_relocs "libx.so" relocs_example)
  = Ok [TEmpty; TPair "_ZN1C3fooEv" 16].
Proof. vm_compute. reflexivity. Qed.

(* ------------------------------------------------------------------ *)
(** ** Input classification, [collect_sections] and the vtable stage
    of [main] *)

(** What the external tools report on the input file. *)
Record tools := mk_tools {
  readelf_d_ok : bool;                  (** [readelf -d f] exits with 0 *)
  file_stdout : option string;          (** stdout of [file f]; [None]: [OSError] *)
  file_clean : bool;                    (** [file f] exits with 0, empty stderr *)
  readelf_SW : option (list string)     (** [readelf -SW f]; [None]: it fails *)
}.

(** [is_binary_file(filename)] *)
Definition is_binary_file (t : tools) : bool :=
  readelf_d_ok t ||
  match file_stdout t with
  | Some output => existsb (Py.contains output) ["Mach-O"; "shared library"]
  | None => false
  end.

(** The loop of [collect_sections] over the lines of [readelf -SW f]. *)
Fixpoint sections_loop (t : option toc) (secs : list row) (lines : list string)
  : result (option toc * list row) :=
  match lines with
  | [] => Ok (t, secs)
  | line :: lines' =>
      let line := Py.strip line in
      if String.eqb line "" then sections_loop t secs lines' else
      let line := String.concat "[" (map Py.lstrip (Py.split_char "[" line)) in
      let words := Py.split_runs " " line in
      if Py.startswith line "[Nr]" then
        match t with
        | Some _ => error "multiple headers in output of readelf"
        | None => sections_loop (Some (make_toc words [("Addr", "Address")])) secs lines'
        end
      else match t with
        | Some tc =>
            if Py.startswith line "[" then
              sec ← parse_row words tc ["Address"; "Off"; "Size"];
              flg ← get_str sec "Flg";
              sections_loop t (if Py.contains flg "A" then app secs [sec] else secs) lines'
            else sections_loop t secs lines'
        | None => sections_loop t secs lines'
        end
  end.

(** [collect_sections(f)] *)
Definition collect_sections (f : string) (t : tools) : result (list row) :=
  match file_stdout t with
  | Some file_out =>
      if negb (file_clean t) then error "file failed"
      else if Py.contains file_out "Mach-O" then Ok []
      else match readelf_SW t with
           | None => error "readelf failed"
           | Some out =>
               '(tc, secs) ← sections_loop None [] out;
               match tc with
               | None => error ("failed to analyze sections in " +:+ f)
               | Some _ => Ok secs
               end
           end
  | None =>
      match readelf_SW t with
      | None => error "readelf failed"
      | Some out =>
          '(tc, secs) ← sections_loop None [] out;
          match tc with
          | None => error ("failed to analyze sections in " +:+ f)
          | Some _ => Ok secs
          end
      end
  end.

(** Lines 844-862 of [main], up to [collect_sections]: the [.def] guard,
    the class-symbol loop (which cannot abort and is not modelled) and
    the section listing. The output files are written only after the
    whole vtable block. *)
Definition vtable_stage (vtables : bool) (input_name : string) (t : tools)
  : result (list row) :=
  if vtables then
    let binary := is_binary_file t in
    if negb binary && Py.endswith input_name ".def" then
      error "vtables not supported for .def files"
    else collect_sections input_name t
  else Ok [].

(* ------------------------------------------------------------------ *)
(** ** Text helpers for the def-file, SONAME and suffix parsers *)

(** [[A-Za-z0-9_]] *)
Definition is_ident_c (c : ascii) : bool :=
  Py.is_upper_c c || Py.is_lower_c c || Py.is_digit c || Ascii.eqb c "_"%char.

(** The remainder of [s] after the prefix [p], if [s] starts with [p]. *)
Fixpoint drop_prefix (p s : string) : option string :=
  match p, s with
  | EmptyString, _ => Some s
  | String a p', String b s' => if Ascii.eqb a b then drop_prefix p' s' else None
  | String _ _, EmptyString => None
  end.

(** The text before and after the first [x] of [s]. *)
Fixpoint first_split (x : ascii) (s : string) : option (string * string) :=
  match s with
  | EmptyString => None
  | String c s' =>
      if Ascii.eqb c x then Some (EmptyString, s')
      else match first_split x s' with
           | Some (a, b) => Some (String c a, b)
           | None => None
           end
  end.

(** The first [Some] of [f] over a list, as a [for] loop with [return]. *)
Fixpoint find_map {A B} (f : A -> option B) (l : list A) : option B :=
  match l with
  | [] => None
  | x :: l' => match f x with Some y => Some y | None => find_map f l' end
  end.

(** [os.path.basename(p)]: the text after the last [/]. *)
Definition basename (p : string) : string := default "" (last (Py.split_char "/" p)).

(** [msg] as [warn(msg)] writes it to stderr. *)
Definition warn_msg (msg : string) : string := "implib-gen.py: warning: " +:+ msg +:+ nl.

(* ------------------------------------------------------------------ *)
(** ** [collect_def_exports] *)

(** [re.match(r"^\s*;", line)] *)
Definition is_def_comment (line : string) : bool := Py.startswith (Py.lstrip line) ";".

(** The leading run of [[A-Za-z0-9_]] of [s] and the rest. *)
Fixpoint ident_prefix (s : string) : string * string :=
  match s with
  | String c s' =>
      if is_ident_c c then let '(a, b) := ident_prefix s' in (String c a, b)
      else (EmptyString, s)
  | EmptyString => (EmptyString, EmptyString)
  end.

Definition all_space (s : string) : bool := forallb Py.is_space (list_ascii_of_string s).

(** [m = re.match(r"^\s+([A-Za-z0-9_]+)\s*$", line)] and [m[1]]: a
    whitespace run that cannot be empty, a run of identifier characters
    (the group), then whitespace only ([$] may also match before a final
    newline, which [\s*] consumes anyway). The classes are disjoint, so
    each run is maximal. *)
Definition def_entry (line : string) : option string :=
  match line with
  | String c _ =>
      if Py.is_space c then
        let '(name, rest) := ident_prefix (Py.lstrip line) in
        if negb (String.eqb name "") && all_space rest then Some name else None
      else None
  | EmptyString => None
  end.

Definition def_sym (name : string) : sym :=
  {| Name := name; Value := None; Size := 0; Typ := "FUNC"; Bind := "GLOBAL"; Ndx := "0";
     Default := true; Version := None; Visibility := "DEFAULT" |}.

(** The two [while lines] loops over the lines in file order ([lines]
    is reversed and popped from the end). [def_outer] looks for a line
    that strips to [EXPORTS]; [def_inner] reads the entries after it. A
    line that is neither a comment nor an entry is pushed back and the
    inner loop left: the outer loop pops it again, which is the
    [EXPORTS] test made on it here. *)
Fixpoint def_outer (lines : list string) : list string :=
  match lines with
  | [] => []
  | line :: lines' =>
      if String.eqb (Py.strip line) "EXPORTS" then def_inner lines' else def_outer lines'
  end
with def_inner (lines : list string) : list string :=
  match lines with
  | [] => []
  | line :: lines' =>
      if is_def_comment line then def_inner lines'
      else match def_entry line with
           | Some name => name :: def_inner lines'
           | None =>
               if String.eqb (Py.strip line) "EXPORTS" then def_inner lines' else def_outer lines'
           end
  end.

(** [collect_def_exports(filename)]: [contents] are the lines of
    [f.readlines()] (each with its newline), [None] when reading raises
    [UnicodeDecodeError] or [IOError]. The result is the symbol list and
    what is written to stderr. *)
Definition collect_def_exports (filename : string) (contents : option (list string))
  : list sym * list string :=
  match contents with
  | None => ([], [])
  | Some lines =>
      let syms := map def_sym (def_outer lines) in
      (syms, match syms with
             | [] => [warn_msg ("failed to locate symbols in " +:+ filename)]
             | _ => []
             end)
  end.

(* ------------------------------------------------------------------ *)
(** ** [read_library_name] and [read_soname] *)

(** [[A-Za-z0-9_.\-]] *)
Definition is_libname_c (c : ascii) : bool :=
  is_ident_c c || Ascii.eqb c "."%char || Ascii.eqb c "-"%char.

(** [\s+([A-Za-z0-9_.\-]+)$] on the text after the keyword of a
    stripped line: a whitespace run, then only name characters. *)
Definition libname_rest (r : string) : option string :=
  match r with
  | String c _ =>
      if Py.is_space c then
        let n := Py.lstrip r in
        if negb (String.eqb n "") && forallb is_libname_c (list_ascii_of_string n)
        then Some n else None
      else None
  | EmptyString => None
  end.

(** [re.match(r"^(?:LIBRARY|NAME)\s+([A-Za-z0-9_.\-]+)$", line)] and
    [m[1]]; when [LIBRARY] matches but the rest does not, the [NAME]
    branch cannot match either. *)
Definition library_line (line : string) : option string :=
  match drop_prefix "LIBRARY" line with
  | Some r => libname_rest r
  | None =>
      match drop_prefix "NAME" line with
      | Some r => libname_rest r
      | None => None
      end
  end.

(** [read_library_name(filename)]; [contents] as for
    [collect_def_exports]. *)
Definition read_library_name (contents : option (list string)) : option string :=
  match contents with
  | None => None
  | Some lines => find_map (fun line => library_line (Py.strip line)) lines
  end.

(** [\[(.+)\]] after the greedy [.*] that follows [(SONAME)]: the match
    ends at the last [\]] ([.+] is greedy), and starts at the last [\[]
    that leaves at least one character before it ([.*] is greedy). In the
    reversed text that is the first [\]] and, after at least one more
    character, the first [\[]. *)
Definition soname_rest (r : string) : option string :=
  match first_split "]" (String.rev r) with
  | Some (_, String c b) =>
      match first_split "[" b with
      | Some (p, _) => Some (String.rev (String c p))
      | None => None
      end
  | _ => None
  end.

(** [re.search(r"\(SONAME\).*\[(.+)\]", line)] and its group, for a line
    without newline: the leftmost position where the pattern matches. *)
Fixpoint soname_search (s : string) : option string :=
  match s with
  | EmptyString => None
  | String _ s' =>
      match match drop_prefix "(SONAME)" s with Some r => soname_rest r | None => None end with
      | Some n => Some n
      | None => soname_search s'
      end
  end.

(** [read_soname(f)]: [file_out] is [run(["file", f])] ([None]: [OSError],
    [Err]: [run] exits), [readelf_d] is [run(["readelf", "-d", f])] as
    lines of [splitlines()]. *)
Definition read_soname (f : string) (file_out : option (result string))
    (readelf_d : result (list string)) : result (option string) :=
  let from_readelf :=
    out ← readelf_d;
    Ok (find_map (fun line =>
                    let line := Py.strip line in
                    if String.eqb line "" then None else soname_search line) out) in
  match file_out with
  | Some (Err e) => Err e
  | Some (Ok out) => if Py.contains out "Mach-O" then Ok (Some (basename f)) else from_readelf
  | None => from_readelf
  end.

(* ------------------------------------------------------------------ *)
(** ** Parts of [main]: target, names, functions *)

(** [re.match(r"^i[0-9]86", t)] *)
Definition is_ix86 (t : string) : bool :=
  match t with
  | String "i" (String d (String "8" (String "6" _))) => Py.is_digit d
  | _ => false
  end.

(** Lines 699-716: the architecture directory of [args.target]. *)
Definition arch_of_target (t : string) : string :=
  if Py.startswith t "arm" then "arm"
  else if is_ix86 t then "i386"
  else if Py.startswith t "amd64" then "x86_64"
  else if Py.startswith t "mips64" then "mips64"
  else if Py.startswith t "mips" then "mips"
  else if Py.startswith t "ppc64le" then "powerpc64le"
  else if Py.startswith t "ppc64" then "powerpc64"
  else if Py.startswith t "rv64" then "riscv64"
  else default "" (head (Py.split_char "-" t)).

(** [re.split(r"\r?\n", s)]: split at each newline, a carriage return
    just before it going with it. *)
Fixpoint split_lines_go (s : string) : list string :=
  match s with
  | EmptyString => [EmptyString]
  | String "013"%char (String "010"%char s') => EmptyString :: split_lines_go s'
  | String "010"%char s' => EmptyString :: split_lines_go s'
  | String c s' => Py.cons_head c (split_lines_go s')
  end.

(** Lines 727-733: the names of [--symbol-list]; [contents] is
    [f.read()]. [re.sub(r"#.*", "", line)] drops everything from the
    first [#] (a piece has no newline). *)
Definition read_symbol_list (contents : string) : list string :=
  foldl (fun funs line =>
           let line := Py.strip (Py.cut_at "#" line) in
           if String.eqb line "" then funs else app funs [line])
        [] (split_lines_go contents).

(** Lines 807-822: [all_funs] and whether the versioned-symbol warning
    was given, from the exported symbols [syms]. *)
Definition all_funs_of (syms : list sym) : gset string * bool :=
  foldl (fun acc s =>
           let '(all_funs, warn_versioned) := acc in
           if negb (Default s) then (all_funs, true) else ({[Name s]} ∪ all_funs, warn_versioned))
        (∅, false) (filter (fun s => String.eqb (Typ s) "FUNC") syms).

(** Lines 807-835: the functions to wrap and the warnings written to
    stderr; [symbol_list] is the contents of [--symbol-list], if given. *)
Definition select_funs (input_name : string) (quiet : bool) (symbol_list : option string)
    (syms : list sym) : list string * list string :=
  let '(all_funs, warned) := all_funs_of syms in
  let w := if warned
           then [warn_msg ("library " +:+ input_name +:+ " contains versioned symbols which are NYI")]
           else [] in
  match symbol_list with
  | None =>
      let funs := sort_by String.leb (elements all_funs) in
      (funs, app w (match funs with
                    | [] => if quiet then [] else [warn_msg ("no public functions were found in " +:+ input_name)]
                    | _ => []
                    end))
  | Some contents =>
      let funs := read_symbol_list contents in
      let missing_funs := filter (fun name => name ∉ all_funs) funs in
      (filter (fun name => name ∈ all_funs) funs,
       app w (match missing_funs with
              | [] => []
              | _ => [warn_msg ("some user-specified functions are not present in library: "
                                +:+ join ", " missing_funs)]
              end))
  end.

(** [re.sub(r"\.def$", "", s)]: [$] matches at the end and before a
    final newline; at most one of the two can follow [.def]. *)
Definition drop_def_ext (s : string) : string :=
  if Py.endswith s ".def" then substring 0 (String.length s - 4) s
  else if Py.endswith s (".def" +:+ nl) then substring 0 (String.length s - 5) s +:+ nl
  else s.

(** Lines 737-739 and 897-901: [stem] and [suffix], the base name of
    the output files; [suffix_arg] is [args.suffix]. *)
Definition output_suffix (suffix_arg : option string) (input_name : string) (binary : bool)
  : string :=
  match suffix_arg with
  | Some s => s
  | None => let s := basename input_name in if binary then s else drop_def_ext s
  end.

(** [re.sub(r"[^a-zA-Z_0-9]+", "_", s)]: each maximal run of other
    characters becomes one [_]; [in_run]: the previous character was in
    such a run. *)
Fixpoint ident_sub_go (in_run : bool) (s : string) : string :=
  match s with
  | EmptyString => EmptyString
  | String c s' =>
      if is_ident_c c then String c (ident_sub_go false s')
      else if in_run then ident_sub_go true s' else String "_" (ident_sub_go true s')
  end.

(** Line 902: [lib_suffix] *)
Definition lib_suffix_of (suffix : string) : string := ident_sub_go false suffix.

(** Lines 741-750: [load_name]; [soname] is [read_soname(input_name)]
    and [libname] is [read_library_name(input_name)], each used only on
    its branch. *)
Definition load_name_of (library_load_name : option string) (binary : bool) (input_name : string)
    (soname : result (option string)) (libname : option string) : result string :=
  let stem := basename input_name in
  let stem := if binary then stem else drop_def_ext stem in
  match library_load_name with
  | Some n => Ok n
  | None =>
      if binary then
        s ← soname; Ok (match s with Some n => n | None => stem end)
      else Ok (match libname with Some n => n | None => stem end)
  end.

(* ================================================================== *)
(** * Properties *)

(** ** Generic lemmas *)

Lemma fold_result_inv {A B} (Inv : A -> Prop) (step : A -> B -> result A) :
  (forall acc x acc', Inv acc -> step acc x = Ok acc' -> Inv acc') ->
  forall l acc r, Inv acc -> fold_result step acc l = Ok r -> Inv r.
Proof.
  intros Hstep l. induction l as [|x l IH]; simpl; intros acc r Hacc Hr.
  - congruence.
  - destruct (step acc x) as [acc'|e] eqn:E; [|discriminate].
    eapply IH; [eapply Hstep; eauto | exact Hr].
Qed.

Ltac res_simpl := unfold mbind, result_bind, fmap, result_fmap in *.

Ltac res_cases :=
  repeat (res_simpl; case_match; simplify_eq; res_simpl); simplify_eq.

Ltac str_cases :=
  repeat match goal with
  | |- context [String.eqb ?a ?b] => destruct (String.eqb_spec a b)
  end.

(** ** C5: the export filter *)

(** C5. A symbol record passes [is_exported] iff its binding is not
    LOCAL, its visibility not HIDDEN, its type not NOTYPE, its section
    index not UND, its name none of "", "_init", "_fini", and, with the
    no-weak-symbols option, its binding not WEAK. *)
Theorem is_exported_iff (no_weak_symbols : bool) (s : sym) :
  is_exported no_weak_symbols s = true <->
  Bind s <> "LOCAL" /\ Visibility s <> "HIDDEN" /\ Typ s <> "NOTYPE" /\
  Ndx s <> "UND" /\ Name s <> "" /\ Name s <> "_init" /\ Name s <> "_fini" /\
  (no_weak_symbols = true -> Bind s <> "WEAK").
Proof.
  unfold is_exported. destruct no_weak_symbols; simpl; str_cases; simpl;
    split; intros H; intuition (try discriminate; try congruence).
Qed.

(** ** C10: symbols absent from the nm listing *)

Lemma nm_visibility_fold_notin (n : string) (nm_out : list string) (m : gmap string string) :
  (forall line, line ∈ nm_out -> Py.split_ws line !! 2 <> Some n) ->
  foldl (fun vis line =>
           match Py.split_ws line with
           | _ :: symbol_type :: symbol_name :: _ =>
               <[symbol_name := if Py.isupper symbol_type then "DEFAULT" else "HIDDEN"]> vis
           | _ => vis
           end) m nm_out !! n = m !! n.
Proof.
  revert m. induction nm_out as [|line l IH]; intros m H; simpl; [done|].
  rewrite IH; [|intros; apply H; set_solver].
  specialize (H line ltac:(set_solver)).
  destruct (Py.split_ws line) as [|a [|b [|c r]]]; try done.
  simpl in H. rewrite lookup_insert_ne; congruence.
Qed.

Lemma nm_visibility_notin (n : string) (nm_out : list string) :
  (forall line, line ∈ nm_out -> Py.split_ws line !! 2 <> Some n) ->
  nm_visibility nm_out !! n = None.
Proof. intros H. unfold nm_visibility. rewrite nm_visibility_fold_notin; done. Qed.

Definition vis_from (vis : gmap string string) (s : sym) : Prop :=
  Visibility s = dict_get vis (Name s) "DEFAULT".

Lemma macho_line_vis vis acc line acc' :
  Forall (vis_from vis) acc.1 -> macho_line vis acc line = Ok acc' ->
  Forall (vis_from vis) acc'.1.
Proof.
  destruct acc as [syms set]. unfold macho_line. simpl. intros Hi H.
  res_cases; simpl; try done.
  all: rewrite Forall_app; split; [done| apply Forall_singleton; reflexivity].
Qed.

Lemma split_version_name name n d v :
  split_version name = Ok (n, d, v) ->
  (Py.contains name "@" = true /\ Py.split_runs "@" name !! 0 = Some n) \/
  (Py.contains name "@" = false /\ n = name).
Proof.
  unfold split_version. destruct (Py.contains name "@").
  - destruct (Py.split_runs "@" name) as [|a [|b [|c r]]] eqn:E; try discriminate.
    intros H; inversion H; subst. left. split; done.
  - intros H; inversion H; subst. right. done.
Qed.

Lemma elf_line_vis vis st line st' :
  Forall (vis_from vis) (st_syms st) -> elf_line vis st line = Ok st' ->
  Forall (vis_from vis) (st_syms st').
Proof.
  unfold elf_line. intros Hi H.
  res_cases; simpl; try done.
  all: rewrite Forall_app; split; [done| apply Forall_singleton; reflexivity].
Qed.

(** C10. In the output of [collect_syms], on the ELF and on the Mach-O
    path, a symbol whose stored name is not the name column of any line
    of the nm listing has visibility DEFAULT, so the visibility condition
    of the export filter never excludes it. *)
Theorem collect_syms_unlisted_default (f : string) (nm_out : list string) (is_macho : bool)
    (readelf_out : list string) (syms : list sym) (s : sym) :
  collect_syms f nm_out is_macho readelf_out = Ok syms ->
  s ∈ syms ->
  (forall line, line ∈ nm_out -> Py.split_ws line !! 2 <> Some (Name s)) ->
  Visibility s = "DEFAULT" /\ negb (String.eqb (Visibility s) "HIDDEN") = true.
Proof.
  intros Hc Hs Hnm.
  assert (Hv : vis_from (nm_visibility nm_out) s).
  { unfold collect_syms in Hc. destruct is_macho.
    - destruct (fold_result _ _ _) as [[syms' set']|e] eqn:E; simpl in Hc; [|discriminate].
      inversion Hc; subst.
      assert (Hf : Forall (vis_from (nm_visibility nm_out)) (syms, set').1).
      { eapply (fold_result_inv (fun acc => Forall (vis_from (nm_visibility nm_out)) acc.1));
          [intros; eapply macho_line_vis; eauto | | exact E]. simpl. constructor. }
      simpl in Hf. rewrite Forall_forall in Hf. apply Hf; exact Hs.
    - destruct (fold_result _ _ _) as [st|e] eqn:E; simpl in Hc; [|discriminate].
      destruct (st_toc st); inversion Hc; subst.
      assert (Hf : Forall (vis_from (nm_visibility nm_out)) (st_syms st)).
      { eapply (fold_result_inv (fun st => Forall (vis_from (nm_visibility nm_out)) (st_syms st)));
          [intros; eapply elf_line_vis; eauto | | exact E]. simpl. constructor. }
      rewrite Forall_forall in Hf. apply Hf; exact Hs. }
  unfold vis_from, dict_get in Hv. rewrite nm_visibility_notin in Hv by exact Hnm.
  simpl in Hv. rewrite Hv. split; reflexivity.
Qed.

(** ** String lemmas for the version suffix *)

(** [x * k]: a run of [k] characters [x]. *)
Fixpoint rep (x : ascii) (k : nat) : string :=
  match k with O => EmptyString | S k' => String x (rep x k') end.

Definition lacks (x : ascii) (s : string) : Prop := Py.contains s (String x EmptyString) = false.

Lemma prefix_empty (s : string) : String.prefix EmptyString s = true.
Proof. destruct s; reflexivity. Qed.

Lemma contains_cons1 (c x : ascii) (s : string) :
  Py.contains (String c s) (String x EmptyString) =
  (if ascii_dec x c then true else false) || Py.contains s (String x EmptyString).
Proof. simpl. destruct (ascii_dec x c); rewrite ?prefix_empty; reflexivity. Qed.

Lemma lacks_cons (c x : ascii) (s : string) :
  lacks x (String c s) <-> c <> x /\ lacks x s.
Proof.
  unfold lacks. rewrite contains_cons1.
  destruct (ascii_dec x c); simpl; split; intros H; intuition congruence.
Qed.

Lemma eqb_false_ne (c x : ascii) : c <> x -> Ascii.eqb c x = false.
Proof. intros H. destruct (Ascii.eqb_spec c x); congruence. Qed.

Lemma append_empty_r (a : string) : a +:+ EmptyString = a.
Proof. induction a as [|c a IH]; simpl; [reflexivity| rewrite IH; reflexivity]. Qed.

Lemma split_runs_go_lacks (x : ascii) (r : bool) (s : string) :
  lacks x s -> Py.split_runs_go x r s = [s].
Proof.
  revert r. induction s as [|c s IH]; intros r H; [done|].
  apply lacks_cons in H as [Hc Hs]. simpl. rewrite eqb_false_ne by done.
  rewrite (IH false Hs). done.
Qed.

Lemma split_runs_go_nonempty (x : ascii) (r : bool) (s : string) :
  exists p ps, Py.split_runs_go x r s = p :: ps.
Proof.
  revert r. induction s as [|c s IH]; intros r; simpl; [eauto|].
  destruct (Ascii.eqb c x); [destruct r; eauto|].
  destruct (IH false) as (p & ps & ->). simpl. eauto.
Qed.

Lemma split_runs_go_prefix (x : ascii) (a rest : string) :
  lacks x a ->
  Py.split_runs_go x false (a +:+ rest) =
  match Py.split_runs_go x false rest with
  | p :: ps => (a +:+ p) :: ps
  | [] => [a]
  end.
Proof.
  induction a as [|c a IH]; intros H; simpl.
  - destruct (split_runs_go_nonempty x false rest) as (p & ps & ->). done.
  - apply lacks_cons in H as [Hc Ha]. rewrite eqb_false_ne by done.
    rewrite (IH Ha). destruct (Py.split_runs_go x false rest); done.
Qed.

Lemma split_runs_go_run (x : ascii) (k : nat) (b : string) :
  Py.split_runs_go x true (rep x k +:+ b) = Py.split_runs_go x true b.
Proof.
  induction k as [|k IH]; simpl; [done|].
  rewrite (proj2 (Ascii.eqb_eq x x) eq_refl). exact IH.
Qed.

Lemma split_runs_one_run (x : ascii) (a b : string) (k : nat) :
  lacks x a -> lacks x b ->
  Py.split_runs x (a +:+ rep x (S k) +:+ b) = [a; b].
Proof.
  intros Ha Hb. unfold Py.split_runs. rewrite split_runs_go_prefix by done.
  simpl. rewrite (proj2 (Ascii.eqb_eq x x) eq_refl), split_runs_go_run.
  rewrite split_runs_go_lacks by done. rewrite append_empty_r. done.
Qed.

Lemma contains_app_r (u v p : string) :
  Py.contains v p = true -> Py.contains (u +:+ v) p = true.
Proof.
  induction u as [|c u IH]; intros H; simpl; [done|].
  rewrite IH by done. apply orb_true_r.
Qed.

Lemma prefix_refl_app (p v : string) : String.prefix p (p +:+ v) = true.
Proof.
  induction p as [|c p IH]; simpl; [apply prefix_empty|].
  destruct (ascii_dec c c); [exact IH|congruence].
Qed.

Lemma contains_prefix (s p : string) : String.prefix p s = true -> Py.contains s p = true.
Proof. destruct s; simpl; intros ->; reflexivity. Qed.

Lemma contains_self_app (p v : string) : Py.contains (p +:+ v) p = true.
Proof. apply contains_prefix, prefix_refl_app. Qed.

Lemma contains_two_lacks (x : ascii) (s : string) :
  lacks x s -> Py.contains s (String x (String x EmptyString)) = false.
Proof.
  induction s as [|c s IH]; intros H; [done|].
  apply lacks_cons in H as [Hc Hs]. simpl.
  destruct (ascii_dec x c); [congruence|]. simpl. apply IH, Hs.
Qed.

Lemma contains_two_prefix (x : ascii) (u v : string) :
  lacks x u ->
  Py.contains (u +:+ v) (String x (String x EmptyString)) =
  Py.contains v (String x (String x EmptyString)).
Proof.
  induction u as [|c u IH]; intros H; [done|].
  apply lacks_cons in H as [Hc Hu]. simpl.
  destruct (ascii_dec x c); [congruence|]. simpl. apply IH, Hu.
Qed.

Lemma contains_double_run (x : ascii) (a b : string) (k : nat) :
  lacks x a -> lacks x b ->
  Py.contains (a +:+ rep x (S k) +:+ b) (String x (String x EmptyString)) = (2 <=? S k)%nat.
Proof.
  intros Ha Hb. destruct k as [|k].
  - rewrite contains_two_prefix by done. simpl.
    destruct (ascii_dec x x); [|congruence].
    destruct b as [|c b]; simpl.
    + done.
    + apply lacks_cons in Hb as [Hc Hb']. destruct (ascii_dec x c); [congruence|].
      simpl. apply contains_two_lacks. exact Hb'.
  - apply contains_app_r. simpl. destruct (ascii_dec x x); [|congruence].
    destruct (ascii_dec x x); [|congruence]. rewrite prefix_empty. done.
Qed.

Lemma contains_one_run (x : ascii) (a b : string) (k : nat) :
  Py.contains (a +:+ rep x (S k) +:+ b) (String x EmptyString) = true.
Proof.
  apply contains_app_r. simpl. destruct (ascii_dec x x); [rewrite prefix_empty; done|congruence].
Qed.

Lemma split_runs_go_pieces (x : ascii) (r : bool) (s : string) :
  Forall (lacks x) (Py.split_runs_go x r s).
Proof.
  revert r. induction s as [|c s IH]; intros r; simpl.
  - repeat constructor.
  - destruct (Ascii.eqb_spec c x).
    + destruct r; [apply IH|constructor; [done|apply IH]].
    + specialize (IH false). destruct (Py.split_runs_go x false s) as [|p ps] eqn:E; simpl.
      * repeat constructor. apply lacks_cons. split; [done|reflexivity].
      * inversion IH; subst. constructor; [|done]. apply lacks_cons. done.
Qed.

Lemma split_version_lacks (name n : string) (d : bool) (v : option string) :
  split_version name = Ok (n, d, v) -> lacks "@" n.
Proof.
  intros H. apply split_version_name in H as [[_ Hn]|[Hc ->]]; [|exact Hc].
  pose proof (split_runs_go_pieces "@" false name) as Hp.
  unfold Py.split_runs in Hn. apply list_elem_of_lookup_2 in Hn.
  rewrite Forall_forall in Hp. apply Hp. exact Hn.
Qed.

Lemma elf_line_name_lacks vis st line st' :
  Forall (fun s => lacks "@" (Name s)) (st_syms st) -> elf_line vis st line = Ok st' ->
  Forall (fun s => lacks "@" (Name s)) (st_syms st').
Proof.
  unfold elf_line. intros Hi H.
  res_cases; simpl; try done.
  all: rewrite Forall_app; split; [done|apply Forall_singleton; simpl].
  all: eapply split_version_lacks; eassumption.
Qed.

Lemma fold_result_app {A B} (step : A -> B -> result A) (acc : A) (l1 l2 : list B) :
  fold_result step acc (app l1 l2) =
  match fold_result step acc l1 with Ok a => fold_result step a l2 | Err e => Err e end.
Proof.
  revert acc. induction l1 as [|x l1 IH]; intros acc; simpl; [reflexivity|].
  destruct (step acc x); [apply IH|reflexivity].
Qed.

(** Names with two separate runs of [@]: a non-empty part without [@]
    between two runs. *)
Definition two_runs (name : string) : Prop :=
  exists a k b m c, name = a +:+ rep "@" (S k) +:+ b +:+ rep "@" (S m) +:+ c /\
                    b <> "" /\ lacks "@" b.

Lemma split_runs_go_length_pos (x : ascii) (r : bool) (s : string) :
  (1 <= length (Py.split_runs_go x r s))%nat.
Proof. destruct (split_runs_go_nonempty x r s) as (p & ps & ->). simpl. lia. Qed.

(** Every run of [x] after a prefix [s] starts a new piece, one more when
    the scan is not inside a run already. *)
Lemma split_runs_go_sep (x : ascii) (r : bool) (s rest : string) :
  ((if r then 0 else 1) + length (Py.split_runs_go x true rest) <=
   length (Py.split_runs_go x r (s +:+ String x rest)))%nat.
Proof.
  revert r. induction s as [|c s IH]; intros r.
  - cbn [String.append Py.split_runs_go]. rewrite (proj2 (Ascii.eqb_eq x x) eq_refl).
    destruct r; simpl; lia.
  - cbn [String.append Py.split_runs_go]. destruct (Ascii.eqb c x).
    + specialize (IH true). destruct r; simpl in *; lia.
    + specialize (IH false). unfold Py.cons_head.
      destruct (Py.split_runs_go x false (s +:+ String x rest)) as [|p ps]; simpl in *; [lia|].
      destruct r; lia.
Qed.

Lemma split_runs_go_prefix_length (x : ascii) (a rest : string) :
  lacks x a -> length (Py.split_runs_go x false (a +:+ rest)) = length (Py.split_runs_go x false rest).
Proof.
  intros Ha. rewrite (split_runs_go_prefix x a rest Ha).
  destruct (split_runs_go_nonempty x false rest) as (p & ps & ->). reflexivity.
Qed.

Lemma two_runs_pieces (name : string) :
  two_runs name -> (3 <= length (Py.split_runs "@" name))%nat.
Proof.
  intros (a & k & b & m & c & -> & Hb & Hl). unfold Py.split_runs.
  change (rep "@" (S k) +:+ b +:+ rep "@" (S m) +:+ c)
    with (String "@" (rep "@" k +:+ b +:+ rep "@" (S m) +:+ c)).
  pose proof (split_runs_go_sep "@" false a (rep "@" k +:+ b +:+ rep "@" (S m) +:+ c)) as H1.
  rewrite split_runs_go_run in H1.
  destruct b as [|d b]; [congruence|]. apply lacks_cons in Hl as [Hd Hb'].
  cbn [String.append Py.split_runs_go] in H1. rewrite (eqb_false_ne d "@" Hd) in H1.
  assert (H2 : length (Py.split_runs_go "@" false (b +:+ rep "@" (S m) +:+ c)) =
               S (length (Py.split_runs_go "@" true (rep "@" m +:+ c)))).
  { rewrite (split_runs_go_prefix_length "@" b _ Hb'). reflexivity. }
  pose proof (split_runs_go_length_pos "@" true (rep "@" m +:+ c)).
  unfold Py.cons_head in H1.
  destruct (Py.split_runs_go "@" false (b +:+ rep "@" (S m) +:+ c)) as [|p ps]; simpl in *; lia.
Qed.

Lemma split_version_two_runs_err (name : string) :
  two_runs name -> split_version name = raise "ValueError".
Proof.
  intros Ht. pose proof (two_runs_pieces name Ht) as Hl.
  destruct Ht as (a & k & b & m & c & -> & _ & _). unfold split_version.
  rewrite (contains_one_run "@" a (b +:+ rep "@" (S m) +:+ c) k).
  destruct (Py.split_runs "@" _) as [|p1 [|p2 [|p3 l]]]; simpl in Hl; try lia. reflexivity.
Qed.

Lemma two_runs_nonempty (name : string) : two_runs name -> name <> "".
Proof. intros (a & k & b & m & c & -> & _ & _). destruct a; discriminate. Qed.

(** One readelf row under a header whose name is new, whose size parses
    and which has two separate runs of [@]. *)
Lemma elf_line_two_runs vis st line t vals name size_s size :
  st_toc st = Some t ->
  Py.drop_localentry (Py.strip line) <> "" ->
  Py.startswith (Py.drop_localentry (Py.strip line)) "Num" = false ->
  parse_row (Py.split_runs " " (Py.drop_localentry (Py.strip line))) t ["Value"] = Ok vals ->
  get_str vals "Name" = Ok name -> name ∉ st_set st ->
  get_str vals "Size" = Ok size_s -> Py.py_int0 size_s = Ok size ->
  two_runs name -> elf_line vis st line = raise "ValueError".
Proof.
  intros Ht Hne Hnum Hp Hn Hset Hs Hi Hr. unfold elf_line. cbv zeta.
  rewrite (proj2 (String.eqb_neq _ _) Hne), Hnum, Ht. res_simpl.
  rewrite Hp, Hn, (proj2 (String.eqb_neq _ _) (two_runs_nonempty name Hr)).
  rewrite (bool_decide_eq_false_2 _ Hset), Hs, Hi, (split_version_two_runs_err name Hr).
  reflexivity.
Qed.

(** ** C7: the version suffix *)

(** C7 (amended). For a readelf name made of a part [a] without [@], one
    run of [k+1] characters [@] and a part [b] without [@], the stored
    name is [a], the version [b], and [Default] holds exactly when the
    name contains [@@] (a run of at least two); a name without [@] is
    stored as it is, with [Default] true and no version. Consequently no
    name that [collect_syms] returns on the ELF path contains [@]. When
    the ELF path reaches a row (under a header, with a name not seen
    before and a size that parses) whose name has two separate runs of
    [@], the tuple unpacking raises [ValueError] and [collect_syms]
    aborts with it. *)
Theorem split_version_one_run (a b : string) (k : nat) :
  lacks "@" a -> lacks "@" b ->
  split_version (a +:+ rep "@" (S k) +:+ b) =
    Ok (a, Py.contains (a +:+ rep "@" (S k) +:+ b) "@@", Some b) /\
  Py.contains (a +:+ rep "@" (S k) +:+ b) "@@" = (2 <=? S k)%nat /\
  (forall name, lacks "@" name -> split_version name = Ok (name, true, None)) /\
  (forall f nm_out readelf_out syms, collect_syms f nm_out false readelf_out = Ok syms ->
     forall s, s ∈ syms -> lacks "@" (Name s)) /\
  (forall f nm_out pre line post st t vals name size_s size,
     fold_result (elf_line (nm_visibility nm_out)) (mk_elf_state None [] ∅) pre = Ok st ->
     st_toc st = Some t ->
     Py.drop_localentry (Py.strip line) <> "" ->
     Py.startswith (Py.drop_localentry (Py.strip line)) "Num" = false ->
     parse_row (Py.split_runs " " (Py.drop_localentry (Py.strip line))) t ["Value"] = Ok vals ->
     get_str vals "Name" = Ok name -> name ∉ st_set st ->
     get_str vals "Size" = Ok size_s -> Py.py_int0 size_s = Ok size ->
     two_runs name ->
     collect_syms f nm_out false (app pre (line :: post)) = raise "ValueError").
Proof.
  intros Ha Hb. split; [|split; [|split; [|split]]].
  - unfold split_version. rewrite (contains_one_run "@" a b k).
    rewrite (split_runs_one_run "@" a b k Ha Hb). reflexivity.
  - apply (contains_double_run "@" a b k Ha Hb).
  - intros name Hn. unfold split_version. unfold lacks in Hn. rewrite Hn. reflexivity.
  - intros f nm_out readelf_out syms Hc s Hs. unfold collect_syms in Hc.
    destruct (fold_result _ _ _) as [st|e] eqn:E; simpl in Hc; [|discriminate].
    destruct (st_toc st); inversion Hc; subst.
    assert (Hf : Forall (fun s => lacks "@" (Name s)) (st_syms st)).
    { eapply (fold_result_inv (fun st => Forall (fun s => lacks "@" (Name s)) (st_syms st)));
        [intros; eapply elf_line_name_lacks; eauto | | exact E]. simpl. constructor. }
    rewrite Forall_forall in Hf. apply Hf; exact Hs.
  - intros f nm_out pre line post st t vals name size_s size Hpre Ht Hne Hnum Hp Hn Hset Hs Hi Hr.
    unfold collect_syms. cbv zeta. cbn iota. res_simpl.
    rewrite fold_result_app, Hpre. cbn [fold_result].
    rewrite (elf_line_two_runs _ st line t vals name size_s size Ht Hne Hnum Hp Hn Hset Hs Hi Hr).
    reflexivity.
Qed.

Definition readelf_header : string := "   Num:    Value          Size Type    Bind   Vis      Ndx Name".

(** C7 (counterexample). A readelf name with two separate runs of [@]:
    [collect_syms] aborts with [ValueError] instead of storing the part
    before the [@] run. *)
Lemma split_version_two_runs :
  collect_syms "libx.so" [] false
    [readelf_header; "     1: 0000000000001000     8 FUNC    GLOBAL DEFAULT   12 a@b@c"]
  = Err (Raise "ValueError").
Proof. vm_compute. reflexivity. Qed.

(** ** C8: duplicate names *)

Definition raw_of (raw : string) (s : sym) : Prop :=
  split_version raw = Ok (Name s, Default s, Version s).

Lemma macho_line_nodup vis acc line acc' :
  NoDup (map Name acc.1) /\ (forall n, n ∈ map Name acc.1 -> n ∈ acc.2) ->
  macho_line vis acc line = Ok acc' ->
  NoDup (map Name acc'.1) /\ (forall n, n ∈ map Name acc'.1 -> n ∈ acc'.2).
Proof.
  destruct acc as [syms sset]. unfold macho_line. simpl. intros [Hd Hs] H.
  res_cases; simpl; try done.
  all: match goal with Hb : bool_decide (?n ∈ _) = false |- _ =>
         apply bool_decide_eq_false in Hb end.
  all: rewrite map_app; simpl; split;
    [apply NoDup_app; split; [done|split; [intros y Hy Hin; apply list_elem_of_singleton in Hin;
                                           subst; eauto|apply NoDup_singleton]]
    |intros n Hn; apply elem_of_app in Hn as [Hn|Hn];
       [apply elem_of_union_r; eauto|apply list_elem_of_singleton in Hn; subst; set_solver]].
Qed.

Definition raws_inv (st : elf_state) : Prop :=
  exists raws, NoDup raws /\ Forall2 raw_of raws (st_syms st) /\
               (forall r, r ∈ raws -> r ∈ st_set st).

Lemma elf_line_raws vis st line st' :
  raws_inv st -> elf_line vis st line = Ok st' -> raws_inv st'.
Proof.
  unfold elf_line. intros (raws & Hd & Hf & Hs) H.
  res_cases; simpl; try (exists raws; done).
  all: match goal with Hb : bool_decide (?n ∈ _) = false |- _ =>
         apply bool_decide_eq_false in Hb; exists (app raws [n]) end.
  all: split; [apply NoDup_app; split; [done|split; [intros y Hy Hin; apply list_elem_of_singleton in Hin;
                                           subst; eauto|apply NoDup_singleton]]|].
  all: split; [apply Forall2_app; [done|constructor; [|constructor]]; unfold raw_of; simpl; done|].
  all: intros r Hr; apply elem_of_app in Hr as [Hr|Hr];
       [apply elem_of_union_r; eauto|apply list_elem_of_singleton in Hr; subst; set_solver].
Qed.

(** C8 (counterexample). Two versions of one symbol, [foo@V1] and
    [foo@@V2]: both rows are kept, so the returned list has two records
    with the stored name [foo]. *)
Lemma collect_syms_same_name_two_versions :
  match collect_syms "libx.so" [] false
          [readelf_header;
           "     1: 0000000000001000     8 FUNC    GLOBAL DEFAULT   12 foo@V1";
           "     2: 0000000000001010     8 FUNC    GLOBAL DEFAULT   12 foo@@V2"] with
  | Ok syms => map Name syms = ["foo"; "foo"] /\ ~ NoDup (map Name syms)
  | Err _ => False
  end.
Proof.
  vm_compute. split; [reflexivity|].
  intros H. apply NoDup_cons in H as [H _]. apply H. apply list_elem_of_singleton. reflexivity.
Qed.

(** C8 (amended). [collect_syms] drops a row whose raw name, version
    suffix included, was already seen. On the Mach-O path, where names
    carry no suffix, the stored names are pairwise distinct; on the ELF
    path the returned records come from pairwise distinct raw readelf
    names, each record being the version split of its raw name, so
    records that only differ in the suffix share their stored name. *)
Theorem collect_syms_distinct_raw_names (f : string) (nm_out : list string) (is_macho : bool)
    (readelf_out : list string) (syms : list sym) :
  collect_syms f nm_out is_macho readelf_out = Ok syms ->
  (is_macho = true -> NoDup (map Name syms)) /\
  (is_macho = false -> exists raws, NoDup raws /\ Forall2 raw_of raws syms).
Proof.
  intros Hc. unfold collect_syms in Hc. destruct is_macho; split; intros Hm; try discriminate.
  - destruct (fold_result _ _ _) as [[syms' set']|e] eqn:E; simpl in Hc; [|discriminate].
    inversion Hc; subst.
    assert (Hf : NoDup (map Name (syms, set').1) /\
                 (forall n, n ∈ map Name (syms, set').1 -> n ∈ (syms, set').2)).
    { eapply (fold_result_inv (fun acc => NoDup (map Name acc.1) /\
                                          (forall n, n ∈ map Name acc.1 -> n ∈ acc.2)));
        [intros; eapply macho_line_nodup; eauto | | exact E].
      simpl. split; [constructor|intros n Hn; inversion Hn]. }
    exact (proj1 Hf).
  - destruct (fold_result _ _ _) as [st|e] eqn:E; simpl in Hc; [|discriminate].
    destruct (st_toc st); inversion Hc; subst.
    assert (Hf : raws_inv st).
    { eapply (fold_result_inv raws_inv); [intros; eapply elf_line_raws; eauto | | exact E].
      exists []. split; [constructor|split; [constructor|intros r Hr; inversion Hr]]. }
    destruct Hf as (raws & Hd & Hf & _). eauto.
Qed.

(* ------------------------------------------------------------------ *)
(** ** C1: the words of a vtable *)

(** The word sequence as the spec describes it: the [k]-th entry is the
    little-endian word of bytes [[k*ptr_size, (k+1)*ptr_size)]. *)
Definition spec_word_slots (b : list Byte.byte) (ptr_size : nat) : list slot :=
  map (fun k => SOffset (from_bytes_le (slice b (k * ptr_size) ((k + 1) * ptr_size))))
      (seq 0 ((length b + ptr_size - 1) / ptr_size)).

Definition byte_of (n : nat) : Byte.byte :=
  match Byte.of_nat n with Some b => b | None => Byte.x00 end.

(** Sixteen bytes: the little-endian words 0 and 1 for a pointer size of 8. *)
Definition vtable_bytes : list Byte.byte := map byte_of [0;0;0;0;0;0;0;0; 1;0;0;0;0;0;0;0].

Definition vtable_C : csym := mk_csym 4096 16 "vtable for C".

(** C1 (code bug). A 16-byte vtable with pointer size 8 whose second
    word is 1: [collect_relocated_data] makes two slots, as the spec
    says, but the second is [Offset 0], because the loop index [i] is
    already a byte offset and the slice [b[i*ptr_size:(i+1)*ptr_size]]
    multiplies it by [ptr_size] once more; the spec's decoding gives
    [Offset 1]. *)
Theorem vtable_words_second_slot :
  symbol_slots vtable_C vtable_bytes [] 8 ∅ = Ok [SOffset 0; SOffset 0] /\
  word_slots vtable_bytes 8 = Ok [SOffset 0; SOffset 0] /\
  spec_word_slots vtable_bytes 8 = [SOffset 0; SOffset 1].
Proof. vm_compute. auto. Qed.

(* ------------------------------------------------------------------ *)
(** ** C2: reading the unrelocated bytes *)

(** The bytes of a symbol as the spec locates them: at
    [S.file_offset + (sym.value - S.address)]. *)
Definition spec_unrelocated_bytes (file : list Byte.byte) (sec : section) (s : csym)
  : list Byte.byte :=
  take (Z.to_nat (CSize s)) (drop (Z.to_nat (Off sec + (CValue s - Address sec))) file).

(** A 40-byte file whose byte at position [n] is [n]. *)
Definition file40 : list Byte.byte := map byte_of (seq 0 40).

(** A section mapped at address 16 from file offset 4, 16 bytes long. *)
Definition sec_data : section := mk_section ".data.rel.ro" 16 4 16.

(** A 2-byte symbol at address 20, offset 4 into the section. *)
Definition sym_at_20 : csym := mk_csym 20 2 "typeinfo name for C".

(** C2 (code bug). For a symbol 4 bytes into its section,
    [read_unrelocated_data] returns the bytes at the section's file offset
    (4 and 5), not at [S.file_offset + (sym.value - S.address)] (8 and 9):
    [f.seek(sec["Off"])] leaves out the offset inside the section. *)
Theorem read_unrelocated_data_ignores_offset :
  read_unrelocated_data file40 [("_ZTS1C", sym_at_20)] [sec_data] =
    Ok {[ "_ZTS1C" := map byte_of [4; 5] ]} /\
  spec_unrelocated_bytes file40 sec_data sym_at_20 = map byte_of [8; 9].
Proof. vm_compute. auto. Qed.

(* ------------------------------------------------------------------ *)
(** ** C3: extern declarations *)

Definition pure_virtual_at (off : Z) : rel :=
  mk_rel off "R_X86_64_64" (TPair "__cxa_pure_virtual" 0).

(** A class [C] whose vtable has two pure virtual methods. *)
Definition cls_syms_C : list (string * csym) := [("_ZTV1C", mk_csym 4096 24 "vtable for C")].
Definition cls_data_C : gmap string (list slot) :=
  {[ "_ZTV1C" := [SOffset 0; SReloc (pure_virtual_at 4104); SReloc (pure_virtual_at 4112)] ]}.

Definition extern_decl (name : string) : string := "extern const char " +:+ name +:+ "[];".

(** C3 (code bug). Two Reloc slots of one vtable with the same target
    [__cxa_pure_virtual], which is not a class symbol: the unit produced
    by [generate_vtables] contains the extern declaration twice, since
    the [printed] set is tested but never added to. *)
Theorem generate_vtables_duplicate_extern :
  match generate_vtables cls_syms_C cls_data_C with
  | Ok out => count_occ out (extern_decl "__cxa_pure_virtual") = 2%nat
  | Err _ => False
  end.
Proof. vm_compute. reflexivity. Qed.

(* ------------------------------------------------------------------ *)
(** ** C4: order of the relocation overlay *)

Section Overlay.
Variables (start finish : Z) (ptr_size : nat) (reloc_types : gset string).

Definition slot_index (r : rel) : Z := ((Offset r - start) / Z.of_nat ptr_size)%Z.

(** The slot indices written by the relocations that apply, in list order. *)
Definition overlay_indices (rels : list rel) : list Z :=
  map slot_index (filter (fun r => reloc_applies start finish reloc_types r = true) rels).

Let ov (r : rel) (d : list slot) : result (list slot) :=
  overlay_rel start finish ptr_size reloc_types d r.

Lemma ov_length r d d' : ov r d = Ok d' -> length d' = length d.
Proof.
  unfold ov, overlay_rel. destruct (reloc_applies _ _ _ _); [|congruence].
  destruct (_ <? _)%Z; [|discriminate]. intros H; inversion H. apply length_insert.
Qed.

Lemma slot_index_nonneg r : reloc_applies start finish reloc_types r = true -> (0 <= slot_index r)%Z.
Proof.
  unfold reloc_applies, slot_index. intros H.
  apply andb_true_iff in H as [H _]. apply andb_true_iff in H as [_ H].
  apply Z.leb_le in H. destruct (Nat.eq_dec ptr_size 0) as [->|Hp].
  - simpl. rewrite Z.div_0_r. lia.
  - apply Z.div_pos; lia.
Qed.

Lemma ov_comm x y d :
  (reloc_applies start finish reloc_types x = true ->
   reloc_applies start finish reloc_types y = true -> slot_index x <> slot_index y) ->
  (match ov x d with Ok d1 => ov y d1 | Err e => Err e end) =
  (match ov y d with Ok d1 => ov x d1 | Err e => Err e end).
Proof.
  intros Hne. unfold ov, overlay_rel.
  destruct (reloc_applies _ _ _ x) eqn:Ex, (reloc_applies _ _ _ y) eqn:Ey; try reflexivity.
  - specialize (Hne eq_refl eq_refl).
    pose proof (slot_index_nonneg x Ex). pose proof (slot_index_nonneg y Ey).
    unfold slot_index in *.
    destruct (_ / _ <? Z.of_nat (length d))%Z eqn:Lx, ((Offset y - start) / _ <? Z.of_nat (length d))%Z eqn:Ly;
      rewrite ?length_insert, ?Lx, ?Ly; try reflexivity.
    f_equal. apply list_insert_insert_ne. lia.
  - destruct (_ <? _)%Z; reflexivity.
  - destruct (_ <? _)%Z; reflexivity.
Qed.

Lemma overlay_swap x y l d :
  (reloc_applies start finish reloc_types x = true ->
   reloc_applies start finish reloc_types y = true -> slot_index x <> slot_index y) ->
  overlay start finish ptr_size reloc_types (x :: y :: l) d =
  overlay start finish ptr_size reloc_types (y :: x :: l) d.
Proof.
  intros Hne. pose proof (ov_comm x y d Hne) as Hc. unfold ov in Hc.
  unfold overlay. simpl.
  destruct (overlay_rel _ _ _ _ d x) eqn:Ex, (overlay_rel _ _ _ _ d y) eqn:Ey; simpl in Hc.
  - rewrite Hc. reflexivity.
  - rewrite Hc. reflexivity.
  - rewrite <- Hc. reflexivity.
  - inversion Hc; reflexivity.
Qed.

Lemma overlay_indices_perm rels rels' :
  Permutation rels rels' -> Permutation (overlay_indices rels) (overlay_indices rels').
Proof. intros H. unfold overlay_indices. apply Permutation_map, filter_Permutation, H. Qed.

Lemma overlay_perm rels rels' :
  Permutation rels rels' -> NoDup (overlay_indices rels) ->
  forall d, overlay start finish ptr_size reloc_types rels d =
            overlay start finish ptr_size reloc_types rels' d.
Proof.
  induction 1 as [|x l l' Hp IH|x y l|l l' l'' H1 IH1 H2 IH2]; intros Hd d.
  - reflexivity.
  - unfold overlay in *. simpl.
    destruct (overlay_rel _ _ _ _ d x); [|reflexivity]. apply IH.
    unfold overlay_indices in *. rewrite filter_cons in Hd.
    destruct (decide (reloc_applies start finish reloc_types x = true));
      [simpl in Hd; apply NoDup_cons in Hd as [_ Hd]|]; exact Hd.
  - apply overlay_swap. intros Hx Hy Heq.
    unfold overlay_indices in Hd. rewrite !filter_cons in Hd.
    rewrite (decide_True _ _ Hx), (decide_True _ _ Hy) in Hd. simpl in Hd.
    apply NoDup_cons in Hd as [Hd _]. apply Hd. rewrite Heq. apply list_elem_of_here.
  - rewrite (IH1 Hd d). apply IH2.
    rewrite <- (overlay_indices_perm l l' H1). exact Hd.
Qed.

(** A relocation later in the list that writes another slot leaves the
    slot [i] as it was. *)
Lemma overlay_keep post d d' (i : Z) :
  overlay start finish ptr_size reloc_types post d = Ok d' -> (0 <= i)%Z ->
  (forall r', r' ∈ post -> reloc_applies start finish reloc_types r' = true -> slot_index r' <> i) ->
  d' !! Z.to_nat i = d !! Z.to_nat i.
Proof.
  revert d. induction post as [|r' post IH]; intros d H Hi Hne.
  - unfold overlay in H. simpl in H. inversion H. reflexivity.
  - unfold overlay in H. simpl in H.
    destruct (overlay_rel _ _ _ _ d r') as [d1|e] eqn:E; [|discriminate].
    rewrite (IH d1 H Hi) by (intros r'' Hr''; apply Hne; apply elem_of_cons; right; exact Hr'').
    unfold overlay_rel in E.
    destruct (reloc_applies _ _ _ r') eqn:Ea; [|inversion E; reflexivity].
    destruct (_ <? _)%Z; [|discriminate]. inversion E; subst.
    apply list_lookup_insert_ne.
    pose proof (slot_index_nonneg r' Ea) as Hn. specialize (Hne r' (list_elem_of_here _ _) Ea).
    unfold slot_index in *. lia.
Qed.

(** The last applicable relocation with a given slot index is the one
    the slot holds. *)
Lemma overlay_last pre r post d d' :
  overlay start finish ptr_size reloc_types (app pre (r :: post)) d = Ok d' ->
  reloc_applies start finish reloc_types r = true ->
  (forall r', r' ∈ post -> reloc_applies start finish reloc_types r' = true ->
     slot_index r' <> slot_index r) ->
  d' !! Z.to_nat (slot_index r) = Some (SReloc r).
Proof.
  intros H Ha Hne. unfold overlay in H. rewrite fold_result_app in H.
  destruct (fold_result _ d pre) as [d1|e]; [|discriminate]. simpl in H.
  destruct (overlay_rel _ _ _ _ d1 r) as [d2|e] eqn:E; [|discriminate].
  rewrite (overlay_keep post d2 d' (slot_index r) H (slot_index_nonneg r Ha) Hne).
  unfold overlay_rel in E. rewrite Ha in E. unfold slot_index.
  destruct (_ <? _)%Z eqn:L; [|discriminate]. inversion E; subst.
  apply list_lookup_insert_eq. apply Z.ltb_lt in L. pose proof (slot_index_nonneg r Ha).
  unfold slot_index in *. lia.
Qed.

End Overlay.

Definition reloc_to (off : Z) (target : string) : rel := mk_rel off "R_X86_64_64" (TPair target 0).

Definition x86_64_reloc_types : gset string := {[ "R_X86_64_64" ]}.

(** C4 (counterexample). Two relocations of an accepted type at the same
    offset of a vtable ([sym.value + 8]): the slot ends up holding the
    relocation that comes last, so the two orders give different
    sequences. *)
Lemma overlay_order_matters :
  symbol_slots vtable_C vtable_bytes [reloc_to 4104 "f"; reloc_to 4104 "g"] 8 x86_64_reloc_types
    = Ok [SOffset 0; SReloc (reloc_to 4104 "g")] /\
  symbol_slots vtable_C vtable_bytes [reloc_to 4104 "g"; reloc_to 4104 "f"] 8 x86_64_reloc_types
    = Ok [SOffset 0; SReloc (reloc_to 4104 "f")].
Proof. vm_compute. auto. Qed.

(** C4 (amended). For every vtable symbol, when no two relocations that
    apply to it (accepted type, offset in [[sym.value, sym.value +
    sym.size)]) fall into the same slot index, the overlay is
    order-independent: any permutation of the relocation list gives the
    same slot sequence (or the same abort). Whatever the list, when the
    overlay succeeds, the slot of an applicable relocation holds the one
    that comes last among the applicable relocations of that index: when
    two of them map to the same index, the last one in the list wins. *)
Theorem overlay_order_independent (s : csym) (b : list Byte.byte) (rels rels' : list rel)
    (ptr_size : nat) (reloc_types : gset string) :
  (Permutation rels rels' ->
   NoDup (overlay_indices (CValue s) (CValue s + CSize s) ptr_size reloc_types rels) ->
   symbol_slots s b rels ptr_size reloc_types = symbol_slots s b rels' ptr_size reloc_types) /\
  (forall (d : list slot) pre r post,
     Py.startswith (Demangled_Name s) "typeinfo name" = false ->
     symbol_slots s b rels ptr_size reloc_types = Ok d ->
     rels = app pre (r :: post) ->
     reloc_applies (CValue s) (CValue s + CSize s) reloc_types r = true ->
     (forall r', r' ∈ post -> reloc_applies (CValue s) (CValue s + CSize s) reloc_types r' = true ->
        slot_index (CValue s) ptr_size r' <> slot_index (CValue s) ptr_size r) ->
     d !! Z.to_nat (slot_index (CValue s) ptr_size r) = Some (SReloc r)).
Proof.
  split.
  - intros Hp Hd. unfold symbol_slots.
    destruct (Py.startswith _ _); [reflexivity|].
    destruct (word_slots b ptr_size) as [d|e]; res_simpl; [|reflexivity].
    apply overlay_perm; assumption.
  - intros d pre r post Ht H -> Ha Hne. unfold symbol_slots in H. rewrite Ht in H.
    destruct (word_slots b ptr_size) as [d0|e]; res_simpl; [|discriminate].
    exact (overlay_last _ _ _ _ pre r post d0 d H Ha Hne).
Qed.

(* ------------------------------------------------------------------ *)
(** ** C6: the target column of a relocation *)

Lemma split_char_lacks (x : ascii) (s : string) : lacks x s -> Py.split_char x s = [s].
Proof.
  induction s as [|c s IH]; intros H; [done|].
  apply lacks_cons in H as [Hc Hs]. simpl. rewrite eqb_false_ne by done.
  rewrite (IH Hs). done.
Qed.

Lemma split_char_prefix (x : ascii) (a rest : string) :
  lacks x a -> Py.split_char x (a +:+ String x rest) = a :: Py.split_char x rest.
Proof.
  induction a as [|c a IH]; intros H; simpl.
  - rewrite (proj2 (Ascii.eqb_eq x x) eq_refl). done.
  - apply lacks_cons in H as [Hc Ha]. rewrite eqb_false_ne by done.
    rewrite (IH Ha). done.
Qed.

Lemma split_target_plus (a b rest : string) :
  lacks "+" a -> lacks "+" b -> (rest = "" \/ exists r, rest = "+" +:+ r) ->
  split_target (a +:+ "+" +:+ b +:+ rest) = TPair a <$> Py.py_int16 b.
Proof.
  intros Ha Hb Hr. unfold split_target.
  change ("+" +:+ b +:+ rest) with (String "+" (b +:+ rest)).
  rewrite (split_char_prefix "+" a (b +:+ rest) Ha).
  destruct Hr as [->|[r ->]].
  - rewrite append_empty_r, (split_char_lacks "+" b Hb).
    res_simpl. destruct (Py.py_int16 b); reflexivity.
  - change ("+" +:+ r) with (String "+" r).
    rewrite (split_char_prefix "+" b r Hb).
    res_simpl. destruct (Py.py_int16 b); reflexivity.
Qed.

Lemma split_target_bare (x : string) :
  lacks "+" x -> split_target x = TPair "" <$> Py.py_int16 x.
Proof.
  intros Hx. unfold split_target. rewrite (split_char_lacks "+" x Hx).
  res_simpl. destruct (Py.py_int16 x); reflexivity.
Qed.

(** C6 (amended). A non-empty target cell [x] (after [" + "] has become
    ["+"]) is split on every [+]: for [x = a+b] or [x = a+b+...] with [a],
    [b] free of [+], the target is [(a, int(b, 16))]; a cell without [+]
    is read as a bare hexadecimal addend with an empty symbol name,
    [("", int(x, 16))] ([ValueError] when it is not hexadecimal). Where
    the listing has only a [Symbol's Name] column, [+0] is appended
    first, so a bare name [n] gives [(n, 0)]. *)
Theorem row_target_nonempty (vals : row) (x : string) :
  vals !! "Symbol's Name + Addend" = Some (CStr x) -> x <> "" ->
  (forall a b rest, x = a +:+ "+" +:+ b +:+ rest -> lacks "+" a -> lacks "+" b ->
     (rest = "" \/ exists r, rest = "+" +:+ r) ->
     row_target vals = TPair a <$> Py.py_int16 b) /\
  (lacks "+" x -> row_target vals = TPair "" <$> Py.py_int16 x) /\
  (forall (vals' : row) (n : string),
     vals' !! "Symbol's Name + Addend" = None -> vals' !! "Symbol's Name" = Some (CStr n) ->
     lacks "+" n -> row_target vals' = Ok (TPair n 0)).
Proof.
  intros Hx Hne. unfold row_target. rewrite Hx. res_simpl.
  assert (Hm : forall y : string, y <> "" ->
     match CStr y with CStr "" => Ok TEmpty | CStr z => split_target z
                     | CInt _ => raise "AttributeError" end = split_target y)
    by (intros y Hy; destruct y; [congruence|reflexivity]).
  split; [|split].
  - intros a b rest -> Ha Hb Hr. rewrite Hm by exact Hne. apply split_target_plus; assumption.
  - intros Hl. rewrite Hm by exact Hne. apply split_target_bare, Hl.
  - intros vals' n H1 H2 Hn. rewrite H1, H2. res_simpl.
    assert (E : n +:+ "+0" = n +:+ "+" +:+ "0" +:+ "") by reflexivity.
    rewrite E. destruct (n +:+ "+" +:+ "0" +:+ "") eqn:En.
    + destruct n; discriminate.
    + rewrite <- En, split_target_plus; [reflexivity|exact Hn|reflexivity|left; reflexivity].
Qed.

Definition relocs_bare_cell (cell : string) : list string :=
  ["    Offset             Info             Type               Symbol's Value  Symbol's Name + Addend";
   "0000000000003dd8  0000000600000001 R_X86_64_64            0000000000000000 " +:+ cell].

(** C6 (counterexample). A target cell made of a name alone: the cell
    [abc] is stored as [("", 0xabc)], not [("abc", 0)], and the cell
    [foo] makes [collect_relocs] abort with [ValueError]. *)
Lemma collect_relocs_bare_name :
  (fun r => match r with Ok l => Ok (map rr_target l) | Err e => Err e end)
    (collect_relocs "libx.so" (relocs_bare_cell "abc")) = Ok [TPair "" 2748] /\
  collect_relocs "libx.so" (relocs_bare_cell "foo") = Err (Raise "ValueError").
Proof. vm_compute. auto. Qed.

(* ------------------------------------------------------------------ *)
(** ** C9: vtables on a def-file *)

(** C9. With vtable mode on and an input that is not a binary
    ([is_binary_file] false, readelf rejecting it), the vtable stage of
    [main] aborts with a fatal error, before any output file is written;
    for an input named [*.def] the error is the dedicated one. *)
Theorem vtable_stage_def_file_fatal (input_name : string) (t : tools) :
  is_binary_file t = false ->
  (readelf_d_ok t = false -> readelf_SW t = None) ->
  is_err (vtable_stage true input_name t) = true /\
  (Py.endswith input_name ".def" = true ->
   vtable_stage true input_name t = error "vtables not supported for .def files").
Proof.
  intros Hb Hr. unfold vtable_stage. rewrite Hb. simpl.
  unfold is_binary_file in Hb. apply orb_false_iff in Hb as [Hd Hf].
  specialize (Hr Hd).
  split; [|intros ->; reflexivity].
  destruct (Py.endswith input_name ".def"); [reflexivity|]. simpl.
  unfold collect_sections. rewrite Hr.
  destruct (file_stdout t) as [out|]; [|reflexivity].
  destruct (file_clean t); [|reflexivity]. simpl.
  simpl in Hf. apply orb_false_iff in Hf as [Hm _]. rewrite Hm. reflexivity.
Qed.

Definition text_input : tools := mk_tools false (Some "exports.def: ASCII text") true None.

Lemma vtable_stage_def_file_fatal_witness :
  is_binary_file text_input = false /\
  is_err (vtable_stage true "exports.def" text_input) = true /\
  vtable_stage true "exports.def" text_input = error "vtables not supported for .def files".
Proof.
  split; [reflexivity|].
  destruct (vtable_stage_def_file_fatal "exports.def" text_input eq_refl (fun _ => eq_refl))
    as [H1 H2].
  split; [exact H1|apply H2; reflexivity].
Defined.

(* ------------------------------------------------------------------ *)
(** ** Instances of the theorems on concrete inputs *)

Lemma collect_syms_unlisted_default_witness :
  nth 2 example_syms (mk_sym "" None 0 "" "" "" false None "") ∈ example_syms /\
  Visibility (nth 2 example_syms (mk_sym "" None 0 "" "" "" false None "")) = "DEFAULT".
Proof.
  assert (Hin : nth 2 example_syms (mk_sym "" None 0 "" "" "" false None "") ∈ example_syms)
    by (apply (list_elem_of_lookup_2 _ 2); vm_compute; reflexivity).
  split; [exact Hin|].
  refine (proj1 (collect_syms_unlisted_default "libx.so" example_nm false readelf_example
                   example_syms _ _ _ _)).
  - vm_compute. reflexivity.
  - exact Hin.
  - intros line Hl. apply list_elem_of_singleton in Hl. subst line.
    vm_compute. intros H. discriminate.
Defined.

Definition two_runs_row : string :=
  "     1: 0000000000001000     8 FUNC    GLOBAL DEFAULT   12 a@b@c".

Definition two_runs_state : elf_state :=
  match fold_result (elf_line (nm_visibility [])) (mk_elf_state None [] ∅) [readelf_header] with
  | Ok st => st | Err _ => mk_elf_state None [] ∅ end.

Definition two_runs_toc : toc := default [] (st_toc two_runs_state).

Definition two_runs_vals : row :=
  match parse_row (Py.split_runs " " (Py.drop_localentry (Py.strip two_runs_row))) two_runs_toc ["Value"] with
  | Ok v => v | Err _ => ∅ end.

Lemma split_version_one_run_witness :
  lacks "@" "read" /\ lacks "@" "GLIBC_2.2.5" /\
  split_version ("read" +:+ rep "@" 2 +:+ "GLIBC_2.2.5") = Ok ("read", true, Some "GLIBC_2.2.5") /\
  two_runs "a@b@c" /\
  collect_syms "libx.so" [] false (app [readelf_header] [two_runs_row]) = raise "ValueError".
Proof.
  split; [reflexivity|split; [reflexivity|]].
  destruct (split_version_one_run "read" "GLIBC_2.2.5" 1 eq_refl eq_refl) as [H1 [H2 [_ [_ H5]]]].
  assert (Hr : two_runs "a@b@c").
  { exists "a", 0%nat, "b", 0%nat, "c". split; [reflexivity|]. split; [discriminate|reflexivity]. }
  split; [rewrite H1, H2; reflexivity|]. split; [exact Hr|].
  apply (H5 "libx.so" [] [readelf_header] two_runs_row [] two_runs_state two_runs_toc
            two_runs_vals "a@b@c" "8" 8%Z).
  - vm_compute. reflexivity.
  - vm_compute. reflexivity.
  - vm_compute. discriminate.
  - vm_compute. reflexivity.
  - vm_compute. reflexivity.
  - vm_compute. reflexivity.
  - apply (bool_decide_unpack _). vm_compute. exact I.
  - vm_compute. reflexivity.
  - vm_compute. reflexivity.
  - exact Hr.
Defined.

Lemma collect_syms_distinct_raw_names_witness :
  collect_syms "libx.so" example_nm false readelf_example = Ok example_syms /\
  exists raws, NoDup raws /\ Forall2 raw_of raws example_syms.
Proof.
  assert (Hc : collect_syms "libx.so" example_nm false readelf_example = Ok example_syms)
    by (vm_compute; reflexivity).
  split; [exact Hc|].
  exact (proj2 (collect_syms_distinct_raw_names "libx.so" example_nm false readelf_example
                  example_syms Hc) eq_refl).
Defined.

Lemma overlay_order_independent_witness :
  NoDup (overlay_indices 4096 (4096 + 16) 8 x86_64_reloc_types
           [reloc_to 4096 "f"; reloc_to 4104 "g"]) /\
  symbol_slots vtable_C vtable_bytes [reloc_to 4096 "f"; reloc_to 4104 "g"] 8 x86_64_reloc_types =
  symbol_slots vtable_C vtable_bytes [reloc_to 4104 "g"; reloc_to 4096 "f"] 8 x86_64_reloc_types /\
  symbol_slots vtable_C vtable_bytes [reloc_to 4104 "f"; reloc_to 4104 "g"] 8 x86_64_reloc_types
    = Ok [SOffset 0; SReloc (reloc_to 4104 "g")] /\
  ([SOffset 0; SReloc (reloc_to 4104 "g")] !! Z.to_nat (slot_index (CValue vtable_C) 8 (reloc_to 4104 "g"))
    = Some (SReloc (reloc_to 4104 "g"))).
Proof.
  assert (Hd : NoDup (overlay_indices 4096 (4096 + 16) 8 x86_64_reloc_types
                        [reloc_to 4096 "f"; reloc_to 4104 "g"])).
  { vm_compute. apply NoDup_cons. split; [|apply NoDup_singleton].
    rewrite list_elem_of_singleton. discriminate. }
  split; [exact Hd|]. split.
  { apply (proj1 (overlay_order_independent _ _ _ _ _ _)); [apply perm_swap|exact Hd]. }
  assert (H : symbol_slots vtable_C vtable_bytes [reloc_to 4104 "f"; reloc_to 4104 "g"] 8
                x86_64_reloc_types = Ok [SOffset 0; SReloc (reloc_to 4104 "g")])
    by (vm_compute; reflexivity).
  split; [exact H|].
  apply (proj2 (overlay_order_independent vtable_C vtable_bytes [reloc_to 4104 "f"; reloc_to 4104 "g"]
                  [] 8 x86_64_reloc_types) _ [reloc_to 4104 "f"] (reloc_to 4104 "g") []).
  - vm_compute. reflexivity.
  - exact H.
  - reflexivity.
  - vm_compute. reflexivity.
  - intros r' Hr'. apply elem_of_nil in Hr'. contradiction.
Defined.

Definition target_row : row := {[ "Symbol's Name + Addend" := CStr "_ZN1C3fooEv+10" ]}.

Lemma row_target_nonempty_witness :
  target_row !! "Symbol's Name + Addend" = Some (CStr "_ZN1C3fooEv+10") /\
  row_target target_row = Ok (TPair "_ZN1C3fooEv" 16).
Proof.
  assert (Hx : target_row !! "Symbol's Name + Addend" = Some (CStr "_ZN1C3fooEv+10"))
    by (vm_compute; reflexivity).
  split; [exact Hx|].
  destruct (row_target_nonempty target_row "_ZN1C3fooEv+10" Hx ltac:(discriminate)) as [H1 _].
  rewrite (H1 "_ZN1C3fooEv" "10" "" eq_refl eq_refl eq_refl (or_introl eq_refl)).
  vm_compute. reflexivity.
Defined.

(* ================================================================== *)
(** * Further properties of the code *)

(** ** Generic lemmas *)

(** ** [collect_syms]: the end of the readelf listing and its header *)

(** X1. On the ELF path, a blank last line of the readelf listing resets
    the header, so [collect_syms] aborts: with "failed to analyze symbols
    in f" whenever the listing without that line is accepted. *)
Theorem collect_syms_blank_last_line (f : string) (nm_out pre : list string) (l : string) :
  Py.strip l = "" ->
  is_err (collect_syms f nm_out false (app pre [l])) = true /\
  (forall syms, collect_syms f nm_out false pre = Ok syms ->
   collect_syms f nm_out false (app pre [l]) = error ("failed to analyze symbols in " +:+ f)).
Proof.
  intros Hl. unfold collect_syms. rewrite fold_result_app. res_simpl.
  assert (Hstep : forall st, elf_line (nm_visibility nm_out) st l =
            Ok {| st_toc := None; st_syms := st_syms st; st_set := st_set st |}).
  { intros st. unfold elf_line. cbv zeta. rewrite Hl. reflexivity. }
  destruct (fold_result (elf_line (nm_visibility nm_out)) (mk_elf_state None [] ∅) pre)
    as [st|e]; simpl.
  - rewrite Hstep. simpl. split; [reflexivity|]. intros; reflexivity.
  - split; [reflexivity|]. intros syms H. discriminate.
Qed.

Lemma elf_fold_no_header (vis : gmap string string) (out : list string) (st : elf_state) :
  st_toc st = None ->
  (forall line, line ∈ out -> Py.startswith (Py.drop_localentry (Py.strip line)) "Num" = false) ->
  exists st', fold_result (elf_line vis) st out = Ok st' /\ st_toc st' = None.
Proof.
  revert st. induction out as [|line out IH]; intros st Hst Hout; simpl.
  - eauto.
  - assert (Hn : Py.startswith (Py.drop_localentry (Py.strip line)) "Num" = false)
      by (apply Hout; set_solver).
    assert (Hrest : forall l, l ∈ out -> Py.startswith (Py.drop_localentry (Py.strip l)) "Num" = false)
      by (intros; apply Hout; set_solver).
    unfold elf_line at 1. cbv zeta.
    destruct (String.eqb (Py.drop_localentry (Py.strip line)) "").
    + apply IH; [reflexivity|exact Hrest].
    + rewrite Hn, Hst. apply IH; [exact Hst|exact Hrest].
Qed.

(** X2. On the ELF path, a readelf listing without a header line (a line
    starting with [Num] once stripped) makes [collect_syms] abort with
    "failed to analyze symbols in f". *)
Theorem collect_syms_no_header (f : string) (nm_out out : list string) :
  (forall line, line ∈ out -> Py.startswith (Py.drop_localentry (Py.strip line)) "Num" = false) ->
  collect_syms f nm_out false out = error ("failed to analyze symbols in " +:+ f).
Proof.
  intros H. unfold collect_syms. res_simpl.
  destruct (elf_fold_no_header (nm_visibility nm_out) out (mk_elf_state None [] ∅) eq_refl H)
    as (st' & -> & Ht). rewrite Ht. reflexivity.
Qed.

(** ** [collect_syms]: the Mach-O records *)

Definition macho_shape (s : sym) : Prop :=
  Size s = 0%Z /\ Default s = true /\ Version s = None /\
  (Bind s = "GLOBAL" \/ Bind s = "LOCAL") /\ (Ndx s = "1" \/ Ndx s = "UND") /\
  (Typ s = "FUNC" \/ Typ s = "OBJECT").

Lemma macho_line_shape vis acc line acc' :
  Forall macho_shape acc.1 -> macho_line vis acc line = Ok acc' -> Forall macho_shape acc'.1.
Proof.
  destruct acc as [syms sset]. unfold macho_line. simpl. intros Hi H.
  res_cases; simpl; try done.
  all: rewrite Forall_app; split; [done|apply Forall_singleton].
  all: unfold macho_shape; simpl; repeat split.
  all: repeat match goal with |- context [if ?b then _ else _] => destruct b end; auto.
Qed.

(** X3. Every record of the Mach-O path of [collect_syms] has size 0,
    the default version and no version string, binding GLOBAL or LOCAL,
    section index 1 or UND and type FUNC or OBJECT; one that passes the
    export filter is GLOBAL with section index 1. *)
Theorem collect_syms_macho_records (f : string) (nm_out out : list string) (syms : list sym)
    (no_weak_symbols : bool) :
  collect_syms f nm_out true out = Ok syms ->
  forall s, s ∈ syms ->
  macho_shape s /\ (is_exported no_weak_symbols s = true -> Bind s = "GLOBAL" /\ Ndx s = "1").
Proof.
  intros Hc s Hs. unfold collect_syms in Hc. res_simpl.
  destruct (fold_result _ _ _) as [[syms' set']|e] eqn:E; [|discriminate].
  inversion Hc; subst.
  assert (Hf : Forall macho_shape (syms, set').1).
  { eapply (fold_result_inv (fun acc => Forall macho_shape acc.1));
      [intros; eapply macho_line_shape; eauto | | exact E]. constructor. }
  rewrite Forall_forall in Hf. specialize (Hf s Hs).
  split; [exact Hf|]. destruct Hf as (_ & _ & _ & Hb & Hn & _).
  unfold is_exported. intros He.
  destruct Hb as [Hb|Hb]; destruct Hn as [Hn|Hn]; rewrite ?Hb, ?Hn in He; split; try done.
  all: exfalso; destruct no_weak_symbols; simpl in He; rewrite ?andb_false_r in He; discriminate.
Qed.

(** ** [make_toc] and [parse_row] *)

Definition row_cell (words : list string) (i : nat) : cell := CStr (default "" (words !! i)).

(** The cell of a hexadecimal column after [int(vals[k], 16)]. *)
Definition hex_cell (x : string) : option cell :=
  match x with
  | EmptyString => Some (CStr "")
  | _ => CInt <$> Py.int16 x
  end.

Lemma row_fold_notin (words : list string) (t : toc) (m : row) (k : string) :
  k ∉ map snd t ->
  foldl (fun m '(i, k) => <[k := row_cell words i]> m) m t !! k = m !! k.
Proof.
  revert m. induction t as [|[i k'] t IH]; intros m Hk; simpl; [reflexivity|].
  rewrite IH by set_solver. apply lookup_insert_ne. set_solver.
Qed.

Lemma row_fold_in (words : list string) (t : toc) (m : row) (i : nat) (k : string) :
  NoDup (map snd t) -> (i, k) ∈ t ->
  foldl (fun m '(i, k) => <[k := row_cell words i]> m) m t !! k = Some (row_cell words i).
Proof.
  revert m. induction t as [|[i' k'] t IH]; intros m Hd Hin; simpl.
  - inversion Hin.
  - simpl in Hd. apply NoDup_cons in Hd as [Hk' Hd].
    apply elem_of_cons in Hin as [Heq|Hin].
    + inversion Heq; subst. rewrite row_fold_notin by exact Hk'. apply lookup_insert_eq.
    + apply IH; assumption.
Qed.

Lemma map_snd_imap {A B C} (f : nat -> A -> B * C) (g : A -> C) (l : list A) :
  (forall i x, snd (f i x) = g x) -> map snd (imap f l) = map g l.
Proof.
  revert f. induction l as [|x l IH]; intros f Hf; simpl; [reflexivity|].
  rewrite Hf. f_equal. apply IH. intros. apply Hf.
Qed.

Lemma make_toc_snd (header : list string) : map snd (make_toc header []) = header.
Proof.
  unfold make_toc. rewrite (map_snd_imap _ id); [apply list_fmap_id|]. reflexivity.
Qed.

Lemma make_toc_elem (header : list string) (i : nat) (k : string) :
  header !! i = Some k -> (i, k) ∈ make_toc header [].
Proof.
  intros H. apply (list_elem_of_lookup_2 _ i). unfold make_toc.
  rewrite list_lookup_imap, H. reflexivity.
Qed.

Definition hex_step (acc : result row) (k : string) : result row :=
  vals ← acc;
  match vals !! k with
  | None => raise "KeyError"
  | Some (CStr "") => Ok vals
  | Some (CStr x) => v ← Py.py_int16 x; Ok (<[k := CInt v]> vals)
  | Some (CInt 0) => Ok vals
  | Some (CInt _) => raise "TypeError"
  end.

Lemma hex_fold_err (l : list string) (e : abort) : foldl hex_step (Err e) l = Err e.
Proof. induction l; simpl; [reflexivity|exact IHl]. Qed.

Lemma parse_row_unfold (words : list string) (t : toc) (hex_keys : list string) :
  parse_row words t hex_keys =
  foldl hex_step (Ok (foldl (fun m '(i, k) => <[k := row_cell words i]> m) ∅ t)) hex_keys.
Proof. reflexivity. Qed.

Lemma hex_fold_ok (hex : list string) (m m' : row) :
  NoDup hex -> foldl hex_step (Ok m) hex = Ok m' ->
  (forall k, k ∉ hex -> m' !! k = m !! k) /\
  (forall k x, k ∈ hex -> m !! k = Some (CStr x) -> m' !! k = hex_cell x).
Proof.
  revert m. induction hex as [|k0 hex IH]; intros m Hd Hf; cbn [foldl] in Hf.
  - inversion Hf; subst. split; [reflexivity|]. intros k x Hk. inversion Hk.
  - apply NoDup_cons in Hd as [Hk0 Hd].
    unfold hex_step at 2 in Hf. res_simpl. cbv beta iota in Hf.
    destruct (m !! k0) as [[x|v]|] eqn:Em.
    + destruct x as [|c x'].
      * destruct (IH m Hd Hf) as [H1 H2]. split.
        -- intros k Hk. apply H1. set_solver.
        -- intros k x Hk Hx. apply elem_of_cons in Hk as [->|Hk].
           ++ rewrite H1 by exact Hk0. rewrite Hx in Em. inversion Em; subst. exact Hx.
           ++ apply H2; assumption.
      * unfold Py.py_int16 in Hf. destruct (Py.int16 (String c x')) as [v|] eqn:Ei;
          unfold raise in Hf; cbv beta iota in Hf; [|rewrite hex_fold_err in Hf; discriminate].
        destruct (IH _ Hd Hf) as [H1 H2]. split.
        -- intros k Hk. rewrite H1 by set_solver. apply lookup_insert_ne. set_solver.
        -- intros k x Hk Hx. apply elem_of_cons in Hk as [->|Hk].
           ++ rewrite H1 by exact Hk0. transitivity (Some (CInt v)); [apply lookup_insert_eq|].
              rewrite Hx in Em. inversion Em; subst. simpl. rewrite Ei. reflexivity.
           ++ apply H2; [exact Hk|]. transitivity (m !! k); [apply lookup_insert_ne; set_solver|exact Hx].
    + destruct (Z.eqb_spec v 0) as [->|Hv].
      * destruct (IH m Hd Hf) as [H1 H2]. split.
        -- intros k Hk. apply H1. set_solver.
        -- intros k x Hk Hx. apply elem_of_cons in Hk as [->|Hk]; [congruence|].
           apply H2; assumption.
      * destruct v; try congruence; unfold raise in Hf; rewrite hex_fold_err in Hf; discriminate.
    + unfold raise in Hf. rewrite hex_fold_err in Hf. discriminate.
Qed.

Lemma hex_fold_missing (hex : list string) (k : string) (m : row) :
  k ∈ hex -> m !! k = None -> is_err (foldl hex_step (Ok m) hex) = true.
Proof.
  revert m. induction hex as [|k0 hex IH]; intros m Hk Hm; [inversion Hk|]. cbn [foldl].
  unfold hex_step at 2. res_simpl. cbv beta iota.
  destruct (decide (k0 = k)) as [->|Hne].
  - rewrite Hm. cbv beta iota. unfold raise. rewrite hex_fold_err. reflexivity.
  - assert (Hk' : k ∈ hex) by (apply elem_of_cons in Hk as [->|Hk]; [congruence|exact Hk]).
    destruct (m !! k0) as [[[|c x]|v]|].
    + apply IH; assumption.
    + unfold Py.py_int16. destruct (Py.int16 (String c x)); unfold raise; cbv beta iota.
      * apply IH; [exact Hk'|]. transitivity (m !! k); [apply lookup_insert_ne; exact Hne|exact Hm].
      * rewrite hex_fold_err. reflexivity.
    + destruct v; unfold raise; try (rewrite hex_fold_err; reflexivity). apply IH; assumption.
    + unfold raise. rewrite hex_fold_err. reflexivity.
Qed.

(** X4. [parse_row] on a row split from a header without repeated
    column names: on success, the column named by the [i]-th header word
    holds the [i]-th word of the row, or "" when the row is shorter; a
    hexadecimal column holds [int(word, 16)] instead, an empty cell
    staying the empty string; names that are not header words have no
    entry. *)
Theorem parse_row_columns (words header hex_keys : list string) (vals : row) :
  NoDup header -> NoDup hex_keys ->
  parse_row words (make_toc header []) hex_keys = Ok vals ->
  (forall i k, header !! i = Some k ->
     vals !! k = if decide (k ∈ hex_keys) then hex_cell (default "" (words !! i))
                 else Some (CStr (default "" (words !! i)))) /\
  (forall k, k ∉ header -> vals !! k = None).
Proof.
  intros Hh Hx Hp. rewrite parse_row_unfold in Hp.
  destruct (hex_fold_ok _ _ _ Hx Hp) as [H1 H2].
  assert (Hd : NoDup (map snd (make_toc header []))) by (rewrite make_toc_snd; exact Hh).
  split.
  - intros i k Hi.
    pose proof (row_fold_in words _ ∅ i k Hd (make_toc_elem header i k Hi)) as Hc.
    destruct (decide (k ∈ hex_keys)) as [Hk|Hk].
    + apply (H2 k _ Hk Hc).
    + rewrite (H1 k Hk). exact Hc.
  - intros k Hk.
    assert (Hn : k ∉ map snd (make_toc header [])) by (rewrite make_toc_snd; exact Hk).
    pose proof (row_fold_notin words _ ∅ k Hn) as H0.
    assert (He0 : (∅ : row) !! k = None) by apply lookup_empty. rewrite He0 in H0.
    destruct (decide (k ∈ hex_keys)) as [Hkx|Hkx].
    + pose proof (hex_fold_missing hex_keys k _ Hkx H0) as He. rewrite Hp in He. discriminate.
    + rewrite (H1 k Hkx). exact H0.
Qed.


(** ** String lemmas *)

Lemma str_app_assoc (a b c : string) : (a +:+ b) +:+ c = a +:+ (b +:+ c).
Proof. induction a as [|x a IH]; simpl; [reflexivity|rewrite IH; reflexivity]. Qed.

Lemma rev_app_spec (s1 s2 : string) : String.rev_app s1 s2 = String.rev s1 +:+ s2.
Proof.
  revert s2. induction s1 as [|a s1 IH]; intros s2; simpl; [reflexivity|].
  unfold String.rev. simpl. rewrite (IH (String a s2)), (IH (String a "")).
  rewrite str_app_assoc. reflexivity.
Qed.

Lemma rev_cons (c : ascii) (s : string) : String.rev (String c s) = String.rev s +:+ String c "".
Proof. unfold String.rev at 1. simpl. apply rev_app_spec. Qed.

Lemma rev_app_distr (a b : string) : String.rev (a +:+ b) = String.rev b +:+ String.rev a.
Proof.
  induction a as [|c a IH]; simpl.
  - rewrite append_empty_r. reflexivity.
  - rewrite !rev_cons, IH, str_app_assoc. reflexivity.
Qed.

Lemma rev_involutive (s : string) : String.rev (String.rev s) = s.
Proof.
  induction s as [|c s IH]; [reflexivity|].
  rewrite rev_cons, rev_app_distr, IH. reflexivity.
Qed.

Lemma list_ascii_app (a b : string) :
  list_ascii_of_string (a +:+ b) = app (list_ascii_of_string a) (list_ascii_of_string b).
Proof. induction a as [|c a IH]; simpl; [reflexivity|rewrite IH; reflexivity]. Qed.

Lemma list_ascii_rev (s : string) :
  list_ascii_of_string (String.rev s) = rev (list_ascii_of_string s).
Proof.
  induction s as [|c s IH]; [reflexivity|].
  rewrite rev_cons, list_ascii_app, IH. reflexivity.
Qed.

Lemma forallb_rev_str (P : ascii -> bool) (s : string) :
  forallb P (list_ascii_of_string (String.rev s)) = forallb P (list_ascii_of_string s).
Proof.
  rewrite list_ascii_rev. induction (list_ascii_of_string s) as [|c l IH]; [reflexivity|].
  simpl. rewrite forallb_app, IH. simpl. rewrite andb_true_r, andb_comm. reflexivity.
Qed.

Lemma contains_char_app (x : ascii) (a b : string) :
  Py.contains (a +:+ b) (String x EmptyString) =
  Py.contains a (String x EmptyString) || Py.contains b (String x EmptyString).
Proof.
  induction a as [|c a IH]; [reflexivity|].
  change (String c a +:+ b) with (String c (a +:+ b)).
  rewrite !contains_cons1, IH. apply orb_assoc.
Qed.

Lemma lacks_app (x : ascii) (a b : string) : lacks x (a +:+ b) <-> lacks x a /\ lacks x b.
Proof. unfold lacks. rewrite contains_char_app, orb_false_iff. reflexivity. Qed.

Lemma lacks_rev (x : ascii) (s : string) : lacks x s -> lacks x (String.rev s).
Proof.
  induction s as [|c s IH]; intros H; [exact H|].
  apply lacks_cons in H as [Hc Hs]. rewrite rev_cons. apply lacks_app. split; [auto|].
  apply lacks_cons. split; [exact Hc|reflexivity].
Qed.

Lemma lstrip_space_app (w s : string) : all_space w = true -> Py.lstrip (w +:+ s) = Py.lstrip s.
Proof.
  induction w as [|c w IH]; intros H; simpl; [reflexivity|].
  unfold all_space in H. simpl in H. apply andb_prop in H as [Hc Hw]. rewrite Hc. apply IH, Hw.
Qed.

Lemma lstrip_nonspace (c : ascii) (s : string) :
  Py.is_space c = false -> Py.lstrip (String c s) = String c s.
Proof. intros H. simpl. rewrite H. reflexivity. Qed.

Lemma str_snoc (s : string) : s <> "" -> exists s0 c, s = s0 +:+ String c "".
Proof.
  induction s as [|c s IH]; intros H; [congruence|].
  destruct s as [|d s'].
  - exists "", c. reflexivity.
  - destruct IH as (s0 & e & He); [discriminate|]. exists (String c s0), e. rewrite He. reflexivity.
Qed.

(** [strip] leaves a text alone whose first and last characters are not
    whitespace, and drops trailing whitespace after it. *)
Lemma strip_exact (s w : string) :
  (exists c s', s = String c s' /\ Py.is_space c = false) ->
  (exists s0 e, s = s0 +:+ String e "" /\ Py.is_space e = false) ->
  all_space w = true -> Py.strip (s +:+ w) = s.
Proof.
  intros (c & s' & Hs & Hc) (s0 & e & Hs0 & He) Hw. unfold Py.strip, Py.rstrip.
  assert (Hl : Py.lstrip (s +:+ w) = s +:+ w).
  { rewrite Hs. apply lstrip_nonspace, Hc. }
  rewrite Hl, rev_app_distr, lstrip_space_app.
  - rewrite Hs0 at 1. rewrite rev_app_distr.
    change (String.rev (String e "") +:+ String.rev s0) with (String e (String.rev s0)).
    rewrite (lstrip_nonspace e _ He).
    change (String e (String.rev s0)) with (String.rev (String e "") +:+ String.rev s0).
    rewrite <- rev_app_distr, rev_involutive, Hs0. reflexivity.
  - unfold all_space in *. rewrite forallb_rev_str. exact Hw.
Qed.

Lemma strip_space_app (w s : string) : all_space w = true -> Py.strip (w +:+ s) = Py.strip s.
Proof. intros H. unfold Py.strip. rewrite lstrip_space_app by exact H. reflexivity. Qed.

Lemma drop_prefix_app (p r : string) : drop_prefix p (p +:+ r) = Some r.
Proof.
  induction p as [|a p IH]; [destruct r; reflexivity|]. simpl. rewrite Ascii.eqb_refl. exact IH.
Qed.

Lemma ident_not_space (c : ascii) : is_ident_c c = true -> Py.is_space c = false.
Proof.
  destruct c as [[] [] [] [] [] [] [] []]; vm_compute; intros H; first [reflexivity|discriminate].
Qed.

Lemma libname_not_space (c : ascii) : is_libname_c c = true -> Py.is_space c = false.
Proof.
  destruct c as [[] [] [] [] [] [] [] []]; vm_compute; intros H; first [reflexivity|discriminate].
Qed.

Lemma forallb_str_app (P : ascii -> bool) (a b : string) :
  forallb P (list_ascii_of_string (a +:+ b)) =
  forallb P (list_ascii_of_string a) && forallb P (list_ascii_of_string b).
Proof. rewrite list_ascii_app. apply forallb_app. Qed.

Lemma split_char_pieces (x : ascii) (s : string) : Forall (lacks x) (Py.split_char x s).
Proof.
  induction s as [|c s IH]; simpl.
  - repeat constructor.
  - destruct (Ascii.eqb_spec c x).
    + constructor; [reflexivity|exact IH].
    + destruct (Py.split_char x s) as [|p ps] eqn:E; simpl.
      * repeat constructor. apply lacks_cons. split; [done|reflexivity].
      * inversion IH; subst. constructor; [|done]. apply lacks_cons. done.
Qed.

Lemma split_char_nonempty (x : ascii) (s : string) : Py.split_char x s <> [].
Proof.
  induction s as [|c s IH]; simpl; [discriminate|].
  destruct (Ascii.eqb c x); [discriminate|]. destruct (Py.split_char x s); [congruence|discriminate].
Qed.

(** ** [collect_def_exports] *)

Definition def_name (n : string) : Prop :=
  n <> "" /\ forallb is_ident_c (list_ascii_of_string n) = true.

Lemma ident_prefix_fst (s : string) : forallb is_ident_c (list_ascii_of_string (ident_prefix s).1) = true.
Proof.
  induction s as [|c s IH]; simpl; [reflexivity|].
  destruct (is_ident_c c) eqn:E; [|reflexivity].
  destruct (ident_prefix s) as [a b]. simpl in *. rewrite E, IH. reflexivity.
Qed.

Lemma def_entry_name (line n : string) : def_entry line = Some n -> def_name n.
Proof.
  unfold def_entry. destruct line as [|c s]; [discriminate|].
  destruct (Py.is_space c); [|discriminate].
  pose proof (ident_prefix_fst (Py.lstrip (String c s))) as Hf.
  destruct (ident_prefix (Py.lstrip (String c s))) as [a b]. simpl in Hf.
  destruct (String.eqb_spec a ""); simpl; [discriminate|].
  destruct (all_space b); [|discriminate]. intros H; inversion H; subst. split; assumption.
Qed.

Lemma def_loops_names (lines : list string) :
  Forall def_name (def_outer lines) /\ Forall def_name (def_inner lines).
Proof.
  induction lines as [|line lines [IHo IHi]]; simpl; [split; constructor|].
  split.
  - destruct (String.eqb (Py.strip line) "EXPORTS"); assumption.
  - destruct (is_def_comment line); [exact IHi|].
    destruct (def_entry line) as [n|] eqn:E.
    + constructor; [eapply def_entry_name; exact E|exact IHi].
    + destruct (String.eqb (Py.strip line) "EXPORTS"); assumption.
Qed.

(** X6. Every record read from a def-file is a GLOBAL FUNC symbol of
    section index 0, size 0, default version and DEFAULT visibility,
    named by a non-empty run of [[A-Za-z0-9_]]; it passes the export
    filter (with or without the no-weak-symbols option) exactly when its
    name is neither [_init] nor [_fini]. *)
Theorem def_exports_records (filename : string) (contents : option (list string))
    (no_weak_symbols : bool) (s : sym) :
  s ∈ (collect_def_exports filename contents).1 ->
  exists n, s = def_sym n /\ n <> "" /\ forallb is_ident_c (list_ascii_of_string n) = true /\
    (is_exported no_weak_symbols s = true <-> n <> "_init" /\ n <> "_fini").
Proof.
  unfold collect_def_exports. destruct contents as [lines|]; simpl; [|intros H; inversion H].
  intros Hs. apply list_elem_of_In, in_map_iff in Hs as (n & <- & Hn).
  destruct (def_loops_names lines) as [Ho _]. rewrite List.Forall_forall in Ho.
  destruct (Ho n Hn) as [Hne Hid]. exists n. split; [reflexivity|]. split; [exact Hne|].
  split; [exact Hid|].
  unfold is_exported, def_sym. simpl.
  destruct (String.eqb_spec n ""); [congruence|].
  destruct (String.eqb_spec n "_init"); destruct (String.eqb_spec n "_fini"); simpl;
    destruct no_weak_symbols; simpl; split; intros H; try discriminate; try reflexivity;
    intuition congruence.
Qed.

Lemma prefix_cons_cons (a b : ascii) (p s : string) :
  String.prefix (String a p) (String b s) = if ascii_dec a b then String.prefix p s else false.
Proof. reflexivity. Qed.

Lemma ident_prefix_app (n r : string) :
  forallb is_ident_c (list_ascii_of_string n) = true ->
  match r with String c _ => is_ident_c c = false | EmptyString => True end ->
  ident_prefix (n +:+ r) = (n, r).
Proof.
  intros Hn Hr. induction n as [|c n IH]; simpl.
  - destruct r as [|c r]; [reflexivity|]. simpl. rewrite Hr. reflexivity.
  - simpl in Hn. apply andb_prop in Hn as [Hc Hn]. rewrite Hc, (IH Hn). reflexivity.
Qed.

Lemma def_entry_line (ind n : string) :
  ind <> "" -> all_space ind = true -> def_name n ->
  def_entry (ind +:+ n +:+ nl) = Some n.
Proof.
  intros Hi Hsp [Hne Hid]. destruct ind as [|c ind]; [congruence|].
  unfold def_entry. change (String c ind +:+ n +:+ nl) with (String c (ind +:+ n +:+ nl)).
  unfold all_space in Hsp. simpl in Hsp. apply andb_prop in Hsp as [Hc Hsp]. rewrite Hc.
  change (String c (ind +:+ n +:+ nl)) with (String c ind +:+ n +:+ nl).
  rewrite lstrip_space_app by (unfold all_space; simpl; rewrite Hc; exact Hsp).
  destruct n as [|d n]; [congruence|].
  change (String d n +:+ nl) with (String d (n +:+ nl)).
  rewrite lstrip_nonspace by (apply ident_not_space; simpl in Hid; apply andb_prop in Hid; tauto).
  change (String d (n +:+ nl)) with (String d n +:+ nl).
  rewrite ident_prefix_app by (exact Hid || reflexivity). reflexivity.
Qed.

Lemma def_inner_entries (ind : string) (names rest : list string) :
  ind <> "" -> all_space ind = true -> Forall def_name names ->
  def_inner (app (map (fun n => ind +:+ n +:+ nl) names) rest) = app names (def_inner rest).
Proof.
  intros Hi Hsp Hn. induction Hn as [|n names Hn Hns IH]; [reflexivity|]. simpl.
  assert (Hc : is_def_comment (ind +:+ n +:+ nl) = false).
  { unfold is_def_comment, Py.startswith. rewrite lstrip_space_app by exact Hsp.
    destruct Hn as [Hne Hid]. destruct n as [|d n]; [congruence|].
    change (String d n +:+ nl) with (String d (n +:+ nl)).
    rewrite lstrip_nonspace by (apply ident_not_space; simpl in Hid; apply andb_prop in Hid; tauto).
    rewrite prefix_cons_cons. destruct (ascii_dec ";" d) as [<-|]; [discriminate|reflexivity]. }
  rewrite Hc, (def_entry_line ind n Hi Hsp Hn), IH. reflexivity.
Qed.

Lemma def_outer_skip (pre rest : list string) :
  Forall (fun l => Py.strip l <> "EXPORTS") pre -> def_outer (app pre rest) = def_outer rest.
Proof.
  intros H. induction H as [|l pre Hl Hp IH]; [reflexivity|]. simpl.
  destruct (String.eqb_spec (Py.strip l) "EXPORTS"); [congruence|exact IH].
Qed.

(** X7. A def-file whose lines up to the first one reading [EXPORTS]
    (after stripping) are anything else, followed only by entries
    [ind ++ name ++ "\n"] with one non-empty whitespace indentation and
    names made of [[A-Za-z0-9_]], yields exactly one record per entry, in
    order, for those names; the "failed to locate symbols" warning is
    issued only when there is no entry. *)
Theorem def_exports_round_trip (filename ind e : string) (pre names : list string) :
  ind <> "" -> all_space ind = true -> Forall def_name names ->
  Forall (fun l => Py.strip l <> "EXPORTS") pre -> Py.strip e = "EXPORTS" ->
  collect_def_exports filename
    (Some (app pre (e :: map (fun n => ind +:+ n +:+ nl) names))) =
  (map def_sym names,
   match names with
   | [] => [warn_msg ("failed to locate symbols in " +:+ filename)]
   | _ => []
   end).
Proof.
  intros Hi Hsp Hn Hp He. unfold collect_def_exports.
  rewrite def_outer_skip by exact Hp. simpl. rewrite He. simpl.
  rewrite <- (app_nil_r (map _ names)), def_inner_entries by assumption.
  rewrite app_nil_r. destruct names; reflexivity.
Qed.

(** X8. A def-file that cannot be read or decoded yields no symbol and
    no warning; a readable one with no line reading [EXPORTS] yields no
    symbol and the "failed to locate symbols" warning. *)
Theorem def_exports_no_exports (filename : string) (lines : list string) :
  Forall (fun l => Py.strip l <> "EXPORTS") lines ->
  collect_def_exports filename None = ([], []) /\
  collect_def_exports filename (Some lines) =
    ([], [warn_msg ("failed to locate symbols in " +:+ filename)]).
Proof.
  intros H. split; [reflexivity|]. unfold collect_def_exports.
  rewrite <- (app_nil_r lines), def_outer_skip by exact H. reflexivity.
Qed.

(** ** [read_library_name] *)

Lemma find_map_app {A B} (f : A -> option B) (pre : list A) (x : A) (post : list A) :
  Forall (fun l => f l = None) pre -> find_map f (app pre (x :: post)) = find_map f (x :: post).
Proof. intros H. induction H as [|l pre Hl _ IH]; [reflexivity|]. simpl. rewrite Hl. exact IH. Qed.

Lemma nonspace_head (s : string) :
  s <> "" -> forallb is_libname_c (list_ascii_of_string s) = true ->
  exists c s', s = String c s' /\ Py.is_space c = false.
Proof.
  destruct s as [|c s']; intros Hne H; [congruence|]. exists c, s'. split; [reflexivity|].
  apply libname_not_space. simpl in H. apply andb_prop in H. tauto.
Qed.

Lemma nonspace_last (pre s : string) :
  s <> "" -> forallb is_libname_c (list_ascii_of_string s) = true ->
  exists s0 e, pre +:+ s = s0 +:+ String e "" /\ Py.is_space e = false.
Proof.
  intros Hne H. destruct (str_snoc s Hne) as (s1 & e & ->).
  exists (pre +:+ s1), e. split; [symmetry; apply str_app_assoc|].
  apply libname_not_space. rewrite forallb_str_app in H. simpl in H.
  apply andb_prop in H as [_ H]. rewrite andb_true_r in H. exact H.
Qed.

Lemma libname_rest_ok (sep n : string) :
  sep <> "" -> all_space sep = true -> n <> "" ->
  forallb is_libname_c (list_ascii_of_string n) = true -> libname_rest (sep +:+ n) = Some n.
Proof.
  intros Hs Hsp Hn Hl. destruct sep as [|c sep']; [congruence|].
  pose proof Hsp as Hsp'. unfold all_space in Hsp'. simpl in Hsp'.
  apply andb_prop in Hsp' as [Hc _]. unfold libname_rest.
  rewrite lstrip_space_app by exact Hsp.
  destruct (nonspace_head n Hn Hl) as (d & n' & -> & Hd). rewrite lstrip_nonspace by exact Hd.
  cbn [String.append]. rewrite Hc, Hl. destruct (String.eqb_spec (String d n') ""); [congruence|reflexivity].
Qed.

(** X9. [read_library_name] returns the name of the first line that,
    stripped, reads [LIBRARY] or [NAME], a non-empty whitespace run and a
    non-empty run of [[A-Za-z0-9_.-]]; the line may carry leading and
    trailing whitespace (its newline), and later lines are not read. *)
Theorem read_library_name_first (kw ind sep n tail : string) (pre post : list string) :
  kw = "LIBRARY" \/ kw = "NAME" ->
  all_space ind = true -> sep <> "" -> all_space sep = true -> all_space tail = true ->
  n <> "" -> forallb is_libname_c (list_ascii_of_string n) = true ->
  Forall (fun l => library_line (Py.strip l) = None) pre ->
  read_library_name (Some (app pre ((ind +:+ kw +:+ sep +:+ n +:+ tail) :: post))) = Some n.
Proof.
  intros Hkw Hi Hs Hsp Ht Hn Hl Hpre. unfold read_library_name.
  rewrite find_map_app by exact Hpre. simpl.
  rewrite strip_space_app by exact Hi.
  rewrite <- (str_app_assoc sep n tail), <- (str_app_assoc kw (sep +:+ n) tail).
  rewrite strip_exact.
  - unfold library_line.
    destruct Hkw as [-> | ->].
    + rewrite drop_prefix_app. rewrite libname_rest_ok by assumption. reflexivity.
    + change (drop_prefix "LIBRARY" ("NAME" +:+ sep +:+ n)) with (@None string).
      rewrite drop_prefix_app. rewrite libname_rest_ok by assumption. reflexivity.
  - destruct Hkw as [-> | ->]; eexists _, _; split; reflexivity.
  - destruct (nonspace_last (kw +:+ sep) n Hn Hl) as (s0 & e & Hs0 & He).
    exists s0, e. split; [rewrite <- str_app_assoc; exact Hs0|exact He].
  - exact Ht.
Qed.

(** ** [read_soname] *)

Lemma first_split_app (x : ascii) (a b p q : string) :
  first_split x a = Some (p, q) -> first_split x (a +:+ b) = Some (p, q +:+ b).
Proof.
  revert p q. induction a as [|c a IH]; intros p q H; simpl in *; [discriminate|].
  destruct (Ascii.eqb c x); [inversion H; reflexivity|].
  destruct (first_split x a) as [[a1 b1]|]; [|discriminate]. inversion H; subst.
  rewrite (IH a1 q eq_refl). reflexivity.
Qed.

Lemma first_split_lacks (x : ascii) (a b : string) :
  lacks x a -> first_split x (a +:+ String x b) = Some (a, b).
Proof.
  induction a as [|c a IH]; intros H; simpl; [rewrite Ascii.eqb_refl; reflexivity|].
  apply lacks_cons in H as [Hc Ha]. rewrite eqb_false_ne by exact Hc. rewrite IH by exact Ha.
  reflexivity.
Qed.

Lemma rev_empty_iff (s : string) : String.rev s = "" -> s = "".
Proof. intros H. rewrite <- (rev_involutive s), H. reflexivity. Qed.

Lemma soname_rest_app (u r n : string) : soname_rest r = Some n -> soname_rest (u +:+ r) = Some n.
Proof.
  unfold soname_rest. rewrite rev_app_distr.
  destruct (first_split "]" (String.rev r)) as [[a b]|] eqn:E1; [|discriminate].
  rewrite (first_split_app _ _ _ _ _ E1).
  destruct b as [|c b]; [discriminate|]. cbn [String.append].
  destruct (first_split "[" b) as [[p q]|] eqn:E2; [|discriminate].
  rewrite (first_split_app _ _ _ _ _ E2). exact id.
Qed.

Lemma soname_rest_exact (mid n post : string) :
  n <> "" -> lacks "[" n -> lacks "]" n -> lacks "]" post ->
  soname_rest (mid +:+ "[" +:+ n +:+ "]" +:+ post) = Some n.
Proof.
  intros Hn Hl Hr Hp. unfold soname_rest.
  assert (E : String.rev (mid +:+ "[" +:+ n +:+ "]" +:+ post) =
              String.rev post +:+ String "]" (String.rev n +:+ String "[" (String.rev mid))).
  { rewrite !rev_app_distr, !str_app_assoc. reflexivity. }
  rewrite E, first_split_lacks by (apply lacks_rev, Hp).
  destruct (String.rev n) as [|c b] eqn:Ern; [apply rev_empty_iff in Ern; congruence|].
  cbn [String.append].
  assert (Hb : lacks "[" b).
  { apply lacks_rev in Hl. rewrite Ern in Hl. apply lacks_cons in Hl. tauto. }
  rewrite first_split_lacks by exact Hb. rewrite <- Ern, rev_involutive. reflexivity.
Qed.

Lemma str_length_app (a b : string) :
  String.length (a +:+ b) = (String.length a + String.length b)%nat.
Proof. induction a as [|c a IH]; simpl; [reflexivity|rewrite IH; reflexivity]. Qed.

Lemma drop_prefix_suffix (p x y r : string) :
  drop_prefix p (x +:+ y) = Some r -> (String.length p <= String.length x)%nat ->
  exists u, r = u +:+ y.
Proof.
  revert x. induction p as [|a p IH]; intros x H Hlen.
  - exists x. destruct x, y; simpl in H; inversion H; reflexivity.
  - destruct x as [|b x]; simpl in Hlen; [lia|]. simpl in H.
    destruct (Ascii.eqb a b); [|discriminate]. apply (IH x H). lia.
Qed.

Lemma soname_search_cons (c : ascii) (s : string) :
  soname_search (String c s) =
  match match drop_prefix "(SONAME)" (String c s) with Some r => soname_rest r | None => None end with
  | Some n => Some n
  | None => soname_search s
  end.
Proof. reflexivity. Qed.

Lemma soname_search_app (pre r n : string) :
  soname_rest r = Some n -> soname_search (pre +:+ "(SONAME)" +:+ r) = Some n.
Proof.
  intros Hr. induction pre as [|c pre IH].
  - simpl. rewrite Hr. reflexivity.
  - change (String c pre +:+ "(SONAME)" +:+ r) with (String c (pre +:+ "(SONAME)" +:+ r)).
    rewrite soname_search_cons.
    destruct (drop_prefix "(SONAME)" (String c (pre +:+ "(SONAME)" +:+ r))) as [r'|] eqn:E.
    + destruct (drop_prefix_suffix "(SONAME)" (String c pre +:+ "(SONAME)") r r') as [u ->].
      * rewrite str_app_assoc. exact E.
      * rewrite str_length_app. simpl. lia.
      * rewrite (soname_rest_app u r n Hr). reflexivity.
    + exact IH.
Qed.

(** X10. Unless [file] reports a Mach-O file, [read_soname] returns the
    group of the first [readelf -d] line that, stripped, contains
    [(SONAME)] followed (anywhere later) by [[n]], where [n] is non-empty
    and bracket-free and no [\]] follows the closing bracket; whatever
    comes between [(SONAME)] and [[n]], and in front of [(SONAME)], does
    not change it. *)
Theorem read_soname_readelf (f : string) (file_out : option (result string))
    (out_pre out_post : list string) (l pre mid n post : string) :
  match file_out with
  | None => True
  | Some (Ok o) => Py.contains o "Mach-O" = false
  | Some (Err _) => False
  end ->
  Forall (fun l => soname_search (Py.strip l) = None) out_pre ->
  Py.strip l = pre +:+ "(SONAME)" +:+ mid +:+ "[" +:+ n +:+ "]" +:+ post ->
  n <> "" -> lacks "[" n -> lacks "]" n -> lacks "]" post ->
  read_soname f file_out (Ok (app out_pre (l :: out_post))) = Ok (Some n).
Proof.
  intros Hf Hpre Hl Hn Hln Hrn Hp.
  assert (Hr : Ok (find_map (fun line =>
                    let line := Py.strip line in
                    if String.eqb line "" then None else soname_search line)
                    (app out_pre (l :: out_post))) = Ok (Some n)).
  { rewrite find_map_app.
    - cbn [find_map]. rewrite Hl, (soname_search_app pre _ n) by (apply soname_rest_exact; assumption).
      destruct pre; reflexivity.
    - eapply Forall_impl; [exact Hpre|]. intros x Hx. cbv zeta.
      destruct (String.eqb (Py.strip x) ""); [reflexivity|exact Hx]. }
  unfold read_soname. destruct file_out as [[o|e]|]; [rewrite Hf| |]; try contradiction;
    exact Hr.
Qed.

(** ** Output names: [stem], [suffix], [load_name], [lib_suffix] *)

Lemma split_char_sep (x : ascii) (a b : string) :
  exists l, l <> [] /\ Py.split_char x (a +:+ String x b) = app l (Py.split_char x b).
Proof.
  induction a as [|c a IH]; simpl.
  - rewrite Ascii.eqb_refl. exists [""]. split; [discriminate|reflexivity].
  - destruct IH as (l & Hl & ->). destruct (Ascii.eqb c x).
    + exists ("" :: l). split; [discriminate|reflexivity].
    + destruct l as [|p l]; [congruence|]. exists (String c p :: l). split; [discriminate|reflexivity].
Qed.

Lemma basename_dir (dir n : string) :
  (dir = "" \/ exists d, dir = d +:+ "/") -> lacks "/" n -> basename (dir +:+ n) = n.
Proof.
  intros Hd Hn. unfold basename. destruct Hd as [-> | (d & ->)].
  - simpl. rewrite split_char_lacks by exact Hn. reflexivity.
  - rewrite str_app_assoc. change ("/" +:+ n) with (String "/" n).
    destruct (split_char_sep "/" d n) as (l & _ & ->).
    rewrite split_char_lacks by exact Hn. rewrite last_app. reflexivity.
Qed.

Lemma substring_prefix (a b : string) : substring 0 (String.length a) (a +:+ b) = a.
Proof. induction a as [|c a IH]; simpl; [destruct b; reflexivity|rewrite IH; reflexivity]. Qed.

Lemma drop_def_ext_def (n : string) : drop_def_ext (n +:+ ".def") = n.
Proof.
  unfold drop_def_ext, Py.endswith, Py.startswith.
  rewrite rev_app_distr. change (String.rev ".def") with "fed.".
  rewrite prefix_refl_app. rewrite str_length_app.
  replace (String.length n + String.length ".def" - 4)%nat with (String.length n)
    by (simpl; lia).
  apply substring_prefix.
Qed.

(** X11. For an input path [dir ++ n] whose directory part is empty or
    ends in [/] and whose file name [n] has no [/]: a def-file
    [dir ++ n ++ ".def"] gives the output base name [n] and, without
    [--library-load-name] and without a [LIBRARY]/[NAME] line, the load
    name [n]; a binary [dir ++ n] gives the output base name [n] and,
    without SONAME, the load name [n]. *)
Theorem output_names_of_path (dir n : string) (soname : result (option string))
    (libname : option string) :
  (dir = "" \/ exists d, dir = d +:+ "/") -> lacks "/" n ->
  output_suffix None (dir +:+ n +:+ ".def") false = n /\
  load_name_of None false (dir +:+ n +:+ ".def") soname None = Ok n /\
  output_suffix None (dir +:+ n) true = n /\
  load_name_of None true (dir +:+ n) (Ok None) libname = Ok n.
Proof.
  intros Hd Hn.
  assert (Hb : basename (dir +:+ n +:+ ".def") = n +:+ ".def").
  { apply basename_dir; [exact Hd|]. apply lacks_app. split; [exact Hn|reflexivity]. }
  assert (Hb' : basename (dir +:+ n) = n) by (apply basename_dir; assumption).
  unfold output_suffix, load_name_of. rewrite Hb, Hb', drop_def_ext_def.
  repeat split; reflexivity.
Qed.

Lemma ident_sub_ident (b : bool) (s : string) :
  forallb is_ident_c (list_ascii_of_string (ident_sub_go b s)) = true.
Proof.
  revert b. induction s as [|c s IH]; intros b; simpl; [reflexivity|].
  destruct (is_ident_c c) eqn:E; simpl; [rewrite E; apply IH|].
  destruct b; simpl; [apply IH|apply IH].
Qed.

Lemma ident_sub_id (b : bool) (s : string) :
  forallb is_ident_c (list_ascii_of_string s) = true -> ident_sub_go b s = s.
Proof.
  revert b. induction s as [|c s IH]; intros b H; simpl; [reflexivity|].
  simpl in H. apply andb_prop in H as [Hc Hs]. rewrite Hc, IH by exact Hs. reflexivity.
Qed.

(** X12. [lib_suffix], the suffix of the generated C identifiers, is made
    of [[A-Za-z0-9_]] only; a suffix already of this form is kept as is,
    and a non-empty suffix never becomes empty. *)
Theorem lib_suffix_ident (suffix : string) :
  forallb is_ident_c (list_ascii_of_string (lib_suffix_of suffix)) = true /\
  (forallb is_ident_c (list_ascii_of_string suffix) = true -> lib_suffix_of suffix = suffix) /\
  (suffix <> "" -> lib_suffix_of suffix <> "").
Proof.
  unfold lib_suffix_of. split; [apply ident_sub_ident|]. split; [apply ident_sub_id|].
  destruct suffix as [|c s]; intros H; [congruence|]. simpl.
  destruct (is_ident_c c); discriminate.
Qed.

(** X13. The architecture directory chosen for a target triple never
    contains [-]: known prefixes map to fixed names, any other triple to
    its first [-]-separated field. *)
Theorem arch_of_target_no_dash (t : string) : lacks "-" (arch_of_target t).
Proof.
  unfold arch_of_target.
  repeat match goal with |- context [if ?b then _ else _] => destruct b; [reflexivity|] end.
  pose proof (split_char_pieces "-" t) as H. pose proof (split_char_nonempty "-" t) as Hn.
  destruct (Py.split_char "-" t) as [|p ps]; [congruence|]. inversion H; subst. exact H2.
Qed.

(** ** Function selection *)

Section Sorting.
Context {A : Type} (le : A -> A -> bool).
Hypothesis le_total : forall x y, le x y = true \/ le y x = true.

Lemma insert_by_perm (x : A) (l : list A) : insert_by le x l ≡ₚ x :: l.
Proof.
  induction l as [|y l IH]; simpl; [reflexivity|].
  destruct (le y x); [|reflexivity]. rewrite IH. apply perm_swap.
Qed.

Lemma sort_fold_perm (acc l : list A) :
  foldl (fun acc x => insert_by le x acc) acc l ≡ₚ app acc l.
Proof.
  revert acc. induction l as [|x l IH]; intros acc; simpl; [rewrite app_nil_r; reflexivity|].
  rewrite IH, insert_by_perm. simpl. apply Permutation_middle.
Qed.

Lemma sort_by_perm (l : list A) : sort_by le l ≡ₚ l.
Proof. unfold sort_by. rewrite sort_fold_perm. reflexivity. Qed.

Lemma insert_by_sorted (x : A) (l : list A) :
  Sorted (fun a b => le a b = true) l -> Sorted (fun a b => le a b = true) (insert_by le x l).
Proof.
  intros H. induction H as [|y l Hl IH Hhd]; simpl; [repeat constructor|].
  destruct (le y x) eqn:Eyx.
  - constructor; [exact IH|]. destruct l as [|z l]; simpl; [constructor; exact Eyx|].
    destruct (le z x); constructor; [inversion Hhd; assumption|exact Eyx].
  - constructor; [constructor; assumption|]. constructor.
    destruct (le_total x y) as [H|H]; [exact H|congruence].
Qed.

Lemma sort_by_sorted (l : list A) : Sorted (fun a b => le a b = true) (sort_by le l).
Proof.
  unfold sort_by. assert (H : Sorted (fun a b => le a b = true) (@nil A)) by constructor.
  revert H. generalize (@nil A). induction l as [|x l IH]; intros acc H; simpl; [exact H|].
  apply IH, insert_by_sorted, H.
Qed.

End Sorting.

Lemma all_funs_fold (l : list sym) (a : gset string) (w : bool) :
  let r := foldl (fun acc s =>
                    let '(all_funs, warn_versioned) := acc in
                    if negb (Default s) then (all_funs, true)
                    else ({[Name s]} ∪ all_funs, warn_versioned)) (a, w) l in
  (forall n, n ∈ r.1 <-> n ∈ a \/ exists s, s ∈ l /\ Default s = true /\ Name s = n) /\
  (r.2 = true <-> w = true \/ exists s, s ∈ l /\ Default s = false).
Proof.
  revert a w. induction l as [|s l IH]; intros a w; simpl.
  - split; [intros n|]; split; intros H; try tauto;
      destruct H as [H|(s & Hs & _)]; try exact H; inversion Hs.
  - destruct (Default s) eqn:Ed; simpl.
    + destruct (IH ({[Name s]} ∪ a) w) as [H1 H2]. split.
      * intros n. rewrite H1, elem_of_union, elem_of_singleton. split.
        -- intros [[->|Ha]|(s' & Hs' & Hd & Hn)]; [right; exists s; split; [left|done]|left; exact Ha|].
           right. exists s'. split; [right; exact Hs'|done].
        -- intros [Ha|(s' & Hs' & Hd & Hn)]; [left; right; exact Ha|].
           inversion Hs' as [|? ? ? Hin]; subst; [left; left; reflexivity|].
           right. exists s'. done.
      * rewrite H2. split.
        -- intros [Hw|(s' & Hs' & Hd)]; [left; exact Hw|right; exists s'; split; [right; exact Hs'|exact Hd]].
        -- intros [Hw|(s' & Hs' & Hd)]; [left; exact Hw|].
           inversion Hs' as [|? ? ? Hin]; subst; [congruence|]. right. exists s'. done.
    + destruct (IH a true) as [H1 H2]. split.
      * intros n. rewrite H1. split.
        -- intros [Ha|(s' & Hs' & Hd & Hn)]; [left; exact Ha|]. right. exists s'. split; [right; exact Hs'|done].
        -- intros [Ha|(s' & Hs' & Hd & Hn)]; [left; exact Ha|].
           inversion Hs' as [|? ? ? Hin]; subst; [congruence|]. right. exists s'. done.
      * split; [intros _; right; exists s; split; [left|exact Ed]|]. intros _. apply H2. left. reflexivity.
Qed.

Lemma all_funs_of_spec (syms : list sym) :
  (forall n, n ∈ (all_funs_of syms).1 <->
     exists s, s ∈ syms /\ Typ s = "FUNC" /\ Default s = true /\ Name s = n) /\
  ((all_funs_of syms).2 = true <->
     exists s, s ∈ syms /\ Typ s = "FUNC" /\ Default s = false).
Proof.
  unfold all_funs_of. destruct (all_funs_fold (filter (fun s => String.eqb (Typ s) "FUNC") syms) ∅ false)
    as [H1 H2]. split.
  - intros n. rewrite H1. split.
    + intros [He|(s & Hs & Hd & Hn)]; [apply elem_of_empty in He; contradiction|].
      apply list_elem_of_filter in Hs as [Ht Hs]. exists s. apply Is_true_true_1, String.eqb_eq in Ht.
      done.
    + intros (s & Hs & Ht & Hd & Hn). right. exists s. split; [|done].
      apply list_elem_of_filter. split; [apply Is_true_true_2, String.eqb_eq, Ht|exact Hs].
  - rewrite H2. split.
    + intros [Hw|(s & Hs & Hd)]; [discriminate|].
      apply list_elem_of_filter in Hs as [Ht Hs]. exists s. apply Is_true_true_1, String.eqb_eq in Ht.
      done.
    + intros (s & Hs & Ht & Hd). right. exists s. split; [|done].
      apply list_elem_of_filter. split; [apply Is_true_true_2, String.eqb_eq, Ht|exact Hs].
Qed.

Lemma str_app_inv_l (p a b : string) : p +:+ a = p +:+ b -> a = b.
Proof. induction p as [|c p IH]; simpl; intros H; [exact H|inversion H; auto]. Qed.

Lemma warn_versioned_ne_no_public (x y : string) :
  warn_msg ("library " +:+ x +:+ " contains versioned symbols which are NYI") <>
  warn_msg ("no public functions were found in " +:+ y).
Proof. unfold warn_msg. intros H. apply str_app_inv_l in H. discriminate. Qed.

(** X14. Without [--symbol-list], the functions to wrap are sorted
    (byte-wise), have no duplicates and are exactly the names of the
    symbols of type FUNC with a default version; the versioned-symbols
    warning is given exactly when a FUNC symbol has a non-default
    version, and the "no public functions" warning whenever the list is
    empty and [--quiet] is not given. *)
Theorem select_funs_default (input_name : string) (quiet : bool) (syms : list sym) :
  let '(funs, warns) := select_funs input_name quiet None syms in
  Sorted (fun a b => String.leb a b = true) funs /\ NoDup funs /\
  (forall n, n ∈ funs <-> exists s, s ∈ syms /\ Typ s = "FUNC" /\ Default s = true /\ Name s = n) /\
  (warn_msg ("library " +:+ input_name +:+ " contains versioned symbols which are NYI") ∈ warns <->
     exists s, s ∈ syms /\ Typ s = "FUNC" /\ Default s = false) /\
  (funs = [] -> quiet = false -> warn_msg ("no public functions were found in " +:+ input_name) ∈ warns).
Proof.
  unfold select_funs. destruct (all_funs_of_spec syms) as [H1 H2].
  destruct (all_funs_of syms) as [all warned] eqn:E. simpl in H1, H2.
  pose proof (sort_by_perm String.leb (elements all)) as Hp.
  split; [apply sort_by_sorted, String.leb_total|].
  split; [rewrite Hp; apply NoDup_elements|].
  split; [intros n; rewrite Hp, elem_of_elements; apply H1|].
  split.
  - rewrite <- H2. destruct warned.
    + split; [reflexivity|intros _; left].
    + split; [|discriminate]. intros Hin.
      pose proof (warn_versioned_ne_no_public input_name input_name) as Hne.
      destruct (sort_by String.leb (elements all)); [destruct quiet|];
        apply list_elem_of_In in Hin; cbn [app In] in Hin; intuition congruence.
  - intros Hnil Hq. rewrite Hnil, Hq. apply elem_of_app. right. left.
Qed.

Lemma lacks_lstrip (x : ascii) (s : string) : lacks x s -> lacks x (Py.lstrip s).
Proof.
  induction s as [|c s IH]; intros H; simpl; [exact H|].
  destruct (Py.is_space c); [apply IH; apply lacks_cons in H; tauto|exact H].
Qed.

Lemma lacks_strip (x : ascii) (s : string) : lacks x s -> lacks x (Py.strip s).
Proof.
  intros H. unfold Py.strip, Py.rstrip. apply lacks_rev, lacks_lstrip, lacks_rev, lacks_lstrip, H.
Qed.

Lemma cut_at_lacks (x : ascii) (s : string) : lacks x (Py.cut_at x s).
Proof.
  induction s as [|c s IH]; simpl; [reflexivity|].
  destruct (Ascii.eqb_spec c x); [reflexivity|]. apply lacks_cons. split; assumption.
Qed.

Lemma read_symbol_list_entries (contents : string) :
  Forall (fun e => e <> "" /\ lacks "#" e) (read_symbol_list contents).
Proof.
  unfold read_symbol_list.
  assert (G : forall ls acc, Forall (fun e => e <> "" /\ lacks "#" e) acc ->
            Forall (fun e => e <> "" /\ lacks "#" e)
              (foldl (fun funs line =>
                        let line := Py.strip (Py.cut_at "#" line) in
                        if String.eqb line "" then funs else app funs [line]) acc ls)).
  2: { apply G. constructor. }
  induction ls as [|line ls IH]; intros acc H; simpl; [exact H|]. apply IH.
  destruct (String.eqb_spec (Py.strip (Py.cut_at "#" line)) ""); [exact H|].
  apply Forall_app. split; [exact H|]. constructor; [|constructor]. split; [assumption|].
  apply lacks_strip, cut_at_lacks.
Qed.

(** X15. With [--symbol-list], the names read from the list are
    non-empty and free of [#] (comments are cut off); the functions to
    wrap are, in the order of the list, those listed names that are names
    of FUNC symbols with a default version; and a warning is given
    exactly when some listed name is not such a function. *)
Theorem select_funs_symbol_list (input_name : string) (quiet : bool) (contents : string)
    (syms : list sym) :
  let '(funs, warns) := select_funs input_name quiet (Some contents) syms in
  Forall (fun e => e <> "" /\ lacks "#" e) (read_symbol_list contents) /\
  funs `sublist_of` read_symbol_list contents /\
  (forall n, n ∈ funs <-> n ∈ read_symbol_list contents /\
     exists s, s ∈ syms /\ Typ s = "FUNC" /\ Default s = true /\ Name s = n) /\
  exists missing w0,
    missing `sublist_of` read_symbol_list contents /\
    (forall n, n ∈ missing <-> n ∈ read_symbol_list contents /\
       ~ exists s, s ∈ syms /\ Typ s = "FUNC" /\ Default s = true /\ Name s = n) /\
    (w0 = [] \/ w0 = [warn_msg ("library " +:+ input_name +:+ " contains versioned symbols which are NYI")]) /\
    warns = app w0 (match missing with
                    | [] => []
                    | _ => [warn_msg ("some user-specified functions are not present in library: "
                                      +:+ join ", " missing)]
                    end).
Proof.
  unfold select_funs. destruct (all_funs_of_spec syms) as [H1 _].
  destruct (all_funs_of syms) as [all warned]. simpl in H1.
  split; [apply read_symbol_list_entries|].
  split; [apply sublist_filter|].
  split.
  - intros n. rewrite list_elem_of_filter, H1. tauto.
  - exists (filter (fun name => name ∉ all) (read_symbol_list contents)),
      (if warned
       then [warn_msg ("library " +:+ input_name +:+ " contains versioned symbols which are NYI")]
       else []).
    split; [apply sublist_filter|]. split.
    + intros n. rewrite list_elem_of_filter, H1. tauto.
    + split; [destruct warned; [right|left]; reflexivity|reflexivity].
Qed.

(** ** [collect_relocs] *)

Lemma relocs_loop_app (t : option toc) (rels : list rel_row) (pre rest : list string) :
  relocs_loop t rels (app pre rest) =
  match relocs_loop t rels pre with
  | Ok (Continue (t', rels')) => relocs_loop t' rels' rest
  | Ok ReturnEmpty => Ok ReturnEmpty
  | Err e => Err e
  end.
Proof.
  revert t rels. induction pre as [|line pre IH]; intros t rels; [reflexivity|].
  cbn [app relocs_loop].
  destruct (String.eqb (Py.strip line) ""); [apply IH|].
  destruct (String.eqb (Py.strip line) "There are no relocations in this file."); [reflexivity|].
  match goal with |- context [if ?b then relocs_loop t rels _ else _] => destruct b; [apply IH|] end.
  destruct (Py.startswith (Py.strip line) "Offset"); [destruct t; [reflexivity|apply IH]|].
  destruct (Py.startswith (Py.strip line) "r_offset").
  - destruct t; [reflexivity|]. res_simpl.
    destruct (rename_strict _); [apply IH|reflexivity].
  - destruct t as [tc|]; [|apply IH]. res_simpl.
    destruct (parse_row _ tc _) as [vals|]; [|reflexivity].
    destruct (row_target vals); [apply IH|reflexivity].
Qed.

(** X16. In [collect_relocs], a line reading (after stripping) "There
    are no relocations in this file." ends the scan with no relocation,
    whatever follows, once the lines before it were read without error;
    if instead the listing ends with a blank line, the scan fails with
    "failed to analyze relocations", since a blank line forgets the
    header. *)
Theorem collect_relocs_no_relocations_and_blank_end (f l : string) (pre post : list string) st :
  relocs_loop None [] pre = Ok (Continue st) ->
  (Py.strip l = "There are no relocations in this file." ->
     collect_relocs f (app pre (l :: post)) = Ok []) /\
  (Py.strip l = "" ->
     collect_relocs f (app pre [l]) = error ("failed to analyze relocations in " +:+ f)).
Proof.
  intros Hpre. destruct st as [t rels]. unfold collect_relocs.
  split; intros Hl; rewrite relocs_loop_app, Hpre; cbn [relocs_loop]; rewrite Hl; reflexivity.
Qed.

(** ** [collect_sections] *)

Definition allocatable (sec : row) : Prop :=
  exists flg, get_str sec "Flg" = Ok flg /\ Py.contains flg "A" = true.

Lemma sections_loop_alloc (lines : list string) (t : option toc) (secs : list row) t' secs' :
  Forall allocatable secs -> sections_loop t secs lines = Ok (t', secs') ->
  Forall allocatable secs'.
Proof.
  revert t secs. induction lines as [|line lines IH]; intros t secs Hs H; cbn [sections_loop] in H.
  - inversion H; subst. exact Hs.
  - destruct (String.eqb (Py.strip line) ""); [eapply IH; eassumption|].
    destruct (Py.startswith _ "[Nr]").
    + destruct t; [discriminate|]. eapply IH; eassumption.
    + destruct t as [tc|]; [|eapply IH; eassumption].
      destruct (Py.startswith _ "["); [|eapply IH; eassumption].
      res_simpl. destruct (parse_row _ tc _) as [sec|]; [|discriminate].
      destruct (get_str sec "Flg") as [flg|] eqn:Ef; [|discriminate].
      eapply IH; [|exact H].
      destruct (Py.contains flg "A") eqn:Ea; [|exact Hs].
      apply Forall_app. split; [exact Hs|]. constructor; [|constructor]. exists flg. done.
Qed.

(** X17. Every section that [collect_sections] returns has a text
    [Flg] column containing [A]: only allocatable sections are kept. *)
Theorem collect_sections_allocatable (f : string) (t : tools) (secs : list row) :
  collect_sections f t = Ok secs ->
  forall sec, sec ∈ secs -> exists flg, get_str sec "Flg" = Ok flg /\ Py.contains flg "A" = true.
Proof.
  intros H. apply Forall_forall.
  assert (G : forall out, (sections_loop None [] out ≫= (fun '(tc, secs) =>
                 match tc with
                 | None => error ("failed to analyze sections in " +:+ f)
                 | Some _ => Ok secs
                 end)) = Ok secs -> Forall allocatable secs).
  { intros out Hout. res_simpl. destruct (sections_loop None [] out) as [[tc secs']|] eqn:E;
      [|discriminate].
    destruct tc; [|discriminate]. inversion Hout; subst.
    eapply sections_loop_alloc; [constructor|exact E]. }
  unfold collect_sections in H.
  destruct (file_stdout t) as [fo|].
  - destruct (file_clean t); [|discriminate]. simpl in H.
    destruct (Py.contains fo "Mach-O"); [inversion H; constructor|].
    destruct (readelf_SW t) as [out|]; [|discriminate]. exact (G out H).
  - destruct (readelf_SW t) as [out|]; [|discriminate]. exact (G out H).
Qed.

(** ** Dictionaries built by a loop: [read_unrelocated_data] and
    [collect_relocated_data] *)

Lemma fold_insert_spec {V B : Type} (key : B -> string) (P : B -> V -> Prop)
    (f : gmap string V -> B -> result (gmap string V)) :
  (forall acc x acc', f acc x = Ok acc' -> exists v, acc' = <[key x := v]> acc /\ P x v) ->
  forall l acc r, fold_result f acc l = Ok r ->
  (forall k v, r !! k = Some v -> acc !! k = Some v \/ exists x, x ∈ l /\ key x = k /\ P x v) /\
  (forall k, is_Some (r !! k) <-> is_Some (acc !! k) \/ exists x, x ∈ l /\ key x = k).
Proof.
  intros Hf l. induction l as [|x l IH]; intros acc r H; simpl in H.
  - inversion H; subst. split; [intros k v Hv; left; exact Hv|].
    intros k. split; [intros Hs; left; exact Hs|].
    intros [Hs|(x & Hx & _)]; [exact Hs|apply elem_of_nil in Hx; contradiction].
  - destruct (f acc x) as [acc1|e] eqn:E; [|discriminate].
    destruct (Hf _ _ _ E) as (v & -> & Hp). destruct (IH _ _ H) as [H1 H2]. split.
    + intros k w Hw. destruct (H1 k w Hw) as [Hk|(y & Hy & Hky & Hpy)].
      * apply lookup_insert_Some in Hk as [[<- <-]|[_ Hk]]; [|left; exact Hk].
        right. exists x. split; [apply elem_of_cons; left; reflexivity|done].
      * right. exists y. split; [apply elem_of_cons; right; exact Hy|done].
    + intros k. rewrite H2, lookup_insert_is_Some'. split.
      * intros [[<-|Hs]|(y & Hy & Hky)]; [right; exists x; split; [apply elem_of_cons; left|]; done
          |left; exact Hs|right; exists y; split; [apply elem_of_cons; right|]; done].
      * intros [Hs|(y & Hy & Hky)]; [left; right; exact Hs|].
        apply elem_of_cons in Hy as [->|Hy]; [left; left; exact Hky|].
        right. exists y. done.
Qed.

Lemma fold_result_err_elem {A B} (f : A -> B -> result A) (l : list B) (x : B) (acc : A) :
  x ∈ l -> (forall a, is_err (f a x) = true) -> is_err (fold_result f acc l) = true.
Proof.
  intros Hx Hf. revert acc. induction l as [|y l IH]; intros acc; [apply elem_of_nil in Hx; contradiction|].
  simpl. apply elem_of_cons in Hx as [->|Hx].
  - specialize (Hf acc). destruct (f acc y); [discriminate|reflexivity].
  - destruct (f acc y); [apply IH, Hx|reflexivity].
Qed.

Lemma seek_read_length (file : list Byte.byte) (pos n : Z) (b : list Byte.byte) :
  seek_read file pos n = Ok b -> (0 <= n)%Z -> (length b <= Z.to_nat n)%nat.
Proof.
  unfold seek_read. destruct (pos <? 0)%Z; [discriminate|]. intros H Hn. inversion H; subst.
  destruct (n <? 0)%Z eqn:E; [lia|]. rewrite length_take. lia.
Qed.

(** X18. When [read_unrelocated_data] succeeds, its dictionary has an
    entry for exactly the names of the given symbols, and the bytes read
    for a name are at most the [Size] of a symbol of that name (when the
    size is not negative); it aborts as soon as one symbol lies in no
    section or in more than one. *)
Theorem read_unrelocated_data_keys (file : list Byte.byte) (syms : list (string * csym))
    (secs : list section) :
  (forall data, read_unrelocated_data file syms secs = Ok data ->
     (forall name, is_Some (data !! name) <-> exists s, (name, s) ∈ syms) /\
     (forall name b, data !! name = Some b ->
        exists s, (name, s) ∈ syms /\ ((0 <= CSize s)%Z -> (length b <= Z.to_nat (CSize s))%nat))) /\
  ((exists name s, (name, s) ∈ syms /\
      length (filter (fun sec => is_symbol_in_section s sec = true) secs) <> 1%nat) ->
   is_err (read_unrelocated_data file syms secs) = true).
Proof.
  pose proof (sort_by_perm (fun x y : string * csym => (CValue (snd x) <=? CValue (snd y))%Z) syms)
    as Hp.
  split.
  - intros data H. unfold read_unrelocated_data in H.
    eapply (fold_insert_spec fst
              (fun x b => (0 <= CSize (snd x))%Z -> (length b <= Z.to_nat (CSize (snd x)))%nat))
      in H as [H1 H2].
    + split.
      * intros name. rewrite H2. split.
        -- intros [Hs|((n, s) & Hx & Hn)]; [apply lookup_empty_is_Some in Hs; contradiction|].
           simpl in Hn; subst. exists s. rewrite <- Hp. exact Hx.
        -- intros (s & Hs). right. exists (name, s). split; [rewrite Hp; exact Hs|reflexivity].
      * intros name b Hb. destruct (H1 _ _ Hb) as [He|((n, s) & Hx & Hn & HP)];
          [apply lookup_empty_Some in He; contradiction|].
        simpl in Hn; subst. exists s. split; [rewrite <- Hp; exact Hx|exact HP].
    + intros acc [name s] acc' Hs. cbv beta iota in Hs.
      destruct (filter _ secs) as [|sec [|sec' l]]; [discriminate| |discriminate].
      res_simpl. destruct (seek_read file (Off sec) (CSize s)) as [b|] eqn:Eb; [|discriminate].
      inversion Hs; subst. exists b. split; [reflexivity|]. simpl. apply (seek_read_length file (Off sec)), Eb.
  - intros (name & s & Hs & Hl). unfold read_unrelocated_data.
    apply (fold_result_err_elem _ _ (name, s)); [rewrite Hp; exact Hs|].
    intros a. cbv beta iota.
    destruct (filter _ secs) as [|sec [|sec' l]]; [reflexivity|simpl in Hl; lia|reflexivity].
Qed.

Lemma word_slots_spec (b : list Byte.byte) (ptr_size : nat) (d : list slot) :
  word_slots b ptr_size = Ok d ->
  length d = ((length b + ptr_size - 1) / ptr_size)%nat /\
  forall j x, d !! j = Some x -> exists v, x = SOffset v.
Proof.
  unfold word_slots. destruct (decide (ptr_size = 0)); [discriminate|]. intros H. inversion H; subst.
  split.
  - unfold range_step. rewrite !length_map, length_seq. reflexivity.
  - intros j x Hx. rewrite list_lookup_fmap in Hx.
    destruct (range_step _ _ !! j); inversion Hx; subst. eexists. reflexivity.
Qed.

Lemma overlay_spec (start finish : Z) (ptr_size : nat) (reloc_types : gset string)
    (rels : list rel) (data d : list slot) :
  overlay start finish ptr_size reloc_types rels data = Ok d ->
  length d = length data /\
  forall j x, d !! j = Some x -> data !! j = Some x \/
    exists r, x = SReloc r /\ r ∈ rels /\ reloc_applies start finish reloc_types r = true /\
              Z.of_nat j = ((Offset r - start) / Z.of_nat ptr_size)%Z.
Proof.
  revert data. induction rels as [|r rels IH]; intros data H; unfold overlay in H; simpl in H.
  - inversion H; subst. split; [reflexivity|]. intros j x Hx. left. exact Hx.
  - destruct (overlay_rel start finish ptr_size reloc_types data r) as [data1|] eqn:E;
      [|discriminate].
    destruct (IH data1 H) as [Hl Hj].
    unfold overlay_rel in E. destruct (reloc_applies start finish reloc_types r) eqn:Ea.
    + destruct (_ <? _)%Z eqn:Ei; [|discriminate]. inversion E; subst. clear E.
      rewrite length_insert in Hl. split; [exact Hl|].
      intros j x Hx. destruct (Hj j x Hx) as [Hx1|(r' & -> & Hr' & Ha & Hi)].
      * apply list_lookup_insert_Some in Hx1 as [(<- & <- & _)|(_ & Hx1)]; [|left; exact Hx1].
        right. exists r. split; [reflexivity|]. split; [apply elem_of_cons; left; reflexivity|].
        split; [exact Ea|]. rewrite Z2Nat.id; [reflexivity|].
        unfold reloc_applies in Ea. apply andb_true_iff in Ea as [Ea _].
        apply andb_true_iff in Ea as [_ Ea]. apply Z.leb_le in Ea.
        destruct ptr_size; [simpl; rewrite Z.div_0_r; lia|apply Z.div_pos; lia].
      * right. exists r'. split; [reflexivity|]. split; [apply elem_of_cons; right; exact Hr'|done].
    + inversion E; subst. split; [exact Hl|]. intros j x Hx.
      destruct (Hj j x Hx) as [Hx1|(r' & -> & Hr' & Ha & Hi)]; [left; exact Hx1|].
      right. exists r'. split; [reflexivity|]. split; [apply elem_of_cons; right; exact Hr'|done].
Qed.

(** X19. The slots of one class symbol: for a [typeinfo name] symbol
    they are its bytes, one [byte] slot each; for any other symbol the
    bytes are cut into [ceil(len(b) / ptr_size)] slots, each an [offset]
    word or a relocation of an accepted type whose offset lies in
    [[Value, Value + Size)] and falls into that slot
    ([(Offset - Value) // ptr_size]). A pointer size of 0 raises
    [ValueError] for such a symbol. *)
Theorem symbol_slots_shape (s : csym) (b : list Byte.byte) (rels : list rel) (ptr_size : nat)
    (reloc_types : gset string) :
  (forall d, symbol_slots s b rels ptr_size reloc_types = Ok d ->
     if Py.startswith (Demangled_Name s) "typeinfo name"
     then d = map (fun x => SByte (byte_val x)) b
     else length d = ((length b + ptr_size - 1) / ptr_size)%nat /\
          forall j x, d !! j = Some x ->
            match x with
            | SByte _ => False
            | SOffset _ => True
            | SReloc r => r ∈ rels /\ RType r ∈ reloc_types /\
                          (CValue s <= Offset r < CValue s + CSize s)%Z /\
                          Z.of_nat j = ((Offset r - CValue s) / Z.of_nat ptr_size)%Z
            end) /\
  (Py.startswith (Demangled_Name s) "typeinfo name" = false -> ptr_size = 0%nat ->
   symbol_slots s b rels ptr_size reloc_types = raise "ValueError").
Proof.
  split.
  - intros d H. unfold symbol_slots in H.
    destruct (Py.startswith (Demangled_Name s) "typeinfo name"); [inversion H; reflexivity|].
    res_simpl. destruct (word_slots b ptr_size) as [w|] eqn:Ew; [|discriminate].
    destruct (word_slots_spec _ _ _ Ew) as [Hlw Hw].
    destruct (overlay_spec _ _ _ _ _ _ _ H) as [Hl Hj]. split; [rewrite Hl; exact Hlw|].
    intros j x Hx. destruct (Hj j x Hx) as [Hx1|(r & -> & Hr & Ha & Hi)].
    + destruct (Hw j x Hx1) as [v ->]. exact I.
    + unfold reloc_applies in Ha. apply andb_true_iff in Ha as [Ha Hf].
      apply andb_true_iff in Ha as [Ht Hs]. apply bool_decide_eq_true in Ht.
      apply Z.leb_le in Hs. apply Z.ltb_lt in Hf. done.
  - intros Ht Hp. unfold symbol_slots. rewrite Ht. subst. reflexivity.
Qed.

(** X20. [collect_relocated_data] aborts when some class symbol has no
    bytes in [bites]. When it succeeds, its dictionary has an entry for
    exactly the names of the class symbols, and the entry of a name is
    the slot list that the loop body computes from a symbol of that name
    and its bytes. *)
Theorem collect_relocated_data_keys (syms : list (string * csym))
    (bites : gmap string (list Byte.byte)) (rels : list rel) (ptr_size : nat)
    (reloc_types : gset string) :
  ((exists name s, (name, s) ∈ syms /\ bites !! name = None) ->
   is_err (collect_relocated_data syms bites rels ptr_size reloc_types) = true) /\
  (forall data, collect_relocated_data syms bites rels ptr_size reloc_types = Ok data ->
     (forall name, is_Some (data !! name) <-> exists s, (name, s) ∈ syms) /\
     (forall name d, data !! name = Some d ->
        exists s b, (name, s) ∈ syms /\ bites !! name = Some b /\
                    symbol_slots s b rels ptr_size reloc_types = Ok d)).
Proof.
  pose proof (sort_by_perm (fun x y : string * csym => String.leb (fst x) (fst y)) syms) as Hp.
  split.
  - intros (name & s & Hs & Hb). unfold collect_relocated_data.
    apply (fold_result_err_elem _ _ (name, s)); [unfold sorted_items; rewrite Hp; exact Hs|].
    intros a. cbv beta iota. rewrite Hb. reflexivity.
  - intros data H. unfold collect_relocated_data in H.
    eapply (fold_insert_spec fst
              (fun x d => exists b, bites !! fst x = Some b /\
                                    symbol_slots (snd x) b rels ptr_size reloc_types = Ok d))
      in H as [H1 H2].
    + split.
      * intros name. rewrite H2. split.
        -- intros [Hs|((n, s) & Hx & Hn)]; [apply lookup_empty_is_Some in Hs; contradiction|].
           simpl in Hn; subst. exists s. unfold sorted_items in Hx. rewrite <- Hp. exact Hx.
        -- intros (s & Hs). right. exists (name, s).
           split; [unfold sorted_items; rewrite Hp; exact Hs|reflexivity].
      * intros name d Hd. destruct (H1 _ _ Hd) as [He|((n, s) & Hx & Hn & b & Hb & Hsl)];
          [apply lookup_empty_Some in He; contradiction|].
        simpl in Hn, Hb, Hsl; subst. exists s, b.
        split; [unfold sorted_items in Hx; rewrite <- Hp; exact Hx|]. done.
    + intros acc [name s] acc' Hs. cbv beta iota in Hs.
      destruct (bites !! name) as [b|] eqn:Eb; [|discriminate].
      res_simpl. destruct (symbol_slots s b rels ptr_size reloc_types) as [d|] eqn:Ed;
        [|discriminate].
      inversion Hs; subst. exists d. split; [reflexivity|]. exists b. done.
Qed.

(** ** [generate_vtables] *)

Lemma fold_result_err_only {A B} (f : A -> B -> result A) (l : list B) (E : abort) :
  (forall a y e, y ∈ l -> f a y = Err e -> e = E) ->
  forall acc e, fold_result f acc l = Err e -> e = E.
Proof.
  intros Hf. induction l as [|y l IH]; intros acc e H; simpl in H; [discriminate|].
  destruct (f acc y) as [a|e'] eqn:Ey.
  - refine (IH _ a e H). intros a' y' e'' Hy. apply Hf. apply elem_of_cons. right. exact Hy.
  - inversion H; subst. eapply Hf; [apply elem_of_cons; left; reflexivity|exact Ey].
Qed.

Lemma fold_result_err_elem_eq {A B} (f : A -> B -> result A) (l : list B) (x : B) (E : abort) (acc : A) :
  x ∈ l -> (forall a, is_err (f a x) = true) -> (forall a y e, y ∈ l -> f a y = Err e -> e = E) ->
  fold_result f acc l = Err E.
Proof.
  intros Hx Hf Honly. pose proof (fold_result_err_elem f l x acc Hx Hf) as H.
  destruct (fold_result f acc l) as [r|e] eqn:Er; [discriminate|].
  f_equal. eapply fold_result_err_only; eassumption.
Qed.

Lemma externs_step_err (cls_syms : list (string * csym)) (ss : list string) (d : slot) (e : abort) :
  (match d with
   | SReloc val =>
       '(sym_name, addend) ← reloc_target val;
       let sym_name := Py.cut_at "@" sym_name in
       if negb (bool_decide (sym_name ∈ map fst cls_syms))
          && negb (bool_decide (sym_name ∈ (∅ : gset string)))
       then Ok (app ss ["extern const char " +:+ sym_name +:+ "[];" +:+ nl +:+ nl])
       else Ok ss
   | _ => Ok ss
   end) = Err e -> e = Raise "ValueError".
Proof.
  destruct d as [| |r]; try discriminate. res_simpl. unfold reloc_target.
  destruct (Target r) as [|n a]; [intros H; inversion H; reflexivity|].
  cbv beta iota. case_match; discriminate.
Qed.

(** X21. A relocation slot whose target column was empty (a relocation
    listed without symbol name) makes [generate_vtables] raise
    [ValueError]: unpacking the empty cell into [(sym_name, addend)]
    fails while the externs are printed. *)
Theorem generate_vtables_empty_target (cls_syms : list (string * csym))
    (cls_data : gmap string (list slot)) (name : string) (data : list slot) (r : rel) :
  cls_data !! name = Some data -> SReloc r ∈ data -> Target r = TEmpty ->
  generate_vtables cls_syms cls_data = raise "ValueError".
Proof.
  intros Hd Hr Ht.
  assert (He : print_externs cls_syms cls_data = raise "ValueError").
  { unfold print_externs, raise. apply (fold_result_err_elem_eq _ _ (name, data)).
    - unfold sorted_items. rewrite sort_by_perm. apply elem_of_map_to_list, Hd.
    - intros a. cbv beta iota. apply (fold_result_err_elem _ _ (SReloc r)); [exact Hr|].
      intros a'. res_simpl. unfold reloc_target. rewrite Ht. reflexivity.
    - intros a [n d] e _ Hy. cbv beta iota in Hy.
      eapply fold_result_err_only; [|exact Hy].
      intros a' y e' _ Hy'. eapply externs_step_err. exact Hy'. }
  unfold generate_vtables. res_simpl. rewrite He. reflexivity.
Qed.

(** ** [--symbol-list] *)

Definition no_line_break (c : ascii) : bool :=
  negb (Ascii.eqb c "010"%char) && negb (Ascii.eqb c "013"%char).

Lemma split_lines_go_other (c : ascii) (s : string) :
  no_line_break c = true -> split_lines_go (String c s) = Py.cons_head c (split_lines_go s).
Proof.
  destruct c as [[] [] [] [] [] [] [] []]; intros H; try reflexivity; discriminate.
Qed.

Lemma split_lines_go_line (a b : string) :
  forallb no_line_break (list_ascii_of_string a) = true ->
  split_lines_go (a +:+ String "010" b) = a :: split_lines_go b.
Proof.
  induction a as [|c a IH]; intros H; [reflexivity|].
  simpl in H. apply andb_prop in H as [Hc Ha].
  change (String c a +:+ String "010" b) with (String c (a +:+ String "010" b)).
  rewrite split_lines_go_other by exact Hc. rewrite IH by exact Ha. reflexivity.
Qed.

Definition symbol_list_entry (e : string * string) : Prop :=
  let '(n, c) := e in
  n <> "" /\ forallb (fun x => negb (Py.is_space x)) (list_ascii_of_string n) = true /\
  lacks "#" n /\
  (c = "" \/ exists t, c = String "#" t /\ forallb no_line_break (list_ascii_of_string t) = true).

Lemma space_no_line_break (x : ascii) : negb (Py.is_space x) = true -> no_line_break x = true.
Proof.
  destruct x as [[] [] [] [] [] [] [] []]; vm_compute; intros H; first [reflexivity|discriminate].
Qed.

Lemma forallb_impl_str (P Q : ascii -> bool) (s : string) :
  (forall x, P x = true -> Q x = true) ->
  forallb P (list_ascii_of_string s) = true -> forallb Q (list_ascii_of_string s) = true.
Proof.
  intros HPQ. induction s as [|c s IH]; simpl; [reflexivity|].
  intros H. apply andb_prop in H as [Hc Hs]. rewrite (HPQ c Hc), (IH Hs). reflexivity.
Qed.

Lemma cut_at_app (x : ascii) (a b : string) : lacks x a -> Py.cut_at x (a +:+ String x b) = a.
Proof.
  induction a as [|c a IH]; intros H; simpl; [rewrite Ascii.eqb_refl; reflexivity|].
  apply lacks_cons in H as [Hc Ha]. rewrite eqb_false_ne by exact Hc. rewrite IH by exact Ha.
  reflexivity.
Qed.

Lemma cut_at_lacks_id (x : ascii) (a : string) : lacks x a -> Py.cut_at x a = a.
Proof.
  induction a as [|c a IH]; intros H; simpl; [reflexivity|].
  apply lacks_cons in H as [Hc Ha]. rewrite eqb_false_ne by exact Hc. rewrite IH by exact Ha.
  reflexivity.
Qed.

Lemma strip_word (n : string) :
  n <> "" -> forallb (fun x => negb (Py.is_space x)) (list_ascii_of_string n) = true ->
  Py.strip n = n.
Proof.
  intros Hn Hs. rewrite <- (append_empty_r n) at 1. apply strip_exact; [| |reflexivity].
  - destruct n as [|c n']; [congruence|]. exists c, n'. split; [reflexivity|].
    simpl in Hs. apply andb_prop in Hs as [Hc _]. apply negb_true_iff, Hc.
  - destruct (str_snoc n Hn) as (n0 & e & ->). exists n0, e. split; [reflexivity|].
    rewrite forallb_str_app in Hs. apply andb_prop in Hs as [_ He]. simpl in He.
    rewrite andb_true_r in He. apply negb_true_iff, He.
Qed.

Lemma concat_empty_cons (x : string) (l : list string) :
  String.concat "" (x :: l) = x +:+ String.concat "" l.
Proof. destruct l; simpl; [rewrite append_empty_r|]; reflexivity. Qed.

(** X22. A [--symbol-list] file with one name per line, each name
    non-empty, without whitespace and without [#], optionally followed
    directly by a [#] comment, and every line ended by a newline, is read
    as exactly these names in this order. *)
Theorem read_symbol_list_lines (entries : list (string * string)) :
  Forall symbol_list_entry entries ->
  read_symbol_list (String.concat "" (map (fun '(n, c) => n +:+ c +:+ nl) entries)) =
  map fst entries.
Proof.
  intros H. unfold read_symbol_list.
  assert (Hs : split_lines_go (String.concat "" (map (fun '(n, c) => n +:+ c +:+ nl) entries)) =
               app (map (fun '(n, c) => n +:+ c) entries) [""]).
  { induction H as [|[n c] entries He Hes IH]; [reflexivity|].
    destruct He as (Hn & Hsp & Hh & Hc).
    assert (Hnc : forallb no_line_break (list_ascii_of_string (n +:+ c)) = true).
    { rewrite forallb_str_app. apply andb_true_intro. split.
      - eapply forallb_impl_str; [apply space_no_line_break|exact Hsp].
      - destruct Hc as [->|(t & -> & Ht)]; [reflexivity|exact Ht]. }
    cbn [map]. rewrite concat_empty_cons, <- (str_app_assoc n c nl), str_app_assoc.
    change (nl +:+ ?r) with (String "010" r).
    rewrite split_lines_go_line by exact Hnc. rewrite IH. reflexivity. }
  rewrite Hs. clear Hs.
  assert (G : forall acc,
    foldl (fun funs line =>
             let line := Py.strip (Py.cut_at "#" line) in
             if String.eqb line "" then funs else app funs [line])
          acc (app (map (fun '(n, c) => n +:+ c) entries) [""]) = app acc (map fst entries)).
  { induction H as [|[n c] entries He Hes IH]; intros acc; [simpl; symmetry; apply app_nil_r|].
    destruct He as (Hn & Hsp & Hh & Hc). cbn [map app foldl].
    assert (Hcut : Py.cut_at "#" (n +:+ c) = n).
    { destruct Hc as [->|(t & -> & _)]; [rewrite append_empty_r; apply cut_at_lacks_id, Hh|].
      apply cut_at_app, Hh. }
    rewrite Hcut, strip_word by assumption.
    destruct (String.eqb_spec n ""); [congruence|]. rewrite IH, <- app_assoc. reflexivity. }
  apply G.
Qed.

(** ** The column names of the relocation header: [re.split(r"\s\s+")] *)

(** A non-empty text whose whitespace characters stand alone, between
    two other characters. *)
Fixpoint single_spaced (s : string) : bool :=
  match s with
  | EmptyString => false
  | String c t =>
      negb (Py.is_space c) &&
      match t with
      | EmptyString => true
      | String x r => if Py.is_space x then single_spaced r else single_spaced t
      end
  end.

Lemma str_length_rev (s : string) : String.length (String.rev s) = String.length s.
Proof.
  induction s as [|c s IH]; [reflexivity|].
  rewrite rev_cons, str_length_app, IH. simpl. lia.
Qed.

Lemma split_ws2_word (n : nat) (w : string) :
  (String.length w <= n)%nat -> single_spaced w = true ->
  forall cur ws r, (String.length ws <= 1)%nat ->
  split_ws2_go cur ws (w +:+ r) = split_ws2_go (String.rev w +:+ ws +:+ cur) "" r.
Proof.
  revert w. induction n as [|n IH]; intros w Hl Hw cur ws r Hws.
  - destruct w; [discriminate|simpl in Hl; lia].
  - destruct w as [|c t]; [discriminate|]. simpl in Hw. apply andb_prop in Hw as [Hc Ht].
    apply negb_true_iff in Hc.
    change (String c t +:+ r) with (String c (t +:+ r)). cbn [split_ws2_go]. rewrite Hc.
    destruct (2 <=? String.length ws)%nat eqn:E; [apply Nat.leb_le in E; lia|].
    destruct t as [|x r1].
    + simpl. reflexivity.
    + destruct (Py.is_space x) eqn:Ex.
      * change (String x r1 +:+ r) with (String x (r1 +:+ r)). cbn [split_ws2_go]. rewrite Ex.
        simpl in Hl. rewrite (IH r1) by (simpl; lia || assumption).
        f_equal. rewrite !rev_cons, !str_app_assoc. reflexivity.
      * simpl in Hl. rewrite (IH (String x r1)) by (simpl; lia || assumption).
        f_equal. rewrite (rev_cons c), !str_app_assoc. reflexivity.
Qed.

Lemma split_ws2_spaces (sep : string) :
  all_space sep = true -> forall cur ws s, split_ws2_go cur ws (sep +:+ s) = split_ws2_go cur (String.rev sep +:+ ws) s.
Proof.
  induction sep as [|x sep IH]; intros H cur ws s; [reflexivity|].
  unfold all_space in H. simpl in H. apply andb_prop in H as [Hx Hs].
  change (String x sep +:+ s) with (String x (sep +:+ s)). cbn [split_ws2_go]. rewrite Hx, IH by exact Hs.
  rewrite rev_cons, str_app_assoc. reflexivity.
Qed.

(** X23. Column names that are non-empty and contain whitespace only as
    single characters between other characters (such as [Symbol's Name
    + Addend]), joined by any whitespace run of at least two characters,
    are split back into exactly these names by the header split of
    [collect_relocs]. *)
Theorem split_ws2_join (sep : string) (cols : list string) :
  all_space sep = true -> (2 <= String.length sep)%nat -> Forall (fun w => single_spaced w = true) cols ->
  cols <> [] -> split_ws2 (join sep cols) = cols.
Proof.
  intros Hsep Hlen Hcols Hne. unfold split_ws2, join.
  destruct cols as [|w cols]; [congruence|]. inversion Hcols as [|? ? Hw Hcols']; subst.
  clear Hcols Hne. revert w Hw.
  induction Hcols' as [|w' cols Hw' Hcols IH]; intros w Hw.
  - simpl. rewrite <- (append_empty_r w) at 1.
    rewrite (split_ws2_word (String.length w) w (le_n _) Hw "" "" "") by (simpl; lia).
    simpl. rewrite !append_empty_r, rev_involutive. reflexivity.
  - change (String.concat sep (w :: w' :: cols)) with (w +:+ sep +:+ String.concat sep (w' :: cols)).
    rewrite (split_ws2_word (String.length w) w (le_n _) Hw "" "") by (simpl; lia).
    rewrite !append_empty_r, split_ws2_spaces by exact Hsep.
    destruct w' as [|d t]; [discriminate|].
    assert (Hd : Py.is_space d = false).
    { simpl in Hw'. apply andb_prop in Hw' as [Hd _]. apply negb_true_iff, Hd. }
    assert (E : String.concat sep (String d t :: cols) = String d (t +:+
                  match cols with [] => "" | _ => sep +:+ String.concat sep cols end)).
    { destruct cols; simpl; [rewrite append_empty_r|]; reflexivity. }
    rewrite E. cbn [split_ws2_go]. rewrite Hd, !append_empty_r, str_length_rev.
    destruct (2 <=? String.length sep)%nat eqn:L; [|apply Nat.leb_gt in L; lia].
    rewrite rev_involutive. f_equal.
    rewrite <- (IH (String d t) Hw'). rewrite E. cbn [split_ws2_go]. rewrite Hd. reflexivity.
Qed.

(* ================================================================== *)
(** ** Instances of the further properties on concrete inputs *)

Lemma collect_syms_blank_last_line_witness :
  Py.strip "  " = "" /\
  collect_syms "libx.so" example_nm false (app readelf_example ["  "]) =
    error ("failed to analyze symbols in " +:+ "libx.so").
Proof.
  split; [reflexivity|].
  apply (proj2 (collect_syms_blank_last_line "libx.so" example_nm readelf_example "  " eq_refl)
           example_syms).
  vm_compute. reflexivity.
Defined.

Definition headerless_example : list string :=
  ["Symbol table '.dynsym' contains 1 entry:";
   "     1: 0000000000001139    11 FUNC    GLOBAL DEFAULT   14 read"].

Lemma collect_syms_no_header_witness :
  (forall line, line ∈ headerless_example ->
     Py.startswith (Py.drop_localentry (Py.strip line)) "Num" = false) /\
  collect_syms "libx.so" [] false headerless_example =
    error ("failed to analyze symbols in " +:+ "libx.so").
Proof.
  assert (H : forall line, line ∈ headerless_example ->
                Py.startswith (Py.drop_localentry (Py.strip line)) "Num" = false).
  { apply Forall_forall. repeat constructor. }
  split; [exact H|]. exact (collect_syms_no_header "libx.so" [] headerless_example H).
Defined.

Definition macho_example : list string :=
  ["0000000000001000 T _foo"; "0000000000002000 d _bar"; "                 U _printf"].

Definition macho_foo : sym := mk_sym "_foo" (Some 4096%Z) 0 "FUNC" "GLOBAL" "1" true None "DEFAULT".

Lemma collect_syms_macho_records_witness :
  collect_syms "libx.dylib" [] true macho_example =
    Ok [macho_foo; mk_sym "_bar" (Some 8192%Z) 0 "OBJECT" "LOCAL" "1" true None "DEFAULT"] /\
  macho_foo ∈ [macho_foo; mk_sym "_bar" (Some 8192%Z) 0 "OBJECT" "LOCAL" "1" true None "DEFAULT"] /\
  macho_shape macho_foo /\
  (is_exported false macho_foo = true -> Bind macho_foo = "GLOBAL" /\ Ndx macho_foo = "1").
Proof.
  assert (Hc : collect_syms "libx.dylib" [] true macho_example =
    Ok [macho_foo; mk_sym "_bar" (Some 8192%Z) 0 "OBJECT" "LOCAL" "1" true None "DEFAULT"])
    by (vm_compute; reflexivity).
  assert (Hin : macho_foo ∈ [macho_foo; mk_sym "_bar" (Some 8192%Z) 0 "OBJECT" "LOCAL" "1" true None "DEFAULT"])
    by (apply elem_of_cons; left; reflexivity).
  split; [exact Hc|]. split; [exact Hin|].
  exact (collect_syms_macho_records "libx.dylib" [] macho_example _ false Hc macho_foo Hin).
Defined.

Definition row_words_example : list string := ["1"; "read"; "0x10"].
Definition row_header_example : list string := ["Num"; "Name"; "Value"].
Definition row_vals_example : row := {[ "Value" := CInt 16; "Name" := CStr "read"; "Num" := CStr "1" ]}.

Lemma parse_row_columns_witness :
  NoDup row_header_example /\ NoDup ["Value"] /\
  parse_row row_words_example (make_toc row_header_example []) ["Value"] =
    Ok row_vals_example /\
  row_vals_example !! "Value" =
    (if decide ("Value" ∈ ["Value"]) then hex_cell "0x10" else Some (CStr "0x10")) /\
  row_vals_example !! "Size" = None.
Proof.
  assert (H1 : NoDup row_header_example) by (apply (bool_decide_unpack _); exact I).
  assert (H2 : NoDup ["Value"]) by apply NoDup_singleton.
  assert (H3 : parse_row row_words_example (make_toc row_header_example []) ["Value"] =
    Ok row_vals_example)
    by (vm_compute; reflexivity).
  destruct (parse_row_columns row_words_example row_header_example ["Value"] _ H1 H2 H3) as [Hc Hn].
  split; [exact H1|]. split; [exact H2|]. split; [exact H3|]. split.
  - exact (Hc 2 "Value" eq_refl).
  - apply Hn. apply (bool_decide_unpack _). exact I.
Defined.


Definition def_example : list string := ["LIBRARY libfoo.so"; "EXPORTS"; "    foo"; "    _init"].

Lemma def_exports_records_witness :
  def_sym "_init" ∈ (collect_def_exports "foo.def" (Some def_example)).1 /\
  exists n, def_sym "_init" = def_sym n /\ n <> "" /\
    forallb is_ident_c (list_ascii_of_string n) = true /\
    (is_exported true (def_sym "_init") = true <-> n <> "_init" /\ n <> "_fini").
Proof.
  assert (H : def_sym "_init" ∈ (collect_def_exports "foo.def" (Some def_example)).1).
  { replace (collect_def_exports "foo.def" (Some def_example)).1 with [def_sym "foo"; def_sym "_init"]
      by (vm_compute; reflexivity).
    apply elem_of_cons. right. apply list_elem_of_singleton. reflexivity. }
  split; [exact H|]. exact (def_exports_records "foo.def" _ true _ H).
Defined.

Lemma def_exports_round_trip_witness :
  collect_def_exports "foo.def"
    (Some (app ["LIBRARY libfoo.so" +:+ nl] (("EXPORTS" +:+ nl) ::
             map (fun n => "    " +:+ n +:+ nl) ["foo"; "bar"]))) =
  ([def_sym "foo"; def_sym "bar"], []).
Proof.
  apply (def_exports_round_trip "foo.def" "    " ("EXPORTS" +:+ nl)
           ["LIBRARY libfoo.so" +:+ nl] ["foo"; "bar"]).
  - discriminate.
  - reflexivity.
  - repeat constructor; discriminate.
  - constructor; [vm_compute; discriminate|constructor].
  - reflexivity.
Defined.

Lemma def_exports_no_exports_witness :
  Forall (fun l => Py.strip l <> "EXPORTS") ["LIBRARY libfoo.so"; "; EXPORTS foo"] /\
  collect_def_exports "foo.def" (Some ["LIBRARY libfoo.so"; "; EXPORTS foo"]) =
    ([], [warn_msg ("failed to locate symbols in " +:+ "foo.def")]).
Proof.
  assert (H : Forall (fun l => Py.strip l <> "EXPORTS") ["LIBRARY libfoo.so"; "; EXPORTS foo"])
    by (repeat constructor; vm_compute; discriminate).
  split; [exact H|]. exact (proj2 (def_exports_no_exports "foo.def" _ H)).
Defined.

Lemma read_library_name_first_witness :
  read_library_name (Some (app ["; a comment" +:+ nl]
                              (("  " +:+ "LIBRARY" +:+ " " +:+ "libfoo.so.1" +:+ nl) ::
                               ["EXPORTS" +:+ nl]))) = Some "libfoo.so.1".
Proof.
  apply read_library_name_first.
  - left. reflexivity.
  - reflexivity.
  - discriminate.
  - reflexivity.
  - reflexivity.
  - discriminate.
  - reflexivity.
  - constructor; [vm_compute; reflexivity|constructor].
Defined.

Definition soname_line_example : string :=
  " 0x000000000000000e (SONAME)             Library soname: [libfoo.so.1]".

Lemma read_soname_readelf_witness :
  read_soname "libfoo.so" (Some (Ok "libfoo.so: ELF 64-bit LSB shared object"))
    (Ok (app ["Dynamic section at offset 0x2e10 contains 24 entries:"]
             (soname_line_example :: [" 0x0000000000000001 (NEEDED) Shared library: [libc.so.6]"]))) =
  Ok (Some "libfoo.so.1").
Proof.
  apply (read_soname_readelf _ _ _ _ _ "0x000000000000000e " "             Library soname: " _ "").
  - reflexivity.
  - constructor; [vm_compute; reflexivity|constructor].
  - vm_compute. reflexivity.
  - discriminate.
  - reflexivity.
  - reflexivity.
  - reflexivity.
Defined.

Lemma output_names_of_path_witness :
  output_suffix None ("lib/" +:+ "libfoo.so" +:+ ".def") false = "libfoo.so" /\
  load_name_of None false ("lib/" +:+ "libfoo.so" +:+ ".def") (Ok None) None = Ok "libfoo.so" /\
  output_suffix None ("lib/" +:+ "libfoo.so") true = "libfoo.so" /\
  load_name_of None true ("lib/" +:+ "libfoo.so") (Ok None) None = Ok "libfoo.so".
Proof.
  apply output_names_of_path.
  - right. exists "lib". reflexivity.
  - reflexivity.
Defined.

Lemma collect_relocs_no_relocations_and_blank_end_witness :
  (exists st, relocs_loop None [] relocs_example = Ok (Continue st)) /\
  collect_relocs "libx.so" (app relocs_example ["There are no relocations in this file."]) = Ok [] /\
  collect_relocs "libx.so" (app relocs_example [""]) =
    error ("failed to analyze relocations in " +:+ "libx.so").
Proof.
  assert (Hx : exists st, relocs_loop None [] relocs_example = Ok (Continue st)).
  { exists (match relocs_loop None [] relocs_example with
            | Ok (Continue st) => st | _ => (None, []) end).
    vm_compute. reflexivity. }
  split; [exact Hx|]. destruct Hx as [st Hst].
  destruct (collect_relocs_no_relocations_and_blank_end "libx.so" "There are no relocations in this file."
              relocs_example [] st Hst) as [H1 _].
  destruct (collect_relocs_no_relocations_and_blank_end "libx.so" "" relocs_example [] st Hst)
    as [_ H2].
  split; [apply H1|apply H2]; reflexivity.
Defined.

Definition sections_example : list string :=
  ["There are 3 section headers, starting at offset 0x3000:";
   "";
   "Section Headers:";
   "  [Nr] Name              Type            Address          Off    Size   ES Flg Lk Inf Al";
   "  [ 0]                   NULL            0000000000000000 000000 000000 00      0   0  0";
   "  [ 1] .text             PROGBITS        0000000000001000 001000 000100 00  AX  0   0 16";
   "  [ 2] .comment          PROGBITS        0000000000000000 002000 000010 01  MS  0   0  1"].

Definition tools_example : tools := mk_tools true None true (Some sections_example).

Definition sections_of_example : list row :=
  match collect_sections "libx.so" tools_example with Ok l => l | Err _ => [] end.

Lemma collect_sections_allocatable_witness :
  collect_sections "libx.so" tools_example = Ok sections_of_example /\
  length sections_of_example = 1%nat /\
  forall sec, sec ∈ sections_of_example ->
    exists flg, get_str sec "Flg" = Ok flg /\ Py.contains flg "A" = true.
Proof.
  assert (H : collect_sections "libx.so" tools_example = Ok sections_of_example)
    by (vm_compute; reflexivity).
  split; [exact H|]. split; [vm_compute; reflexivity|].
  exact (collect_sections_allocatable "libx.so" tools_example _ H).
Defined.

Definition data_section_example : section := mk_section ".data.rel.ro" 4096 0 16.

Definition unrelocated_example : gmap string (list Byte.byte) :=
  match read_unrelocated_data vtable_bytes [("_ZTV1C", vtable_C)] [data_section_example] with
  | Ok d => d | Err _ => ∅ end.

Lemma read_unrelocated_data_keys_witness :
  read_unrelocated_data vtable_bytes [("_ZTV1C", vtable_C)] [data_section_example] =
    Ok unrelocated_example /\
  unrelocated_example !! "_ZTV1C" = Some vtable_bytes /\
  (forall name, is_Some (unrelocated_example !! name) <-> exists s, (name, s) ∈ [("_ZTV1C", vtable_C)]) /\
  is_err (read_unrelocated_data vtable_bytes [("_ZTV1C", vtable_C)]
            [mk_section ".text" 0 0 4096]) = true.
Proof.
  assert (H : read_unrelocated_data vtable_bytes [("_ZTV1C", vtable_C)] [data_section_example] =
                Ok unrelocated_example) by (vm_compute; reflexivity).
  split; [exact H|]. split; [vm_compute; reflexivity|]. split.
  - exact (proj1 (proj1 (read_unrelocated_data_keys vtable_bytes _ _) _ H)).
  - apply (proj2 (read_unrelocated_data_keys vtable_bytes [("_ZTV1C", vtable_C)]
                    [mk_section ".text" 0 0 4096])).
    exists "_ZTV1C", vtable_C. split; [apply list_elem_of_singleton; reflexivity|].
    vm_compute. discriminate.
Defined.

Definition slots_example : list slot :=
  match symbol_slots vtable_C vtable_bytes [reloc_to 4104 "f"] 8 x86_64_reloc_types with
  | Ok d => d | Err _ => [] end.

Lemma symbol_slots_shape_witness :
  symbol_slots vtable_C vtable_bytes [reloc_to 4104 "f"] 8 x86_64_reloc_types = Ok slots_example /\
  slots_example = [SOffset 0; SReloc (reloc_to 4104 "f")] /\
  length slots_example = ((length vtable_bytes + 8 - 1) / 8)%nat /\
  symbol_slots vtable_C vtable_bytes [] 0 x86_64_reloc_types = raise "ValueError".
Proof.
  assert (H : symbol_slots vtable_C vtable_bytes [reloc_to 4104 "f"] 8 x86_64_reloc_types =
                Ok slots_example) by (vm_compute; reflexivity).
  split; [exact H|]. split; [vm_compute; reflexivity|]. split.
  - exact (proj1 (proj1 (symbol_slots_shape vtable_C vtable_bytes _ 8 x86_64_reloc_types) _ H)).
  - apply (proj2 (symbol_slots_shape vtable_C vtable_bytes [] 0 x86_64_reloc_types)).
    + vm_compute. reflexivity.
    + reflexivity.
Defined.

Definition relocated_example : gmap string (list slot) :=
  match collect_relocated_data [("_ZTV1C", vtable_C)] {[ "_ZTV1C" := vtable_bytes ]}
          [reloc_to 4104 "f"] 8 x86_64_reloc_types with
  | Ok d => d | Err _ => ∅ end.

Lemma collect_relocated_data_keys_witness :
  collect_relocated_data [("_ZTV1C", vtable_C)] {[ "_ZTV1C" := vtable_bytes ]}
    [reloc_to 4104 "f"] 8 x86_64_reloc_types = Ok relocated_example /\
  relocated_example !! "_ZTV1C" = Some [SOffset 0; SReloc (reloc_to 4104 "f")] /\
  (forall name d, relocated_example !! name = Some d ->
     exists s b, (name, s) ∈ [("_ZTV1C", vtable_C)] /\
       ({[ "_ZTV1C" := vtable_bytes ]} : gmap string (list Byte.byte)) !! name = Some b /\
       symbol_slots s b [reloc_to 4104 "f"] 8 x86_64_reloc_types = Ok d) /\
  is_err (collect_relocated_data [("_ZTV1C", vtable_C)] ∅ [] 8 x86_64_reloc_types) = true.
Proof.
  assert (H : collect_relocated_data [("_ZTV1C", vtable_C)] {[ "_ZTV1C" := vtable_bytes ]}
                [reloc_to 4104 "f"] 8 x86_64_reloc_types = Ok relocated_example)
    by (vm_compute; reflexivity).
  split; [exact H|]. split; [vm_compute; reflexivity|]. split.
  - exact (proj2 (proj2 (collect_relocated_data_keys _ _ _ _ _) _ H)).
  - apply (proj1 (collect_relocated_data_keys [("_ZTV1C", vtable_C)] ∅ [] 8 x86_64_reloc_types)).
    exists "_ZTV1C", vtable_C. split; [apply list_elem_of_singleton; reflexivity|].
    apply lookup_empty.
Defined.

Definition empty_target_rel : rel := mk_rel 4096 "R_X86_64_RELATIVE" TEmpty.

Lemma generate_vtables_empty_target_witness :
  ({[ "_ZTV1C" := [SOffset 0; SReloc empty_target_rel] ]} : gmap string (list slot)) !! "_ZTV1C" =
    Some [SOffset 0; SReloc empty_target_rel] /\
  SReloc empty_target_rel ∈ [SOffset 0; SReloc empty_target_rel] /\
  generate_vtables [("_ZTV1C", vtable_C)] {[ "_ZTV1C" := [SOffset 0; SReloc empty_target_rel] ]} =
    raise "ValueError".
Proof.
  assert (H1 : ({[ "_ZTV1C" := [SOffset 0; SReloc empty_target_rel] ]} : gmap string (list slot))
                 !! "_ZTV1C" = Some [SOffset 0; SReloc empty_target_rel])
    by apply lookup_singleton_eq.
  assert (H2 : SReloc empty_target_rel ∈ [SOffset 0; SReloc empty_target_rel])
    by (apply elem_of_cons; right; apply list_elem_of_singleton; reflexivity).
  split; [exact H1|]. split; [exact H2|].
  exact (generate_vtables_empty_target _ _ _ _ empty_target_rel H1 H2 eq_refl).
Defined.

Lemma read_symbol_list_lines_witness :
  Forall symbol_list_entry [("foo", ""); ("bar", "# the bar function")] /\
  read_symbol_list ("foo" +:+ nl +:+ "bar# the bar function" +:+ nl) = ["foo"; "bar"].
Proof.
  assert (H : Forall symbol_list_entry [("foo", ""); ("bar", "# the bar function")]).
  { constructor; [|constructor; [|constructor]]; unfold symbol_list_entry;
      (split; [discriminate|split; [reflexivity|split; [reflexivity|]]]).
    - left. reflexivity.
    - right. exists " the bar function". split; reflexivity. }
  split; [exact H|]. exact (read_symbol_list_lines _ H).
Defined.

Lemma split_ws2_join_witness :
  split_ws2 (join "   " ["Offset"; "Info"; "Type"; "Symbol's Value"; "Symbol's Name + Addend"]) =
  ["Offset"; "Info"; "Type"; "Symbol's Value"; "Symbol's Name + Addend"].
Proof.
  apply split_ws2_join.
  - reflexivity.
  - repeat constructor.
  - repeat constructor.
  - discriminate.
Defined.
